(** * tag_api: tags, virtual machines and their many-to-many relation

    A shallow embedding of [tag_api/models.py] and [tag_api/views.py].

    The relational store is a record of four tables (lists of rows): users,
    tags, vms and the join table of [VM.tags].  A view is a function of the
    request and the store to an outcome and a new store; Python exceptions
    are an explicit outcome, and the store survives an exception (the views
    run without a transaction, every statement is committed on its own).

    The store behaves as Django's default database does: text is compared
    byte for byte, [iexact] folds ASCII case only, a regular expression
    never matches NULL, and primary keys, unique columns and foreign keys
    are constraints whose violation raises [IntegrityError].  The [__regex]
    lookup is a function the database calls on each row it evaluates: on
    a text it runs [re.search], and a pattern that does not compile makes
    the query raise [OperationalError]; on NULL it answers without looking
    at the pattern.  Which rows the database evaluates a lookup on is its
    own choice: here the conditions of a query are evaluated on a row in
    the order in which the view adds them, up to the first that does not
    hold, and the lookup of a join on the joined rows.  The theorems on
    patterns that do not compile are stated for the cases in which that
    choice makes no difference, and the rows of a listing of VMs up to
    their order.

    Three library functions are not part of the repository and are taken as
    parameters: the conversion of a request string to a UUID
    ([UUIDField.to_python]), the conversion to an integer key
    ([AutoField.get_prep_value], Python's [int]) and the regular-expression
    search of the [__regex] lookup, each with its failure.  Values drawn
    from outside ([uuid.uuid4], the clock of [auto_now_add]) are arguments
    of the views that draw them. *)

From Stdlib Require Import List String Ascii ZArith NArith Bool Arith Lia.
From Stdlib Require Import Permutation.
Import ListNotations.
Local Open Scope string_scope.
Local Open Scope list_scope.

(** ** Python strings *)

(** [str.isspace] on one ASCII character: TAB..CR, FS..US and space. *)
Definition is_space (c : ascii) : bool :=
  let n := nat_of_ascii c in
  (((9 <=? n) && (n <=? 13)) || ((28 <=? n) && (n <=? 32)))%nat.

Fixpoint lstrip (s : string) : string :=
  match s with
  | EmptyString => EmptyString
  | String c r => if is_space c then lstrip r else s
  end.

Fixpoint rstrip (s : string) : string :=
  match s with
  | EmptyString => EmptyString
  | String c r =>
      match rstrip r with
      | EmptyString => if is_space c then EmptyString else String c EmptyString
      | r' => String c r'
      end
  end.

(** [s.strip()] *)
Definition strip (s : string) : string := rstrip (lstrip s).

(** [s.split(sep)] for a one-character separator. *)
Fixpoint split (sep : ascii) (s : string) : list string :=
  match s with
  | EmptyString => [EmptyString]
  | String c r =>
      if Ascii.eqb c sep then EmptyString :: split sep r
      else match split sep r with
           | h :: t => String c h :: t
           | [] => [String c EmptyString]
           end
  end.

Definition lower_ascii (c : ascii) : ascii :=
  let n := nat_of_ascii c in
  if ((65 <=? n) && (n <=? 90))%nat then ascii_of_nat (n + 32) else c.

Fixpoint lower (s : string) : string :=
  match s with
  | EmptyString => EmptyString
  | String c r => String (lower_ascii c) (lower r)
  end.

(** ** Rows (models.py) *)

(** A UUID is its 128-bit integer. *)
Abbreviation uuid := N (only parsing).

Module UserProfile.
Record t := mk { user_id : Z; user_name : string }.
End UserProfile.

Module TagsModel.
(** [user_id] is the foreign-key column: the owner's [UserProfile.user_id]. *)
Record t := mk {
  tag_id : uuid;
  tag_name : option string;
  scope : option string;
  user_id : Z
}.
End TagsModel.

Module VM.
Record t := mk { vm_id : uuid; vm_name : string; creation_date : string }.
End VM.

(** The store.  [vms_tags] is the join table of [VM.tags]: a row is
    [(vm_id, tag_id)]. *)
Record Store := mkStore {
  users : list UserProfile.t;
  tags : list TagsModel.t;
  vms : list VM.t;
  vms_tags : list (uuid * uuid)
}.

(** ** Exceptions and responses *)

(** The exception classes the views can meet, each with the text it carries.
    [ValidationError] carries the source's own message when it is raised by
    [TagsModel.save]. *)
Inductive exn :=
| ValidationError (m : string)
| DoesNotExist (m : string)
| Http404 (m : string)
| MultipleObjectsReturned (m : string)
| FieldError (m : string)
| IntegrityError (m : string)
| ValueError (m : string)
| UnboundLocalError (m : string)
| OperationalError (m : string).

(** The message of a response: a fixed text, or a format string filled with
    an exception ([pre ++ str(e) ++ post]). *)
Inductive message :=
| Text (s : string)
| Format (pre : string) (e : exn) (post : string).

(** One entry of the data of [VMs.get]. *)
Record vm_entry := mkEntry {
  entry_vm_id : option string;
  entry_vm_name : string;
  entry_tags : list (option string * option string)
}.

Inductive payload :=
| NoData
| EmptyData
| VMData (l : list vm_entry).

Record JsonResponse := mkResponse {
  status : string;
  error_code : Z;
  msg : message;
  data : payload
}.

(** ** Store computations *)

Inductive outcome (A : Type) :=
| Ok (a : A)
| Raise (e : exn).
Arguments Ok {A} a.
Arguments Raise {A} e.

Definition M (A : Type) : Type := Store -> outcome A * Store.

Definition ret {A} (a : A) : M A := fun s => (Ok a, s).
Definition raise {A} (e : exn) : M A := fun s => (Raise e, s).
Definition bind {A B} (m : M A) (f : A -> M B) : M B :=
  fun s => match m s with
           | (Ok a, s') => f a s'
           | (Raise e, s') => (Raise e, s')
           end.
Definition get : M Store := fun s => (Ok s, s).
Definition put (s : Store) : M unit := fun _ => (Ok tt, s).

(** [try: body  except ...: handler]; the handler sees the store as the
    body left it. *)
Definition try_except {A} (body : M A) (handler : exn -> M A) : M A :=
  fun s => match body s with
           | (Ok a, s') => (Ok a, s')
           | (Raise e, s') => handler e s'
           end.

Notation "x <- c1 ;; c2" := (bind c1 (fun x => c2))
  (at level 61, c1 at next level, right associativity).
Notation "c1 ;;; c2" := (bind c1 (fun _ => c2))
  (at level 61, right associativity).

(** [c1 & c2] in the condition of a query: [c2] is evaluated on the rows
    where [c1] holds. *)
Definition and_then (c1 c2 : M bool) : M bool :=
  b <- c1 ;;
  if b then c2 else ret false.

Notation "c1 &&& c2" := (and_then c1 c2) (at level 40, left associativity).

(** The rows of a table or join that satisfy the condition of a query;
    the first row on which the condition raises ends the query. *)
Fixpoint select {A} (cond : A -> M bool) (rows : list A) : M (list A) :=
  match rows with
  | [] => ret []
  | r :: rest =>
      b <- cond r ;;
      kept <- select cond rest ;;
      ret (if b then r :: kept else kept)
  end.

(** ** Lookups *)

(** [field=value] on a nullable text column: [value=None] is [IS NULL], a
    string is [=] (which no NULL satisfies). *)
Definition exact (col value : option string) : bool :=
  match col, value with
  | None, None => true
  | Some a, Some b => String.eqb a b
  | _, _ => false
  end.

(** [field__iexact=value]: equality up to ASCII case; NULL matches nothing. *)
Definition iexact (col : option string) (value : string) : bool :=
  match col with
  | Some a => String.eqb (lower a) (lower value)
  | None => false
  end.

(** [get()] on the rows a filter selected. *)
Definition get_one {A} (model : string) (rows : list A) : M A :=
  match rows with
  | [] => raise (DoesNotExist (model ++ " matching query does not exist."))
  | [r] => ret r
  | _ :: _ :: _ =>
      raise (MultipleObjectsReturned ("get() returned more than one " ++ model))
  end.

(** [get_object_or_404]: [DoesNotExist] becomes [Http404], any other
    exception of the query passes through. *)
Definition get_object_or_404 {A} (model : string) (query : M A) : M A :=
  try_except query
    (fun e => match e with
              | DoesNotExist _ =>
                  raise (Http404 ("No " ++ model ++ " matches the given query."))
              | _ => raise e
              end).

(** The tags of a VM: the join of the join table with the tag table. *)
Definition VM_tags (s : Store) (vm_id : uuid) : list TagsModel.t :=
  flat_map (fun r : uuid * uuid =>
              if N.eqb (fst r) vm_id
              then filter (fun t => N.eqb (TagsModel.tag_id t) (snd r)) (tags s)
              else [])
           (vms_tags s).

(** [.first()] on an unordered queryset orders by primary key. *)
Fixpoint first_by_pk (rows : list TagsModel.t) : option TagsModel.t :=
  match rows with
  | [] => None
  | t :: rest =>
      match first_by_pk rest with
      | Some t' => if N.ltb (TagsModel.tag_id t') (TagsModel.tag_id t)
                   then Some t' else Some t
      | None => Some t
      end
  end.

Definition has_row (r : uuid * uuid) (rows : list (uuid * uuid)) : bool :=
  existsb (fun r' => N.eqb (fst r') (fst r) && N.eqb (snd r') (snd r)) rows.

(** ** models.py *)

(** INSERT of a tag row: the primary key and [unique_together] are
    constraints of the table. *)
Definition insert_tag (t : TagsModel.t) : M unit :=
  s <- get ;;
  if existsb (fun t' => N.eqb (TagsModel.tag_id t') (TagsModel.tag_id t)) (tags s)
  then raise (IntegrityError "UNIQUE constraint failed: tags.tag_id")
  else if existsb (fun t' =>
                     match TagsModel.tag_name t, TagsModel.scope t with
                     | Some _, Some _ =>
                         exact (TagsModel.tag_name t') (TagsModel.tag_name t)
                         && exact (TagsModel.scope t') (TagsModel.scope t)
                     | _, _ => false
                     end) (tags s)
  then raise (IntegrityError "UNIQUE constraint failed: tags.tag_name, tags.scope")
  else put (mkStore (users s) (tags s ++ [t]) (vms s) (vms_tags s)).

(** [TagsModel.save]; returns [self] as the method leaves it. *)
Definition TagsModel_save (self : TagsModel.t) : M TagsModel.t :=
  match TagsModel.tag_name self with
  | None | Some EmptyString =>
      raise (ValidationError "tag_name is required and cannot be empty.")
  | Some _ =>
      let self :=
        TagsModel.mk (TagsModel.tag_id self) (TagsModel.tag_name self)
          (match TagsModel.scope self with
           | Some EmptyString => None
           | sc => sc
           end)
          (TagsModel.user_id self) in
      s <- get ;;
      if existsb (fun t => exact (TagsModel.tag_name t) (TagsModel.tag_name self)
                           && exact (TagsModel.scope t) (TagsModel.scope self))
                 (tags s)
      then raise (ValidationError "This tag already exists.")
      else insert_tag self ;;; ret self
  end.

(** [VM.objects.create(vm_name=...)]: INSERT of a VM row. *)
Definition VM_objects_create (uuid4 : uuid) (now : string)
    (vm_name : option string) : M VM.t :=
  match vm_name with
  | None => raise (IntegrityError "NOT NULL constraint failed: vms.vm_name")
  | Some n =>
      s <- get ;;
      if existsb (fun v => N.eqb (VM.vm_id v) uuid4) (vms s)
      then raise (IntegrityError "UNIQUE constraint failed: vms.vm_id")
      else if existsb (fun v => String.eqb (VM.vm_name v) n) (vms s)
      then raise (IntegrityError "UNIQUE constraint failed: vms.vm_name")
      else
        let vm := VM.mk uuid4 n now in
        put (mkStore (users s) (tags s) (vms s ++ [vm]) (vms_tags s)) ;;;
        ret vm
  end.

(** [vm_instance.delete()]: the rows of the join table go with the VM. *)
Definition VM_delete (vm : VM.t) : M unit :=
  s <- get ;;
  put (mkStore (users s) (tags s)
         (filter (fun v => negb (N.eqb (VM.vm_id v) (VM.vm_id vm))) (vms s))
         (filter (fun r => negb (N.eqb (fst r) (VM.vm_id vm))) (vms_tags s))).

(** The names a lookup keyword on [VM] may resolve to.  [VM] declares its
    own primary key, so the model has no automatic [id] field. *)
Inductive VM_field := F_vm_id | F_vm_name | F_creation_date | F_tags.

Definition resolve_VM_field (kw : string) : option VM_field :=
  if String.eqb kw "pk" then Some F_vm_id
  else if String.eqb kw "vm_id" then Some F_vm_id
  else if String.eqb kw "vm_name" then Some F_vm_name
  else if String.eqb kw "creation_date" then Some F_creation_date
  else if String.eqb kw "tags" then Some F_tags
  else None.

(** ** Requests *)

(** The JSON body of [POST tags]. *)
Record TagsPostData := mkTagsPost {
  post_tag_name : option string;
  post_scope : option string;
  post_user_id : option string
}.

(** The query string of [DELETE tags]. *)
Record TagsDeleteQuery := mkTagsDelete {
  del_tag_id : option string;
  del_user_id : option string
}.

(** The JSON body of [POST assign_unassign_tags]. *)
Record AssignData := mkAssign {
  action : option string;
  assign_tag_name : option string;
  vm_ids : list string
}.

(** The query string of [GET vms]. *)
Record VMsGetQuery := mkVMsGet {
  get_vm_id : option string;
  tag_names : list string;
  scopes : list string
}.

(** The JSON body of [POST vms]. *)
Record VMsPostData := mkVMsPost {
  post_vm_name : option string;
  post_tags : list string;
  vm_user_id : option string
}.

Definition success (m : string) (d : payload) : JsonResponse :=
  mkResponse "success" 0 (Text m) d.

Definition error (code : Z) (m : message) : JsonResponse :=
  mkResponse "error" code m NoData.

(** A query parameter that passes the guard
    [x == None or x == 'None' or x == '']. *)
Definition provided (x : option string) : option string :=
  match x with
  | None => None
  | Some v => if String.eqb v "None" || String.eqb v "" then None else Some v
  end.

(** [x == v] for a request value that may be absent. *)
Definition is_str (x : option string) (v : string) : bool :=
  match x with
  | Some a => String.eqb a v
  | None => false
  end.

Section Views.

(** [UUIDField.to_python] on a request string; [None] is its
    [ValidationError]. *)
Variable to_uuid : string -> option uuid.

(** [int(value)] of [AutoField.get_prep_value]; [None] is its
    [ValueError]. *)
Variable to_int : string -> option Z.

(** [re.search(pattern, text)] of the [__regex] lookup: the pattern is
    compiled, then searched for in the text; [None] is the [re.error] of a
    pattern that does not compile. *)
Variable re_search : string -> option (string -> bool).

(** [field__regex=pattern] on one row.  NULL matches nothing, and the
    pattern is not looked at; on a text the database calls [re.search],
    whose error it reports as [OperationalError]. *)
Definition regex (col : option string) (pattern : string) : M bool :=
  match col with
  | Some text =>
      match re_search pattern with
      | Some matches => ret (matches text)
      | None => raise (OperationalError "user-defined function raised exception")
      end
  | None => ret false
  end.

Definition prep_uuid (v : string) : M uuid :=
  match to_uuid v with
  | Some u => ret u
  | None => raise (ValidationError (v ++ " is not a valid UUID."))
  end.

Fixpoint prep_uuids (vs : list string) : M (list uuid) :=
  match vs with
  | [] => ret []
  | v :: rest =>
      u <- prep_uuid v ;;
      us <- prep_uuids rest ;;
      ret (u :: us)
  end.

Definition prep_int (v : string) : M Z :=
  match to_int v with
  | Some n => ret n
  | None => raise (ValueError ("Field 'user_id' expected a number but got " ++ v))
  end.

(** [UserProfile.objects.get(user_id=user_id)]; the key is never NULL,
    so [user_id=None] selects no row. *)
Definition UserProfile_objects_get (user_id : option string) : M UserProfile.t :=
  match user_id with
  | None => get_one "UserProfile" []
  | Some v =>
      n <- prep_int v ;;
      s <- get ;;
      get_one "UserProfile"
        (filter (fun u => Z.eqb (UserProfile.user_id u) n) (users s))
  end.

(** [TagsModel.objects.get(tag_name=tag_name)] *)
Definition TagsModel_objects_get (tag_name : option string) : M TagsModel.t :=
  s <- get ;;
  get_one "TagsModel"
    (filter (fun t => exact (TagsModel.tag_name t) tag_name) (tags s)).

(** [VM.objects.get(vm_id=vm_id)] *)
Definition VM_objects_get_vm_id (vm_id : string) : M VM.t :=
  u <- prep_uuid vm_id ;;
  s <- get ;;
  get_one "VM" (filter (fun v => N.eqb (VM.vm_id v) u) (vms s)).

(** [VM.objects.get(kw=value)] *)
Definition VM_objects_get (kw : string) (value : string) : M VM.t :=
  match resolve_VM_field kw with
  | None =>
      raise (FieldError ("Cannot resolve keyword '" ++ kw ++ "' into field. "
                         ++ "Choices are: creation_date, tags, vm_id, vm_name"))
  | Some F_vm_id => VM_objects_get_vm_id value
  | Some F_vm_name =>
      s <- get ;;
      get_one "VM" (filter (fun v => String.eqb (VM.vm_name v) value) (vms s))
  | Some F_creation_date =>
      s <- get ;;
      get_one "VM"
        (filter (fun v => String.eqb (VM.creation_date v) value) (vms s))
  | Some F_tags =>
      u <- prep_uuid value ;;
      s <- get ;;
      get_one "VM"
        (filter (fun v => has_row (VM.vm_id v, u) (vms_tags s)) (vms s))
  end.

(** *** Tags *)

(** [Tags.post].  The body is JSON, so [request.POST] is empty and
    [tags_form], whose fields are all optional, is valid. *)
Definition Tags_post (uuid4 : uuid) (request : TagsPostData) : M JsonResponse :=
  try_except
    (let tag_name := post_tag_name request in
     let scope := match post_scope request with
                  | Some EmptyString => None
                  | sc => sc
                  end in
     let user_id := post_user_id request in
     user_profile <- get_object_or_404 "UserProfile"
                       (UserProfile_objects_get user_id) ;;
     let tag := TagsModel.mk uuid4 tag_name scope
                  (UserProfile.user_id user_profile) in
     TagsModel_save tag ;;;
     ret (success "Tag Added successfully" EmptyData))
    (fun e =>
       match e with
       | ValidationError _ => ret (error 103 (Format "error: " e " "))
       | IntegrityError _ => ret (error 102 (Text "This Tag Already exist"))
       | _ => raise e
       end).

(** [TagsModel.objects.filter(tag_id=tag_id).delete()]: the rows of the
    join table that point to a deleted tag go with it. *)
Definition delete_tags_by_id (u : uuid) : M unit :=
  s <- get ;;
  let doomed := filter (fun t => N.eqb (TagsModel.tag_id t) u) (tags s) in
  put (mkStore (users s)
         (filter (fun t => negb (N.eqb (TagsModel.tag_id t) u)) (tags s))
         (vms s)
         (filter (fun r => negb (existsb (fun t => N.eqb (TagsModel.tag_id t) (snd r))
                                   doomed))
            (vms_tags s))).

(** [Tags.delete] *)
Definition Tags_delete (request : TagsDeleteQuery) : M JsonResponse :=
  try_except
    (match provided (del_tag_id request) with
     | None => ret (error 100 (Text "Tag id is required"))
     | Some tag_id =>
     match provided (del_user_id request) with
     | None => ret (error 400 (Text "User id is required"))
     | Some user_id =>
         u <- prep_uuid tag_id ;;
         s <- get ;;
         let is_assigned :=
           existsb (fun t => N.eqb (TagsModel.tag_id t) u
                             && existsb (fun r => N.eqb (snd r) (TagsModel.tag_id t))
                                  (vms_tags s))
                   (tags s) in
         if is_assigned
         then ret (error 101
                     (Text "Tag is assigned to VMs. Unassign it before deleting."))
         else
           let is_admin := String.eqb user_id "1" in
           n <- prep_int user_id ;;
           let is_exist :=
             List.length
               (filter (fun t => N.eqb (TagsModel.tag_id t) u
                                 && Z.eqb (TagsModel.user_id t) n)
                       (tags s)) in
           if is_admin || (0 <? is_exist)%nat
           then
             delete_tags_by_id u ;;;
             ret (mkResponse "success" 0 (Text "Tag deleted successfully.") NoData)
           else ret (error 100 (Text "Invalid Request."))
     end end)
    (fun e => ret (error 101 (Format "error: " e ""))).

(** *** AssignUnassignTags *)

(** [tag.vms.add( *vm_ids )]: the ids are prepared first, the pairs the
    join table lacks are inserted in one atomic step, and the foreign key
    to [vms] is a constraint of the table. *)
Definition vms_add (tag : TagsModel.t) (vm_ids : list string) : M unit :=
  target_ids <- prep_uuids vm_ids ;;
  s <- get ;;
  let missing :=
    filter (fun v => negb (has_row (v, TagsModel.tag_id tag) (vms_tags s)))
           (nodup N.eq_dec target_ids) in
  if forallb (fun v => existsb (fun vm => N.eqb (VM.vm_id vm) v) (vms s)) missing
  then put (mkStore (users s) (tags s) (vms s)
              (vms_tags s ++ map (fun v => (v, TagsModel.tag_id tag)) missing))
  else raise (IntegrityError "FOREIGN KEY constraint failed").

(** [tag.vms.remove( *vm_ids )] *)
Definition vms_remove (tag : TagsModel.t) (vm_ids : list string) : M unit :=
  old_ids <- prep_uuids vm_ids ;;
  s <- get ;;
  put (mkStore (users s) (tags s) (vms s)
         (filter (fun r => negb (N.eqb (snd r) (TagsModel.tag_id tag)
                                 && existsb (N.eqb (fst r)) old_ids))
            (vms_tags s))).

(** [AssignUnassignTags.post] *)
Definition AssignUnassignTags_post (request : AssignData) : M JsonResponse :=
  try_except
    (let action := action request in
     if is_str action "assign" then
       let tag_name := assign_tag_name request in
       let vm_ids := vm_ids request in
       tag <- get_object_or_404 "TagsModel" (TagsModel_objects_get tag_name) ;;
       vms_add tag vm_ids ;;;
       ret (success "Tag Assigned to Objects successfully" EmptyData)
     else if is_str action "unassign" then
       let tag_name := assign_tag_name request in
       let vm_ids := vm_ids request in
       tag <- get_object_or_404 "TagsModel" (TagsModel_objects_get tag_name) ;;
       vms_remove tag vm_ids ;;;
       ret (success "Tag Unassigned from Objects successfully" EmptyData)
     else ret (error 108 (Text "Invalid action")))
    (fun e =>
       match e with
       | ValidationError _ => ret (error 103 (Format "error: " e " "))
       | _ => ret (error 101 (Format "error: " e ""))
       end).

(** *** VMs *)

(** The rows of [queryset.filter(tags__...)]: the join pairs a VM with
    each of its tags, and yields the VM once for each pair that satisfies
    the lookup. *)
Definition filter_tags (lookup : TagsModel.t -> M bool) (queryset : list VM.t)
    : M (list VM.t) :=
  s <- get ;;
  rows <- select (fun r : VM.t * TagsModel.t => lookup (snd r))
            (flat_map (fun vm => map (pair vm) (VM_tags s (VM.vm_id vm)))
               queryset) ;;
  ret (map fst rows).

(** The loop over the scope filters of [VMs.get]. *)
Fixpoint filter_scopes (scopes : list string) (queryset : list VM.t)
    : M (list VM.t) :=
  match scopes with
  | [] => ret queryset
  | scope :: rest =>
      queryset <- filter_tags
                    (fun t => regex (TagsModel.scope t) (strip scope))
                    queryset ;;
      filter_scopes rest queryset
  end.

Definition entry_of (s : Store) (vm_id : option string) (vm_instance : VM.t)
    : vm_entry :=
  mkEntry vm_id (VM.vm_name vm_instance)
    (map (fun tag => (TagsModel.tag_name tag, TagsModel.scope tag))
         (VM_tags s (VM.vm_id vm_instance))).

(** The queryset of the list branch of [VMs.get], evaluated. *)
Definition VMs_get_queryset (tag_names scopes : list string) : M (list VM.t) :=
  s <- get ;;
  let queryset := vms s in
  queryset <-
    match tag_names with
    | [] => ret queryset
    | _ :: _ =>
        let or_query := fun t =>
          existsb (fun tag_name => iexact (TagsModel.tag_name t) (strip tag_name))
                  tag_names in
        rows <- filter_tags (fun t => ret (or_query t)) queryset ;;
        let vm_ids := nodup N.eq_dec (map VM.vm_id rows) in
        ret (filter (fun vm => existsb (N.eqb (VM.vm_id vm)) vm_ids) queryset)
    end ;;
  filter_scopes scopes queryset.

(** [VMs.get] *)
Definition VMs_get (request : VMsGetQuery) : M JsonResponse :=
  try_except
    (let vm_id := get_vm_id request in
     let tag_names := tag_names request in
     let scopes := scopes request in
     vm_data <-
       match vm_id with
       | Some (String _ _ as v) =>
           vm_instance <- get_object_or_404 "VM" (VM_objects_get_vm_id v) ;;
           s <- get ;;
           ret [entry_of s vm_id vm_instance]
       | _ =>
           vm_instances <- VMs_get_queryset tag_names scopes ;;
           s <- get ;;
           ret (map (entry_of s vm_id) vm_instances)
       end ;;
     ret (success "VMs retrieved successfully" (VMData vm_data)))
    (fun e => ret (error 101 (Format "Error: " e ""))).

(** The loop of [VMs.post] over the tag specs; [k] counts the UUIDs drawn
    so far. *)
Fixpoint attach_tags (uuid4 : nat -> uuid) (k : nat)
    (user_profile : UserProfile.t) (vm_instance : VM.t) (tags_ : list string)
    : M unit :=
  match tags_ with
  | [] => ret tt
  | tag_scope :: rest =>
      match split ":" tag_scope with
      | [tag_name; scope] =>
          s <- get ;;
          let found :=
            first_by_pk
              (filter (fun t => exact (TagsModel.tag_name t) (Some tag_name)
                                && exact (TagsModel.scope t) (Some scope))
                      (tags s)) in
          tk <- match found with
                | Some t => ret (t, k)
                | None =>
                    t <- TagsModel_save
                           (TagsModel.mk (uuid4 k) (Some tag_name) (Some scope)
                              (UserProfile.user_id user_profile)) ;;
                    ret (t, S k)
                end ;;
          let tag_instance := fst tk in
          s <- get ;;
          (if has_row (VM.vm_id vm_instance, TagsModel.tag_id tag_instance)
                (vms_tags s)
           then ret tt
           else put (mkStore (users s) (tags s) (vms s)
                       (vms_tags s ++ [(VM.vm_id vm_instance,
                                        TagsModel.tag_id tag_instance)]))) ;;;
          attach_tags uuid4 (snd tk) user_profile vm_instance rest
      | _ => raise (ValueError "wrong number of values to unpack (expected 2)")
      end
  end.

(** The two [except] clauses of [VMs.post]; [vm_instance] is bound once
    the VM row is inserted. *)
Definition VMs_post_except (vm_instance : option VM.t) (e : exn)
    : M JsonResponse :=
  match e with
  | ValidationError _ =>
      match vm_instance with
      | Some vm =>
          VM_delete vm ;;;
          ret (error 103 (Format "Validation error: " e ""))
      | None => raise (UnboundLocalError "vm_instance")
      end
  | _ => ret (error 101 (Format "Error: " e ""))
  end.

(** [VMs.post].  [uuid4 0] is the UUID drawn for the VM, [uuid4 1],
    [uuid4 2], ... those drawn for the tags it creates. *)
Definition VMs_post (uuid4 : nat -> uuid) (now : string)
    (request : VMsPostData) : M JsonResponse :=
  let vm_name := post_vm_name request in
  let tags_ := post_tags request in
  let user_id := vm_user_id request in
  s <- get ;;
  let existing_vm :=
    match vm_name with
    | Some n => existsb (fun v => String.eqb (VM.vm_name v) n) (vms s)
    | None => false
    end in
  if existing_vm
  then ret (error 102 (Text "This VM Already exists."))
  else
    fun s1 =>
      match VM_objects_create (uuid4 0%nat) now vm_name s1 with
      | (Raise e, s2) => VMs_post_except None e s2
      | (Ok vm_instance, s2) =>
          try_except
            ((match tags_ with
              | [] => ret tt
              | _ :: _ =>
                  user_profile <- get_object_or_404 "UserProfile"
                       (UserProfile_objects_get user_id) ;;
                  attach_tags uuid4 1 user_profile vm_instance tags_
              end) ;;;
             ret (success "VM added successfully." EmptyData))
            (VMs_post_except (Some vm_instance)) s2
      end.

(** [VMs.delete] *)
Definition VMs_delete (vm_id : string) : M JsonResponse :=
  try_except
    (vm <- VM_objects_get "id" vm_id ;;
     VM_delete vm ;;;
     ret (mkResponse "success" 0 (Text "VM deleted successfully") NoData))
    (fun e =>
       match e with
       | DoesNotExist _ => ret (error 100 (Text "VM not found"))
       | _ => ret (error 101 (Format "Error: " e ""))
       end).

End Views.

(** ** Instances of the library functions

    Simple conversions that agree with the library ones on canonical input:
    a UUID written as 32 hexadecimal digits with optional hyphens, an
    integer written in decimal digits, a pattern without special
    characters (which [re.search] finds as a substring).  The examples run
    the views with them. *)

Definition hex_digit (c : ascii) : option N :=
  let n := N_of_ascii c in
  if ((48 <=? n) && (n <=? 57))%N then Some (n - 48)%N
  else if ((97 <=? n) && (n <=? 102))%N then Some (n - 87)%N
  else if ((65 <=? n) && (n <=? 70))%N then Some (n - 55)%N
  else None.

Fixpoint hex_value (acc : N) (s : string) : option N :=
  match s with
  | EmptyString => Some acc
  | String c r =>
      match hex_digit c with
      | Some d => hex_value (16 * acc + d)%N r
      | None => None
      end
  end.

Fixpoint remove_hyphens (s : string) : string :=
  match s with
  | EmptyString => EmptyString
  | String c r => if Ascii.eqb c "-" then remove_hyphens r
                  else String c (remove_hyphens r)
  end.

Definition uuid_of_hex (s : string) : option uuid :=
  let h := remove_hyphens s in
  if Nat.eqb (String.length h) 32 then hex_value 0 h else None.

Fixpoint decimal_value (acc : Z) (s : string) : option Z :=
  match s with
  | EmptyString => Some acc
  | String c r =>
      let n := N_of_ascii c in
      if ((48 <=? n) && (n <=? 57))%N
      then decimal_value (10 * acc + Z.of_N (n - 48))%Z r
      else None
  end.

Definition int_of_decimal (s : string) : option Z :=
  match s with
  | EmptyString => None
  | _ => decimal_value 0 s
  end.

Fixpoint contains (pattern text : string) : bool :=
  String.prefix pattern text
  || match text with
     | EmptyString => false
     | String _ r => contains pattern r
     end.

(** The characters with a meaning of their own in a pattern. *)
Definition is_special (c : ascii) : bool :=
  existsb (Ascii.eqb c)
    ["."; "^"; "$"; "*"; "+"; "?"; "{"; "}"; "["; "]"; "\"; "|"; "("; ")"]%char.

Fixpoint all_plain (pattern : string) : bool :=
  match pattern with
  | EmptyString => true
  | String c r => negb (is_special c) && all_plain r
  end.

(** [re.search] on the patterns of the examples: a pattern without special
    character is searched for as it stands.  Any other pattern is taken as
    one that does not compile, which is so for ["("], the only one used. *)
Definition literal_search (pattern : string) : option (string -> bool) :=
  if all_plain pattern then Some (contains pattern) else None.

(** ** Example stores *)

Definition alice : UserProfile.t := UserProfile.mk 1%Z "alice".
Definition bob : UserProfile.t := UserProfile.mk 2%Z "bob".

Definition tag_env_prod : TagsModel.t :=
  TagsModel.mk 17%N (Some "env") (Some "prod") 2%Z.
Definition tag_env_dev : TagsModel.t :=
  TagsModel.mk 18%N (Some "env") (Some "dev") 2%Z.
Definition tag_env_null : TagsModel.t :=
  TagsModel.mk 19%N (Some "env") None 2%Z.
Definition tag_team : TagsModel.t :=
  TagsModel.mk 20%N (Some "team") (Some "infra") 2%Z.

Definition vm_a : VM.t := VM.mk 161%N "vm-a" "2024-01-01T00:00:00".
Definition vm_b : VM.t := VM.mk 162%N "vm-b" "2024-01-02T00:00:00".

(** The request strings of the keys above. *)
Definition id_17 := "00000000-0000-0000-0000-000000000011".
Definition id_20 := "00000000-0000-0000-0000-000000000014".
Definition id_99 := "00000000-0000-0000-0000-000000000063".
Definition id_161 := "00000000-0000-0000-0000-0000000000a1".
Definition id_162 := "00000000-0000-0000-0000-0000000000a2".
Definition id_163 := "00000000-0000-0000-0000-0000000000a3".

(** Two users, two tags named [env], one tag [team]; [vm-a] carries
    [env:prod], and nothing carries [team]. *)
Definition store_1 : Store :=
  mkStore [alice; bob] [tag_env_prod; tag_env_dev; tag_team] [vm_a; vm_b]
    [(161, 17)]%N.

(** One tag [env] without scope, no VM. *)
Definition store_2 : Store :=
  mkStore [alice; bob] [tag_env_null] [] [].

(** [vm-a] carries [team:infra] and [env:prod]; [team] names one tag. *)
Definition store_3 : Store :=
  mkStore [alice; bob] [tag_team; tag_env_prod] [vm_a] [(161, 20); (161, 17)]%N.

(** [store_3] once [team] is unassigned from [vm-a]. *)
Definition store_3_unassigned : Store :=
  mkStore [alice; bob] [tag_team; tag_env_prod] [vm_a] [(161, 17)]%N.

(** [store_1] with the row that attaches [team:infra] to [vm-b]. *)
Definition store_1_assigned : Store :=
  mkStore [alice; bob] [tag_env_prod; tag_env_dev; tag_team] [vm_a; vm_b]
    [(161, 17); (162, 20)]%N.

(** [store_1] with one more VM, [vm-c], without tags. *)
Definition store_1_vm_c : Store :=
  mkStore [alice; bob] [tag_env_prod; tag_env_dev; tag_team]
    [vm_a; vm_b; VM.mk 200 "vm-c" "2024-02-01T00:00:00"] [(161, 17)]%N.

(** [vm-a] carries [env] without scope. *)
Definition store_4 : Store :=
  mkStore [alice; bob] [tag_env_null] [vm_a] [(161, 19)]%N.

(** The request string of the key 30. *)
Definition id_30 := "00000000-0000-0000-0000-00000000001e".

(** Users only: the store before any call. *)
Definition store_0 : Store := mkStore [alice; bob] [] [] [].

(** [store_0] after [VMs.post] of [vm-a] with the tag spec [env:prod] by
    user 2, the keys drawn being 200 and 201. *)
Definition store_0_vm_a : Store :=
  mkStore [alice; bob] [TagsModel.mk 201 (Some "env") (Some "prod") 2]
    [VM.mk 200 "vm-a" "2024-02-01T00:00:00"] [(200, 201)]%N.

(** [store_1] after a [VMs.post] that created the tag [x:y] and then failed
    on the spec [:c]. *)
Definition store_1_tag_x : Store :=
  mkStore [alice; bob]
    [tag_env_prod; tag_env_dev; tag_team; TagsModel.mk 201 (Some "x") (Some "y") 1]
    [vm_a; vm_b] [(161, 17)]%N.

(** The UUIDs an example call draws. *)
Definition draws (k : nat) : uuid := (200 + N.of_nat k)%N.

(** ** Notions the theorems use *)

(** The store after [TagsModel.objects.filter(tag_id=u).delete()] when no
    row of the join table points to [u]. *)
Definition without_tag (s : Store) (u : uuid) : Store :=
  mkStore (users s)
    (filter (fun t => negb (N.eqb (TagsModel.tag_id t) u)) (tags s))
    (vms s) (vms_tags s).

(** The number of rows of the join table that associate the VM [v] with
    the tag [u]. *)
Definition associations (s : Store) (v u : uuid) : nat :=
  List.length (filter (fun r => N.eqb (fst r) v && N.eqb (snd r) u) (vms_tags s)).

(** The pair that [unique_together] and the check of [TagsModel.save] are
    about. *)
Definition tag_key (t : TagsModel.t) : option string * option string :=
  (TagsModel.tag_name t, TagsModel.scope t).

(** What every view keeps true of the tag table: keys and (name, scope)
    pairs are unique, every tag has a non-empty name, and no stored scope
    is the empty string. *)
Definition tags_ok (s : Store) : Prop :=
  NoDup (map TagsModel.tag_id (tags s))
  /\ NoDup (map tag_key (tags s))
  /\ forall t, In t (tags s) ->
       (exists name, TagsModel.tag_name t = Some name /\ name <> "")
       /\ TagsModel.scope t <> Some "".

(** ** urls.py *)

Inductive view := Tags | AssignUnassignTags | VMs | Users.

Inductive http_method := GET | POST | PUT | DELETE | PATCH.

(** The path converters [<str:name>] (one or more characters other than
    [/]) and [<int:name>] (one or more digits). *)
Inductive converter := conv_str | conv_int.

(** A route of the shape the URL conf uses: a literal text, then at most one
    converter, then the end of the path. *)
Record route := mkRoute {
  literal : string;
  param : option (converter * string)
}.

(** [urlpatterns], in order. *)
Definition urlpatterns : list (route * view) :=
  [ (mkRoute "tags" None, Tags);
    (mkRoute "tags/" (Some (conv_str, "id")), Tags);
    (mkRoute "assign_unassign_tags" None, AssignUnassignTags);
    (mkRoute "vms" None, VMs);
    (mkRoute "vms/" (Some (conv_int, "id")), VMs);
    (mkRoute "user" None, Users) ].

Fixpoint strip_prefix (pre s : string) : option string :=
  match pre, s with
  | EmptyString, _ => Some s
  | String a pre', String b s' => if Ascii.eqb a b then strip_prefix pre' s' else None
  | String _ _, EmptyString => None
  end.

Fixpoint all_chars (ok : ascii -> bool) (s : string) : bool :=
  match s with
  | EmptyString => true
  | String c r => ok c && all_chars ok r
  end.

Definition converter_accepts (c : converter) (text : string) : bool :=
  match text with
  | EmptyString => false
  | _ =>
      match c with
      | conv_str => all_chars (fun ch => negb (Ascii.eqb ch "/")) text
      | conv_int =>
          all_chars (fun ch => let n := N_of_ascii ch in
                               ((48 <=? n) && (n <=? 57))%N) text
      end
  end.

(** The keyword arguments a route captures from a path, when it matches. *)
Definition match_route (r : route) (path : string) : option (list (string * string)) :=
  match strip_prefix (literal r) path with
  | None => None
  | Some rest =>
      match param r with
      | None => match rest with EmptyString => Some [] | _ => None end
      | Some (c, name) =>
          if converter_accepts c rest then Some [(name, rest)] else None
      end
  end.

(** The first pattern that matches. *)
Fixpoint resolve (patterns : list (route * view)) (path : string)
    : option (view * list (string * string)) :=
  match patterns with
  | [] => None
  | (r, v) :: rest =>
      match match_route r path with
      | Some kwargs => Some (v, kwargs)
      | None => resolve rest path
      end
  end.

(** The parameters, after [self] and [request], of the handler a view class
    defines for a method; [None] where it defines none. *)
Definition handler_params (v : view) (m : http_method) : option (list string) :=
  match v, m with
  | Tags, GET | Tags, POST | Tags, DELETE => Some []
  | AssignUnassignTags, POST => Some []
  | VMs, GET | VMs, POST | VMs, PUT => Some []
  | VMs, DELETE => Some ["vm_id"]
  | Users, GET => Some []
  | _, _ => None
  end.

(** A Python call with keyword arguments only: every keyword must name a
    parameter, and every parameter (none has a default) must be given. *)
Definition binds (params : list string) (kwargs : list (string * string)) : bool :=
  forallb (fun kw => existsb (String.eqb (fst kw)) params) kwargs
  && forallb (fun p => existsb (fun kw => String.eqb (fst kw) p) kwargs) params.

Inductive dispatched :=
| Handler (v : view) (m : http_method) (kwargs : list (string * string))
| NoRoute
| MethodNotAllowed
| CallTypeError.

(** What a request for a path becomes: [handler(request, **kwargs)] on the
    view of the first matching pattern. *)
Definition dispatch (m : http_method) (path : string) : dispatched :=
  match resolve urlpatterns path with
  | None => NoRoute
  | Some (v, kwargs) =>
      match handler_params v m with
      | None => MethodNotAllowed
      | Some params => if binds params kwargs then Handler v m kwargs else CallTypeError
      end
  end.

(** ** The remaining views *)

(** The query string of [GET tags]. *)
Record TagsGetQuery := mkTagsGet {
  q_tag_id : option string;
  q_tag_name : option string;
  q_scope : option string;
  q_user_id : option string
}.

(** The answer of [Tags.get]: the success envelope ("Tags get
    successfully", code 0) with the rows of [.values()] as its data, or an
    error envelope. *)
Inductive TagsGetResponse :=
| TagsFound (rows : list TagsModel.t)
| TagsError (r : JsonResponse).

Section MoreViews.

Variable to_uuid : string -> option uuid.
Variable to_int : string -> option Z.
Variable re_search : string -> option (string -> bool).

(** One conjunct of the [Q] object of [Tags.get]: absent parameters add
    nothing. *)
Definition q_cond {A} (param : option A) (lookup : A -> M bool) : M bool :=
  match param with
  | Some v => lookup v
  | None => ret true
  end.

(** [Tags.get].  The lookups are prepared, in the order in which the view
    adds them, when [filter(filters)] builds the query. *)
Definition Tags_get (request : TagsGetQuery) : M TagsGetResponse :=
  try_except
    (tag_id <- match q_tag_id request with
               | Some v => u <- prep_uuid to_uuid v ;; ret (Some u)
               | None => ret None
               end ;;
     let tag_name := q_tag_name request in
     let scope := q_scope request in
     user_id <- match q_user_id request with
                | Some v => n <- prep_int to_int v ;; ret (Some n)
                | None => ret None
                end ;;
     s <- get ;;
     tags_data <-
       match tag_id, tag_name, scope, user_id with
       | None, None, None, None => ret (tags s)
       | _, _, _, _ =>
           select (fun t =>
                     q_cond tag_id (fun u => ret (N.eqb (TagsModel.tag_id t) u))
                     &&& q_cond tag_name
                           (fun p => regex re_search (TagsModel.tag_name t) p)
                     &&& q_cond scope
                           (fun p => regex re_search (TagsModel.scope t) p)
                     &&& q_cond user_id
                           (fun n => ret (Z.eqb (TagsModel.user_id t) n)))
                  (tags s)
       end ;;
     ret (TagsFound tags_data))
    (fun e =>
       match e with
       | ValidationError _ => ret (TagsError (error 103 (Format "error: " e " ")))
       | _ => raise e
       end).

End MoreViews.

(** ** Queries that raise nothing

    What the conditions and joins above select when every pattern they
    evaluate compiles, as functions on lists. *)

Section Selected.

Variable re_search : string -> option (string -> bool).

(** The pattern compiles and is found in the text. *)
Definition re_found (pattern text : string) : bool :=
  match re_search pattern with
  | Some matches => matches text
  | None => false
  end.

Definition regex_holds (col : option string) (pattern : string) : bool :=
  match col with
  | Some text => re_found pattern text
  | None => false
  end.

(** An absent pattern, or one that compiles. *)
Definition compiles (pattern : option string) : Prop :=
  match pattern with
  | Some p => re_search p <> None
  | None => True
  end.

(** A VM, once for each of its tags that satisfies the lookup. *)
Definition joined (s : Store) (lookup : TagsModel.t -> bool)
    (queryset : list VM.t) : list VM.t :=
  flat_map (fun vm => map (fun _ => vm)
                        (filter lookup (VM_tags s (VM.vm_id vm))))
           queryset.

(** The VMs that have a tag with one of the names. *)
Definition named (s : Store) (tag_names : list string) : list VM.t :=
  match tag_names with
  | [] => vms s
  | _ :: _ =>
      filter
        (fun vm =>
           existsb (N.eqb (VM.vm_id vm))
             (nodup N.eq_dec
                (map VM.vm_id
                   (joined s
                      (fun t =>
                         existsb
                           (fun tag_name =>
                              iexact (TagsModel.tag_name t) (strip tag_name))
                           tag_names)
                      (vms s)))))
        (vms s)
  end.

(** The rows left by the scope filters, applied one after the other. *)
Definition scoped (s : Store) (scopes : list string) (queryset : list VM.t)
    : list VM.t :=
  fold_left (fun queryset scope =>
               joined s (fun t => regex_holds (TagsModel.scope t) (strip scope))
                 queryset)
            scopes queryset.

End Selected.

Definition q_holds {A} (param : option A) (lookup : A -> bool) : bool :=
  match param with
  | Some v => lookup v
  | None => true
  end.

(** A request parameter and what the view makes of it: absent, or present
    and converted. *)
Definition prepared {A} (conv : string -> option A) (param : option string)
    (value : option A) : Prop :=
  match param, value with
  | None, None => True
  | Some v, Some a => conv v = Some a
  | _, _ => False
  end.

(** ** Stores the API can reach *)

(** What a store built by the views satisfies beyond [tags_ok]: VM keys and
    names are unique, the join table has no duplicate row and no row that
    points to a missing VM or tag, and every tag is owned by a user. *)
Definition vms_ok (s : Store) : Prop :=
  NoDup (map VM.vm_id (vms s)) /\ NoDup (map VM.vm_name (vms s)).

Definition join_ok (s : Store) : Prop :=
  NoDup (vms_tags s)
  /\ forall r, In r (vms_tags s) ->
       (exists vm, In vm (vms s) /\ VM.vm_id vm = fst r)
       /\ (exists t, In t (tags s) /\ TagsModel.tag_id t = snd r).

Definition owners_ok (s : Store) : Prop :=
  forall t, In t (tags s) ->
    exists u, In u (users s) /\ UserProfile.user_id u = TagsModel.user_id t.

Definition store_ok (s : Store) : Prop :=
  tags_ok s /\ vms_ok s /\ join_ok s /\ owners_ok s.

(** One call of a view that can write, on any request and with any values
    drawn. *)
Inductive api_step (to_uuid : string -> option uuid) (to_int : string -> option Z)
    : Store -> Store -> Prop :=
| step_Tags_post (uuid4 : uuid) (request : TagsPostData) s o s' :
    Tags_post to_int uuid4 request s = (o, s') -> api_step to_uuid to_int s s'
| step_Tags_delete (request : TagsDeleteQuery) s o s' :
    Tags_delete to_uuid to_int request s = (o, s') -> api_step to_uuid to_int s s'
| step_AssignUnassignTags_post (request : AssignData) s o s' :
    AssignUnassignTags_post to_uuid request s = (o, s') ->
    api_step to_uuid to_int s s'
| step_VMs_post (uuid4 : nat -> uuid) (now : string) (request : VMsPostData) s o s' :
    VMs_post to_int uuid4 now request s = (o, s') -> api_step to_uuid to_int s s'
| step_VMs_delete (vm_id : string) s o s' :
    VMs_delete to_uuid vm_id s = (o, s') -> api_step to_uuid to_int s s'.

(** The stores reached from a store that holds users only. *)
Inductive reachable (to_uuid : string -> option uuid) (to_int : string -> option Z)
    (users0 : list UserProfile.t) : Store -> Prop :=
| reach_init : reachable to_uuid to_int users0 (mkStore users0 [] [] [])
| reach_step s s' :
    reachable to_uuid to_int users0 s -> api_step to_uuid to_int s s' ->
    reachable to_uuid to_int users0 s'.

(** * Properties *)

(** ** The string functions and the instances on examples *)

Example ex_uuid : uuid_of_hex id_161 = Some 161%N.
Proof. reflexivity. Qed.
Example ex_strip : strip "  env " = "env".
Proof. reflexivity. Qed.
Example ex_split : split ":" "env:prod" = ["env"; "prod"].
Proof. reflexivity. Qed.
Example ex_split2 : split ":" "env" = ["env"].
Proof. reflexivity. Qed.
Example ex_split3 : split ":" "a:b:c" = ["a"; "b"; "c"].
Proof. reflexivity. Qed.
Example ex_split4 : split ":" "env:" = ["env"; ""].
Proof. reflexivity. Qed.
Example ex_lower : lower "EnV-1" = "env-1".
Proof. reflexivity. Qed.
Example ex_search :
  option_map (fun matches => matches "production") (literal_search "prod")
  = Some true.
Proof. reflexivity. Qed.
Example ex_search2 : literal_search "(" = None.
Proof. reflexivity. Qed.

(** ** Lists and strings *)

Lemma filter_all {A} (f : A -> bool) (l : list A) :
  (forall x, In x l -> f x = true) -> filter f l = l.
Proof.
  induction l as [|a l IH]; intros H; simpl; [reflexivity|].
  rewrite (H a (or_introl eq_refl)), IH; [reflexivity|].
  intros x Hx. apply H. now right.
Qed.

Lemma filter_none {A} (f : A -> bool) (l : list A) :
  (forall x, In x l -> f x = false) -> filter f l = [].
Proof.
  induction l as [|a l IH]; intros H; simpl; [reflexivity|].
  rewrite (H a (or_introl eq_refl)). apply IH.
  intros x Hx. apply H. now right.
Qed.

Lemma existsb_false {A} (f : A -> bool) (l : list A) :
  (forall x, In x l -> f x = false) -> existsb f l = false.
Proof.
  induction l as [|a l IH]; intros H; simpl; [reflexivity|].
  rewrite (H a (or_introl eq_refl)). apply IH.
  intros x Hx. apply H. now right.
Qed.

Lemma exact_Some_true (col : option string) (v : string) :
  exact col (Some v) = true <-> col = Some v.
Proof.
  destruct col as [a|]; simpl.
  - rewrite String.eqb_eq. split; congruence.
  - split; discriminate.
Qed.

Lemma provided_Some (v : string) :
  v <> "" -> v <> "None" -> provided (Some v) = Some v.
Proof.
  intros H1 H2. unfold provided.
  destruct (String.eqb_spec v "None"); [contradiction|].
  destruct (String.eqb_spec v ""); [contradiction|]. reflexivity.
Qed.

Lemma store_eta (s : Store) :
  mkStore (users s) (tags s) (vms s) (vms_tags s) = s.
Proof. destruct s; reflexivity. Qed.

Section Properties.

Variable to_uuid : string -> option uuid.
Variable to_int : string -> option Z.
Variable re_search : string -> option (string -> bool).

(** ** VMs.delete *)

(** C2.  [VMs.delete] looks the VM up with the keyword [id], which the model
    [VM] does not have: whatever the store and the id, also the id of a VM
    that exists, the lookup raises [FieldError], the view answers with the
    error code 101 of its last handler, and the store is left as it was.
    Neither the "VM not found" answer (code 100) nor the deletion is ever
    reached. *)
Theorem VMs_delete_always_field_error (s : Store) (vm_id : string) :
  VMs_delete to_uuid vm_id s
  = (Ok (error 101
           (Format "Error: "
              (FieldError ("Cannot resolve keyword 'id' into field. "
                           ++ "Choices are: creation_date, tags, vm_id, vm_name"))
              "")),
     s).
Proof. reflexivity. Qed.

(** ** AssignUnassignTags.post *)

(** C8.  [assign] with a [tag_name] that no tag bears fails: the lookup
    [get_object_or_404] raises [Http404] ("No TagsModel matches the given
    query."), the view reports it in its error envelope (under the code 101
    of its generic handler), and the store, so also the join table, is left
    as it was. *)
Theorem assign_unknown_tag_not_found (s : Store) (name : string)
    (ids : list string) :
  (forall t, In t (tags s) -> TagsModel.tag_name t <> Some name) ->
  AssignUnassignTags_post to_uuid (mkAssign (Some "assign") (Some name) ids) s
  = (Ok (error 101
           (Format "error: " (Http404 "No TagsModel matches the given query.") "")),
     s).
Proof.
  intros Hno.
  unfold AssignUnassignTags_post, try_except, bind, get_object_or_404,
    TagsModel_objects_get, try_except, bind, get. simpl.
  rewrite filter_none; [reflexivity|].
  intros t Ht. destruct (exact (TagsModel.tag_name t) (Some name)) eqn:E; [|reflexivity].
  apply exact_Some_true in E. now apply Hno in Ht.
Qed.

(** ** Tags.delete *)

(** The view on a request that carries both parameters and a well-formed
    tag id, step by step. *)
Lemma Tags_delete_run (s : Store) (tag_id user_id : string) (u : uuid) :
  tag_id <> "" -> tag_id <> "None" -> user_id <> "" -> user_id <> "None" ->
  to_uuid tag_id = Some u ->
  Tags_delete to_uuid to_int (mkTagsDelete (Some tag_id) (Some user_id)) s
  = if existsb (fun t => N.eqb (TagsModel.tag_id t) u
                         && existsb (fun r => N.eqb (snd r) (TagsModel.tag_id t))
                              (vms_tags s))
               (tags s)
    then (Ok (error 101
                (Text "Tag is assigned to VMs. Unassign it before deleting.")), s)
    else match to_int user_id with
         | None =>
             (Ok (error 101
                    (Format "error: "
                       (ValueError ("Field 'user_id' expected a number but got "
                                    ++ user_id)) "")), s)
         | Some n =>
             if String.eqb user_id "1"
                || (0 <? List.length
                           (filter (fun t => N.eqb (TagsModel.tag_id t) u
                                             && Z.eqb (TagsModel.user_id t) n)
                                   (tags s)))%nat
             then (Ok (mkResponse "success" 0 (Text "Tag deleted successfully.")
                         NoData),
                   mkStore (users s)
                     (filter (fun t => negb (N.eqb (TagsModel.tag_id t) u)) (tags s))
                     (vms s)
                     (filter (fun r =>
                                negb (existsb
                                        (fun t => N.eqb (TagsModel.tag_id t) (snd r))
                                        (filter (fun t => N.eqb (TagsModel.tag_id t) u)
                                           (tags s))))
                        (vms_tags s)))
             else (Ok (error 100 (Text "Invalid Request.")), s)
         end.
Proof.
  intros H1 H2 H3 H4 Hu.
  unfold Tags_delete, try_except, bind. cbn [del_tag_id del_user_id].
  rewrite (provided_Some _ H1 H2), (provided_Some _ H3 H4).
  unfold prep_uuid. rewrite Hu. cbn [ret get].
  destruct (existsb _ (tags s)); [reflexivity|].
  unfold prep_int. destruct (to_int user_id) as [n|]; [|reflexivity].
  cbn [ret]. destruct (_ || _); reflexivity.
Qed.

(** A tag with a row in the join table is assigned. *)
Lemma is_assigned_true (s : Store) (t : TagsModel.t) (v : uuid) :
  In t (tags s) -> In (v, TagsModel.tag_id t) (vms_tags s) ->
  existsb (fun t' => N.eqb (TagsModel.tag_id t') (TagsModel.tag_id t)
                     && existsb (fun r => N.eqb (snd r) (TagsModel.tag_id t'))
                          (vms_tags s))
          (tags s) = true.
Proof.
  intros Ht Hr. apply existsb_exists. exists t. split; [exact Ht|].
  rewrite N.eqb_refl. simpl. apply existsb_exists.
  exists (v, TagsModel.tag_id t). split; [exact Hr|]. simpl. apply N.eqb_refl.
Qed.

(** No row of the join table points to the id: nothing is assigned. *)
Lemma is_assigned_false (s : Store) (u : uuid) :
  (forall r, In r (vms_tags s) -> snd r <> u) ->
  existsb (fun t' => N.eqb (TagsModel.tag_id t') u
                     && existsb (fun r => N.eqb (snd r) (TagsModel.tag_id t'))
                          (vms_tags s))
          (tags s) = false.
Proof.
  intros Hno. apply existsb_false. intros t _.
  destruct (N.eqb_spec (TagsModel.tag_id t) u) as [E|]; [|reflexivity].
  simpl. apply existsb_false. intros r Hr.
  apply N.eqb_neq. rewrite E. now apply Hno.
Qed.

(** Deleting by id leaves the join table alone when no row points to the
    id. *)
Lemma cascade_nothing (s : Store) (u : uuid) :
  (forall r, In r (vms_tags s) -> snd r <> u) ->
  filter (fun r => negb (existsb (fun t => N.eqb (TagsModel.tag_id t) (snd r))
                           (filter (fun t => N.eqb (TagsModel.tag_id t) u) (tags s))))
         (vms_tags s)
  = vms_tags s.
Proof.
  intros Hno. apply filter_all. intros r Hr.
  apply negb_true_iff, existsb_false. intros t Ht.
  apply filter_In in Ht. destruct Ht as [_ Ht]. apply N.eqb_eq in Ht.
  apply N.eqb_neq. rewrite Ht. intros E. symmetry in E. now apply (Hno r Hr).
Qed.

(** With unique primary keys, the rows with the key of [t] are [t] alone. *)
Lemma owner_count (l : list TagsModel.t) (t : TagsModel.t) (n : Z) :
  NoDup (map TagsModel.tag_id l) -> In t l ->
  (0 <? List.length
          (filter (fun t' => N.eqb (TagsModel.tag_id t') (TagsModel.tag_id t)
                             && Z.eqb (TagsModel.user_id t') n) l))%nat
  = Z.eqb (TagsModel.user_id t) n.
Proof.
  intros Hnd Ht.
  destruct (Z.eqb_spec (TagsModel.user_id t) n) as [E|E].
  - apply Nat.ltb_lt.
    assert (Hin : In t (filter (fun t' => N.eqb (TagsModel.tag_id t') (TagsModel.tag_id t)
                                          && Z.eqb (TagsModel.user_id t') n) l)).
    { apply filter_In. split; [exact Ht|].
      rewrite N.eqb_refl. simpl. now apply Z.eqb_eq. }
    destruct (filter _ l); [contradiction|simpl; lia].
  - rewrite filter_none; [reflexivity|].
    intros t' Ht'.
    destruct (N.eqb_spec (TagsModel.tag_id t') (TagsModel.tag_id t)) as [Eid|];
      [|reflexivity].
    simpl. apply Z.eqb_neq. intros Eo. apply E.
    assert (t' = t); [|now subst].
    clear - Hnd Ht Ht' Eid.
    induction l as [|a l IH]; [contradiction|].
    simpl in Hnd. inversion Hnd as [|? ? Hnot Hnd']; subst.
    destruct Ht as [->|Ht], Ht' as [->|Ht']; auto.
    + exfalso. apply Hnot. rewrite <- Eid. now apply in_map.
    + exfalso. apply Hnot. rewrite Eid. now apply in_map.
Qed.

Lemma without_tag_In (s : Store) (t t' : TagsModel.t) :
  NoDup (map TagsModel.tag_id (tags s)) -> In t (tags s) ->
  In t' (tags (without_tag s (TagsModel.tag_id t)))
  <-> In t' (tags s) /\ t' <> t.
Proof.
  intros Hnd Ht. unfold without_tag. simpl. rewrite filter_In, negb_true_iff, N.eqb_neq.
  split; intros [Hin Hne]; split; auto.
  - intros ->. now apply Hne.
  - intros E. apply Hne.
    clear - Hnd Ht Hin E.
    induction (tags s) as [|a l IH]; [contradiction|].
    simpl in Hnd. inversion Hnd as [|? ? Hnot Hnd']; subst.
    destruct Ht as [->|Ht], Hin as [->|Hin]; auto.
    + exfalso. apply Hnot. rewrite <- E. now apply in_map.
    + exfalso. apply Hnot. rewrite E. now apply in_map.
Qed.

(** An unassigned tag, a requester who is the admin or the owner: the tag is
    deleted and nothing else changes. *)
Lemma Tags_delete_authorized (s : Store) (t : TagsModel.t)
    (tag_id user_id : string) (n : Z) :
  In t (tags s) -> NoDup (map TagsModel.tag_id (tags s)) ->
  (forall r, In r (vms_tags s) -> snd r <> TagsModel.tag_id t) ->
  tag_id <> "" -> tag_id <> "None" -> user_id <> "" -> user_id <> "None" ->
  to_uuid tag_id = Some (TagsModel.tag_id t) -> to_int user_id = Some n ->
  user_id = "1" \/ n = TagsModel.user_id t ->
  Tags_delete to_uuid to_int (mkTagsDelete (Some tag_id) (Some user_id)) s
  = (Ok (mkResponse "success" 0 (Text "Tag deleted successfully.") NoData),
     without_tag s (TagsModel.tag_id t)).
Proof.
  intros Ht Hnd Hno H1 H2 H3 H4 Hu Hn Hauth.
  rewrite (Tags_delete_run s tag_id user_id _ H1 H2 H3 H4 Hu).
  rewrite (is_assigned_false s _ Hno), Hn, (owner_count _ t n Hnd Ht).
  rewrite (cascade_nothing s _ Hno).
  assert (E : String.eqb user_id "1" || Z.eqb (TagsModel.user_id t) n = true).
  { destruct Hauth as [->| ->]; [reflexivity|].
    rewrite Z.eqb_refl. apply orb_true_r. }
  rewrite E. reflexivity.
Qed.

(** An unassigned tag, a requester who is neither: the request is refused
    and nothing changes. *)
Lemma Tags_delete_refused (s : Store) (t : TagsModel.t)
    (tag_id user_id : string) (n : Z) :
  In t (tags s) -> NoDup (map TagsModel.tag_id (tags s)) ->
  (forall r, In r (vms_tags s) -> snd r <> TagsModel.tag_id t) ->
  tag_id <> "" -> tag_id <> "None" -> user_id <> "" -> user_id <> "None" ->
  to_uuid tag_id = Some (TagsModel.tag_id t) -> to_int user_id = Some n ->
  user_id <> "1" -> n <> TagsModel.user_id t ->
  Tags_delete to_uuid to_int (mkTagsDelete (Some tag_id) (Some user_id)) s
  = (Ok (error 100 (Text "Invalid Request.")), s).
Proof.
  intros Ht Hnd Hno H1 H2 H3 H4 Hu Hn Hadm Hown.
  rewrite (Tags_delete_run s tag_id user_id _ H1 H2 H3 H4 Hu).
  rewrite (is_assigned_false s _ Hno), Hn, (owner_count _ t n Hnd Ht).
  apply String.eqb_neq in Hadm. rewrite Hadm.
  assert (E : Z.eqb (TagsModel.user_id t) n = false) by (apply Z.eqb_neq; congruence).
  rewrite E. reflexivity.
Qed.

(** C6.  For a tag that exists and is attached to no VM, and a request that
    carries a well-formed tag id and a requester id that reads as the
    integer [n]: when the requester is neither the admin (the string "1")
    nor the owner, [Tags.delete] refuses with "Invalid Request." (code 100)
    and leaves the store as it was; when the requester is the admin or the
    owner, it succeeds and the tag, and only it, leaves the store. *)
Theorem delete_tag_owner_or_admin (s : Store) (t : TagsModel.t)
    (tag_id user_id : string) (n : Z) :
  In t (tags s) -> NoDup (map TagsModel.tag_id (tags s)) ->
  (forall r, In r (vms_tags s) -> snd r <> TagsModel.tag_id t) ->
  tag_id <> "" -> tag_id <> "None" -> user_id <> "" -> user_id <> "None" ->
  to_uuid tag_id = Some (TagsModel.tag_id t) -> to_int user_id = Some n ->
  (user_id <> "1" /\ n <> TagsModel.user_id t ->
   Tags_delete to_uuid to_int (mkTagsDelete (Some tag_id) (Some user_id)) s
   = (Ok (error 100 (Text "Invalid Request.")), s))
  /\ (user_id = "1" \/ n = TagsModel.user_id t ->
      exists s',
        Tags_delete to_uuid to_int (mkTagsDelete (Some tag_id) (Some user_id)) s
        = (Ok (mkResponse "success" 0 (Text "Tag deleted successfully.") NoData), s')
        /\ ~ In t (tags s')
        /\ (forall t', In t' (tags s') <-> In t' (tags s) /\ t' <> t)
        /\ users s' = users s /\ vms s' = vms s /\ vms_tags s' = vms_tags s).
Proof.
  intros Ht Hnd Hno H1 H2 H3 H4 Hu Hn. split.
  - intros [Hadm Hown]. now apply (Tags_delete_refused s t tag_id user_id n).
  - intros Hauth. exists (without_tag s (TagsModel.tag_id t)).
    split; [now apply (Tags_delete_authorized s t tag_id user_id n)|].
    split; [|split; [|repeat split]].
    + intros Hin. apply (without_tag_In s t t Hnd Ht) in Hin. now destruct Hin.
    + intros t'. now apply without_tag_In.
Qed.

(** C10.  [Tags.delete] never checks that the tag exists: for a well-formed
    tag id that is the key of no tag, the request of the admin (user id
    "1") is answered with success, and the store is left as it was. *)
Theorem delete_missing_tag_by_admin_succeeds (s : Store) (tag_id : string)
    (u : uuid) (n : Z) :
  tag_id <> "" -> tag_id <> "None" ->
  to_uuid tag_id = Some u -> to_int "1" = Some n ->
  (forall t, In t (tags s) -> TagsModel.tag_id t <> u) ->
  Tags_delete to_uuid to_int (mkTagsDelete (Some tag_id) (Some "1")) s
  = (Ok (mkResponse "success" 0 (Text "Tag deleted successfully.") NoData), s).
Proof.
  intros H1 H2 Hu Hn Hno.
  rewrite (Tags_delete_run s tag_id "1" u H1 H2); [|discriminate|discriminate|exact Hu].
  assert (Hnone : filter (fun t => N.eqb (TagsModel.tag_id t) u) (tags s) = []).
  { apply filter_none. intros t Ht. apply N.eqb_neq. now apply Hno. }
  rewrite existsb_false.
  2:{ intros t Ht. apply andb_false_iff. left. apply N.eqb_neq. now apply Hno. }
  rewrite Hn. cbn [String.eqb Ascii.eqb Bool.eqb orb].
  rewrite Hnone. cbn [existsb negb].
  rewrite (filter_all (fun t => negb (N.eqb (TagsModel.tag_id t) u))).
  2:{ intros t Ht. apply negb_true_iff, N.eqb_neq. now apply Hno. }
  rewrite (filter_all (fun _ : uuid * uuid => true)); [|reflexivity].
  now rewrite store_eta.
Qed.

(** ** The related manager *)

(** Preparing the ids reads no row and writes none; it succeeds exactly when
    every id converts. *)
Lemma prep_uuids_run (ids : list string) (s : Store) :
  (exists us, prep_uuids to_uuid ids s = (Ok us, s)
              /\ Forall2 (fun id u => to_uuid id = Some u) ids us)
  \/ (exists m, prep_uuids to_uuid ids s = (Raise (ValidationError m), s)).
Proof.
  induction ids as [|id ids IH]; simpl.
  - left. exists []. split; [reflexivity|constructor].
  - unfold bind, prep_uuid. destruct (to_uuid id) as [u|] eqn:E.
    + cbn [ret]. destruct IH as [(us & -> & HF)|(m & ->)].
      * left. exists (u :: us). split; [reflexivity|now constructor].
      * right. now exists m.
    + right. eexists. reflexivity.
Qed.

Lemma Forall2_converts (ids : list string) (us : list uuid) (id : string)
    (v : uuid) :
  Forall2 (fun id u => to_uuid id = Some u) ids us ->
  In id ids -> to_uuid id = Some v -> In v us.
Proof.
  induction 1 as [|id' u ids us Hc HF IH]; intros Hin Hv; [contradiction|].
  destruct Hin as [->|Hin].
  - left. congruence.
  - right. now apply IH.
Qed.

(** The one row a filter selects, when it selects [t] and nothing else. *)
Lemma get_by_name_unique (s : Store) (t : TagsModel.t) (r : JsonResponse)
    (k : TagsModel.t -> M JsonResponse) (h : exn -> M JsonResponse) (s1 : Store) :
  In t (tags s) ->
  (forall e s', exists r', h e s' = (Ok r', s') /\ status r' = "error") ->
  try_except
    (tag <- get_object_or_404 "TagsModel"
              (TagsModel_objects_get (TagsModel.tag_name t)) ;; k tag) h s
  = (Ok r, s1) ->
  status r = "success" ->
  try_except (k t) h s = (Ok r, s1).
Proof.
  intros Ht Hh Hrun Hok.
  unfold try_except, bind, get_object_or_404, TagsModel_objects_get,
    try_except, bind, get in *.
  assert (Hin : In t (filter (fun t' => exact (TagsModel.tag_name t')
                                          (TagsModel.tag_name t)) (tags s))).
  { apply filter_In. split; [exact Ht|].
    destruct (TagsModel.tag_name t); simpl; [apply String.eqb_refl|reflexivity]. }
  destruct (filter _ (tags s)) as [|t1 [|t2 l]]; simpl in *.
  - contradiction.
  - destruct Hin as [->|[]]. exact Hrun.
  - destruct (Hh (MultipleObjectsReturned "get() returned more than one TagsModel") s)
      as (r' & E & Hs).
    rewrite E in Hrun. inversion Hrun; subst. rewrite Hs in Hok. discriminate.
Qed.

(** [unassign] that succeeds on ids that cover every VM of the tag leaves
    no row of the join table pointing to the tag, and touches no other
    table. *)
Lemma unassign_all_detaches (s s1 : Store) (t : TagsModel.t)
    (ids : list string) (r : JsonResponse) :
  In t (tags s) ->
  AssignUnassignTags_post to_uuid
    (mkAssign (Some "unassign") (TagsModel.tag_name t) ids) s = (Ok r, s1) ->
  status r = "success" ->
  (forall v, In (v, TagsModel.tag_id t) (vms_tags s) ->
             exists id, In id ids /\ to_uuid id = Some v) ->
  tags s1 = tags s
  /\ (forall row, In row (vms_tags s1) -> snd row <> TagsModel.tag_id t).
Proof.
  intros Ht Hrun Hok Hcover.
  unfold AssignUnassignTags_post in Hrun.
  cbn [action is_str String.eqb Ascii.eqb Bool.eqb assign_tag_name vm_ids] in Hrun.
  apply (get_by_name_unique s t r _ _ s1 Ht) in Hrun; [|clear; intros e s'|exact Hok].
  2:{ destruct e; eexists; split; reflexivity. }
  unfold try_except, bind, vms_remove, bind in Hrun.
  destruct (prep_uuids_run ids s) as [(us & E & HF)|(m & E)]; rewrite E in Hrun.
  - cbn in Hrun. inversion Hrun; subst. simpl. split; [reflexivity|].
    intros row Hrow. apply filter_In in Hrow. destruct Hrow as [Hin Hkeep].
    intros Etag. apply negb_true_iff, andb_false_iff in Hkeep.
    destruct Hkeep as [Hk|Hk].
    + apply N.eqb_neq in Hk. contradiction.
    + destruct row as [v u]. simpl in *. subst u.
      destruct (Hcover v Hin) as (id & Hid & Hv).
      pose proof (Forall2_converts ids us id v HF Hid Hv) as Hvus.
      assert (existsb (N.eqb v) us = true).
      { apply existsb_exists. exists v. split; [exact Hvus|apply N.eqb_refl]. }
      congruence.
  - cbn in Hrun. inversion Hrun; subst. discriminate.
Qed.

(** C5.  A tag attached to at least one VM: [Tags.delete] answers "Tag is
    assigned to VMs. Unassign it before deleting." (code 101) and leaves the
    store as it was, the tag included; this for any requester id the request
    carries.  After an [unassign] that succeeded on ids covering every VM
    of the tag, [Tags.delete] by the admin or by the owner succeeds and the
    tag leaves the store. *)
Theorem delete_tag_in_use_then_unassigned (s : Store) (t : TagsModel.t)
    (v : uuid) (tag_id user_id : string) :
  In t (tags s) -> NoDup (map TagsModel.tag_id (tags s)) ->
  In (v, TagsModel.tag_id t) (vms_tags s) ->
  tag_id <> "" -> tag_id <> "None" -> user_id <> "" -> user_id <> "None" ->
  to_uuid tag_id = Some (TagsModel.tag_id t) ->
  Tags_delete to_uuid to_int (mkTagsDelete (Some tag_id) (Some user_id)) s
  = (Ok (error 101 (Text "Tag is assigned to VMs. Unassign it before deleting.")),
     s)
  /\ forall ids r s1 n,
       AssignUnassignTags_post to_uuid
         (mkAssign (Some "unassign") (TagsModel.tag_name t) ids) s = (Ok r, s1) ->
       status r = "success" ->
       (forall v', In (v', TagsModel.tag_id t) (vms_tags s) ->
                   exists id, In id ids /\ to_uuid id = Some v') ->
       to_int user_id = Some n ->
       user_id = "1" \/ n = TagsModel.user_id t ->
       exists s2,
         Tags_delete to_uuid to_int (mkTagsDelete (Some tag_id) (Some user_id)) s1
         = (Ok (mkResponse "success" 0 (Text "Tag deleted successfully.") NoData),
            s2)
         /\ ~ In t (tags s2).
Proof.
  intros Ht Hnd Hrow H1 H2 H3 H4 Hu. split.
  - rewrite (Tags_delete_run s tag_id user_id _ H1 H2 H3 H4 Hu).
    now rewrite (is_assigned_true s t v Ht Hrow).
  - intros ids r s1 n Hrun Hok Hcover Hn Hauth.
    destruct (unassign_all_detaches s s1 t ids r Ht Hrun Hok Hcover) as [Etags Hno].
    assert (Ht1 : In t (tags s1)) by now rewrite Etags.
    assert (Hnd1 : NoDup (map TagsModel.tag_id (tags s1))) by now rewrite Etags.
    exists (without_tag s1 (TagsModel.tag_id t)). split.
    + now apply (Tags_delete_authorized s1 t tag_id user_id n).
    + intros Hin. apply (without_tag_In s1 t t Hnd1 Ht1) in Hin. now destruct Hin.
Qed.

(** ** assign *)

Lemma filter_unique {A B} (key : A -> B) (f : A -> bool) (l : list A) (a : A) :
  NoDup (map key l) -> In a l -> f a = true ->
  (forall x, In x l -> f x = true -> x = a) ->
  filter f l = [a].
Proof.
  induction l as [|x l IH]; intros Hnd Hin Hfa Huniq; [contradiction|].
  simpl in Hnd. inversion Hnd as [|? ? Hnot Hnd']; subst. simpl.
  destruct Hin as [->|Hin].
  - rewrite Hfa. f_equal. apply filter_none. intros y Hy.
    destruct (f y) eqn:E; [|reflexivity].
    exfalso. apply Hnot. rewrite <- (Huniq y (or_intror Hy) E). now apply in_map.
  - destruct (f x) eqn:E.
    + exfalso. apply Hnot. rewrite (Huniq x (or_introl eq_refl) E). now apply in_map.
    + apply IH; auto. intros y Hy. apply Huniq. now right.
Qed.

Lemma existsb_filter_length {A} (f : A -> bool) (l : list A) :
  existsb f l = (0 <? List.length (filter f l))%nat.
Proof.
  induction l as [|a l IH]; [reflexivity|].
  cbn [existsb filter]. destruct (f a); [reflexivity|exact IH].
Qed.

Lemma has_row_associations (s : Store) (v u : uuid) :
  has_row (v, u) (vms_tags s) = (0 <? associations s v u)%nat.
Proof. apply existsb_filter_length. Qed.

(** [assign] of one VM to the one tag of a name, step by step. *)
Lemma assign_one_run (s : Store) (t : TagsModel.t) (name id : string) (v : uuid) :
  NoDup (map TagsModel.tag_id (tags s)) ->
  In t (tags s) -> TagsModel.tag_name t = Some name ->
  (forall t', In t' (tags s) -> TagsModel.tag_name t' = Some name -> t' = t) ->
  to_uuid id = Some v ->
  (exists vm, In vm (vms s) /\ VM.vm_id vm = v) ->
  AssignUnassignTags_post to_uuid (mkAssign (Some "assign") (Some name) [id]) s
  = (Ok (success "Tag Assigned to Objects successfully" EmptyData),
     mkStore (users s) (tags s) (vms s)
       (vms_tags s ++ if has_row (v, TagsModel.tag_id t) (vms_tags s)
                      then [] else [(v, TagsModel.tag_id t)])).
Proof.
  intros Hnd Ht Hname Huniq Hv (vm & Hvm & Hid).
  unfold AssignUnassignTags_post, try_except, bind, get_object_or_404,
    TagsModel_objects_get, try_except, bind, get.
  cbn [action is_str String.eqb Ascii.eqb Bool.eqb assign_tag_name vm_ids].
  rewrite (filter_unique TagsModel.tag_id _ (tags s) t Hnd Ht).
  2:{ now apply exact_Some_true. }
  2:{ intros x Hx E. apply exact_Some_true in E. now apply Huniq. }
  cbn [get_one ret]. unfold vms_add, bind. cbn [prep_uuids]. unfold bind, prep_uuid.
  rewrite Hv. cbn [ret get].
  change (nodup N.eq_dec [v]) with [v]. cbn [filter].
  destruct (has_row (v, TagsModel.tag_id t) (vms_tags s)); cbn [negb forallb map];
    [reflexivity|].
  assert (E : existsb (fun vm0 => N.eqb (VM.vm_id vm0) v) (vms s) = true).
  { apply existsb_exists. exists vm. split; [exact Hvm|]. now apply N.eqb_eq. }
  rewrite E. reflexivity.
Qed.

(** C7 (as amended).  For a tag whose name no other tag bears and the id of
    a VM that exists, where the join table holds the pair at most once (the
    uniqueness the table declares): [assign] with the same tag name and VM
    id twice succeeds both times, the second call leaves the store as the
    first left it, and exactly one row associates the tag with the VM. *)
Theorem assign_twice_one_association (s : Store) (t : TagsModel.t)
    (name id : string) (v : uuid) :
  NoDup (map TagsModel.tag_id (tags s)) ->
  In t (tags s) -> TagsModel.tag_name t = Some name ->
  (forall t', In t' (tags s) -> TagsModel.tag_name t' = Some name -> t' = t) ->
  to_uuid id = Some v ->
  (exists vm, In vm (vms s) /\ VM.vm_id vm = v) ->
  (associations s v (TagsModel.tag_id t) <= 1)%nat ->
  exists s1,
    AssignUnassignTags_post to_uuid (mkAssign (Some "assign") (Some name) [id]) s
    = (Ok (success "Tag Assigned to Objects successfully" EmptyData), s1)
    /\ AssignUnassignTags_post to_uuid (mkAssign (Some "assign") (Some name) [id]) s1
       = (Ok (success "Tag Assigned to Objects successfully" EmptyData), s1)
    /\ associations s1 v (TagsModel.tag_id t) = 1%nat.
Proof.
  intros Hnd Ht Hname Huniq Hv Hvm Hle.
  eexists. split; [now apply (assign_one_run s t name id v)|].
  set (s1 := mkStore _ _ _ _).
  assert (Hone : associations s1 v (TagsModel.tag_id t) = 1%nat).
  { unfold associations, s1. cbn [vms_tags].
    rewrite filter_app, length_app, has_row_associations.
    fold (associations s v (TagsModel.tag_id t)).
    remember (associations s v (TagsModel.tag_id t)) as n eqn:En.
    destruct (Nat.ltb_spec 0 n) as [Hlt|Hge].
    - cbn [filter List.length]. lia.
    - cbn [filter fst snd]. rewrite !N.eqb_refl. cbn [andb List.length]. lia. }
  split; [|exact Hone].
  rewrite (assign_one_run s1 t name id v); auto.
  rewrite has_row_associations, Hone. cbn [Nat.ltb Nat.leb].
  unfold s1. cbn [users tags vms vms_tags]. now rewrite app_nil_r.
Qed.

(** ** VMs.get *)

(** A condition that raises on no row selects as [filter] does. *)
Lemma select_run {A} (cond : A -> M bool) (f : A -> bool) (rows : list A)
    (s : Store) :
  (forall r, In r rows -> cond r s = (Ok (f r), s)) ->
  select cond rows s = (Ok (filter f rows), s).
Proof.
  induction rows as [|r rest IH]; intros H; cbn [select filter];
    [reflexivity|].
  unfold bind. rewrite (H r) by now left.
  rewrite IH by (intros r' Hr'; apply H; now right).
  now destruct (f r).
Qed.

(** The rows before the first on which the condition raises do not
    matter: the query raises. *)
Lemma select_raise {A} (cond : A -> M bool) (e : exn) (rows : list A)
    (s : Store) :
  (forall r, In r rows -> cond r s = (Raise e, s) \/ exists b, cond r s = (Ok b, s)) ->
  (exists r, In r rows /\ cond r s = (Raise e, s)) ->
  select cond rows s = (Raise e, s).
Proof.
  induction rows as [|r rest IH]; intros Hall (x & Hx & Ex); [contradiction|].
  cbn [select]. unfold bind at 1.
  destruct (Hall r) as [E|(b & E)]; [now left|now rewrite E|].
  rewrite E. unfold bind at 1. rewrite IH; [reflexivity| |].
  - intros r' Hr'. apply Hall. now right.
  - destruct Hx as [->|Hx]; [congruence|]. now exists x.
Qed.

Lemma regex_run (col : option string) (pattern : string) (s : Store) :
  re_search pattern <> None ->
  regex re_search col pattern s = (Ok (regex_holds re_search col pattern), s).
Proof.
  intros H. unfold regex, regex_holds, re_found.
  destruct col as [text|]; [|reflexivity].
  now destruct (re_search pattern).
Qed.

Lemma joined_pairs (s : Store) (f : TagsModel.t -> bool) (queryset : list VM.t) :
  map fst
    (filter (fun r : VM.t * TagsModel.t => f (snd r))
       (flat_map (fun vm => map (pair vm) (VM_tags s (VM.vm_id vm))) queryset))
  = joined s f queryset.
Proof.
  unfold joined. induction queryset as [|vm rest IH]; [reflexivity|].
  cbn [flat_map]. rewrite filter_app, map_app, IH. f_equal.
  induction (VM_tags s (VM.vm_id vm)) as [|t l IHl]; [reflexivity|].
  cbn [map filter snd]. destruct (f t); cbn [map fst]; now rewrite IHl.
Qed.

Lemma filter_tags_run (lookup : TagsModel.t -> M bool) (f : TagsModel.t -> bool)
    (queryset : list VM.t) (s : Store) :
  (forall t, lookup t s = (Ok (f t), s)) ->
  filter_tags lookup queryset s = (Ok (joined s f queryset), s).
Proof.
  intros H. unfold filter_tags, bind. cbn [get].
  rewrite (select_run _ (fun r => f (snd r))) by (intros r _; apply H).
  cbn [ret]. now rewrite joined_pairs.
Qed.

Lemma filter_scopes_run (scopes_ : list string) (queryset : list VM.t)
    (s : Store) :
  (forall scope, In scope scopes_ -> re_search (strip scope) <> None) ->
  filter_scopes re_search scopes_ queryset s
  = (Ok (scoped re_search s scopes_ queryset), s).
Proof.
  revert queryset. induction scopes_ as [|sc rest IH]; intros queryset H;
    [reflexivity|].
  cbn [filter_scopes]. unfold bind.
  rewrite (filter_tags_run _
             (fun t => regex_holds re_search (TagsModel.scope t) (strip sc))).
  - apply IH. intros scope Hin. apply H. now right.
  - intros t. apply regex_run, H. now left.
Qed.

(** The queryset of the listing, when every scope filter compiles. *)
Lemma VMs_get_queryset_run (names scopes_ : list string) (s : Store) :
  (forall scope, In scope scopes_ -> re_search (strip scope) <> None) ->
  VMs_get_queryset re_search names scopes_ s
  = (Ok (scoped re_search s scopes_ (named s names)), s).
Proof.
  intros H. unfold VMs_get_queryset. unfold bind at 1. cbn [get].
  unfold bind at 1. destruct names as [|n names'].
  - cbn [ret named]. now apply filter_scopes_run.
  - unfold bind at 1.
    rewrite (filter_tags_run _
               (fun t => existsb
                           (fun tag_name =>
                              iexact (TagsModel.tag_name t) (strip tag_name))
                           (n :: names'))) by reflexivity.
    cbn [ret]. now apply filter_scopes_run.
Qed.

Lemma VMs_get_list_run (vm_id : option string) (names scopes_ : list string)
    (s : Store) :
  vm_id = None \/ vm_id = Some "" ->
  (forall scope, In scope scopes_ -> re_search (strip scope) <> None) ->
  VMs_get to_uuid re_search (mkVMsGet vm_id names scopes_) s
  = (Ok (success "VMs retrieved successfully"
           (VMData (map (entry_of s vm_id)
                      (scoped re_search s scopes_ (named s names))))), s).
Proof.
  intros Hid H. unfold VMs_get, try_except.
  cbn [get_vm_id tag_names scopes].
  destruct Hid as [-> | ->]; unfold bind at 1; unfold bind at 1;
    rewrite (VMs_get_queryset_run names scopes_ s H); reflexivity.
Qed.

Lemma In_joined (s : Store) (lookup : TagsModel.t -> bool)
    (queryset : list VM.t) (vm : VM.t) :
  In vm (joined s lookup queryset)
  <-> In vm queryset
      /\ exists t, In t (VM_tags s (VM.vm_id vm)) /\ lookup t = true.
Proof.
  unfold joined. rewrite in_flat_map. split.
  - intros (x & Hx & Hin). apply in_map_iff in Hin. destruct Hin as (t & <- & Ht).
    apply filter_In in Ht. split; [exact Hx|]. now exists t.
  - intros (Hq & t & Ht & Hl). exists vm. split; [exact Hq|].
    apply in_map_iff. exists t. split; [reflexivity|]. now apply filter_In.
Qed.

Lemma In_scoped (s : Store) (scopes_ : list string) (queryset : list VM.t)
    (vm : VM.t) :
  In vm (scoped re_search s scopes_ queryset)
  <-> In vm queryset
      /\ forall scope, In scope scopes_ ->
           exists t, In t (VM_tags s (VM.vm_id vm))
                     /\ regex_holds re_search (TagsModel.scope t) (strip scope)
                        = true.
Proof.
  unfold scoped. revert queryset.
  induction scopes_ as [|sc rest IH]; intros queryset; simpl.
  - split; [intros H; split; [exact H|intros ? []]|now intros [H _]].
  - rewrite IH, In_joined. split.
    + intros [[Hq Hsc] Hrest]. split; [exact Hq|].
      intros scope [<-|Hin]; [exact Hsc|now apply Hrest].
    + intros [Hq Hall]. split; [split; [exact Hq|]|].
      * apply Hall. now left.
      * intros scope Hin. apply Hall. now right.
Qed.

Lemma In_named (s : Store) (n0 : string) (names : list string) (vm : VM.t) :
  In vm (named s (n0 :: names))
  <-> In vm (vms s)
      /\ exists t n, In t (VM_tags s (VM.vm_id vm)) /\ In n (n0 :: names)
                     /\ iexact (TagsModel.tag_name t) (strip n) = true.
Proof.
  unfold named. rewrite filter_In. split; intros [Hvm H]; (split; [exact Hvm|]).
  - apply existsb_exists in H. destruct H as (x & Hx & E).
    apply N.eqb_eq in E. apply nodup_In, in_map_iff in Hx.
    destruct Hx as (vm' & Hid & Hin). apply In_joined in Hin.
    destruct Hin as (_ & t & Ht & Hl). apply existsb_exists in Hl.
    destruct Hl as (n & Hn & Hm). exists t, n.
    rewrite E, <- Hid. auto.
  - destruct H as (t & n & Ht & Hn & Hm). apply existsb_exists.
    exists (VM.vm_id vm). split; [|apply N.eqb_refl].
    apply nodup_In, in_map_iff. exists vm. split; [reflexivity|].
    apply In_joined. split; [exact Hvm|]. exists t. split; [exact Ht|].
    apply existsb_exists. now exists n.
Qed.

Lemma iexact_true (col : option string) (value : string) :
  iexact col value = true
  <-> exists name, col = Some name /\ lower name = lower value.
Proof.
  destruct col as [a|]; simpl.
  - rewrite String.eqb_eq. split.
    + intros E. now exists a.
    + intros (name & [= ->] & E). exact E.
  - split; [discriminate|]. intros (name & E & _). discriminate.
Qed.

Lemma regex_holds_true (col : option string) (pattern : string) :
  regex_holds re_search col pattern = true
  <-> exists text matches,
        col = Some text /\ re_search pattern = Some matches
        /\ matches text = true.
Proof.
  unfold regex_holds, re_found. destruct col as [a|].
  - destruct (re_search pattern) as [m|]; split.
    + intros E. now exists a, m.
    + intros (text & matches & [= ->] & [= ->] & E). exact E.
    + discriminate.
    + intros (text & matches & _ & E & _). discriminate.
  - split; [discriminate|]. intros (text & matches & E & _). discriminate.
Qed.

(** C4 (as amended).  [VMs.get] without [vm_id], with scope filters that
    are regular expressions (they compile once stripped), answers with the
    entries of a queryset, and a VM is in that queryset exactly when it is
    a VM of the store and
    - no tag-name filter is given, or one of its tags has a name equal, up
      to ASCII case, to some tag-name filter stripped of the whitespace
      around it (the filters are OR-ed);
    - for each scope filter, one of its tags has a scope that the filter,
      stripped of the whitespace around it, matches as a regular expression
      (the filters are AND-ed; different filters may be met by different
      tags, and a tag without scope meets none). *)
Theorem VMs_get_list_filters (s : Store) (vm_id : option string)
    (names scopes_ : list string) :
  vm_id = None \/ vm_id = Some "" ->
  (forall scope, In scope scopes_ -> re_search (strip scope) <> None) ->
  exists vm_instances,
    VMs_get to_uuid re_search (mkVMsGet vm_id names scopes_) s
    = (Ok (success "VMs retrieved successfully"
             (VMData (map (entry_of s vm_id) vm_instances))), s)
    /\ forall vm,
         In vm vm_instances
         <-> In vm (vms s)
             /\ (names = []
                 \/ exists t n name,
                      In t (VM_tags s (VM.vm_id vm)) /\ In n names
                      /\ TagsModel.tag_name t = Some name
                      /\ lower name = lower (strip n))
             /\ (forall scope, In scope scopes_ ->
                   exists t text matches,
                     In t (VM_tags s (VM.vm_id vm))
                     /\ TagsModel.scope t = Some text
                     /\ re_search (strip scope) = Some matches
                     /\ matches text = true).
Proof.
  intros Hid Hc. eexists. split; [now apply VMs_get_list_run|].
  intros vm. rewrite In_scoped.
  assert (Hsc : (forall scope, In scope scopes_ ->
                   exists t, In t (VM_tags s (VM.vm_id vm))
                             /\ regex_holds re_search (TagsModel.scope t)
                                  (strip scope) = true)
                <-> (forall scope, In scope scopes_ ->
                       exists t text matches,
                         In t (VM_tags s (VM.vm_id vm))
                         /\ TagsModel.scope t = Some text
                         /\ re_search (strip scope) = Some matches
                         /\ matches text = true)).
  { split; intros H scope Hin; destruct (H scope Hin) as (t & H').
    - destruct H' as (Ht & Hm). apply regex_holds_true in Hm.
      destruct Hm as (text & matches & E & Em & Hm). now exists t, text, matches.
    - destruct H' as (text & matches & Ht & E & Em & Hm). exists t.
      split; [exact Ht|]. apply regex_holds_true. now exists text, matches. }
  rewrite Hsc. destruct names as [|n0 names'].
  - cbn [named]. split; [intros [H1 H2]; auto|intros (H1 & _ & H2); auto].
  - rewrite In_named. split.
    + intros [(Hvm & t & n & Ht & Hn & Hm) H2]. split; [exact Hvm|]. split; [|exact H2].
      right. apply iexact_true in Hm. destruct Hm as (name & E & Hm).
      now exists t, n, name.
    + intros (Hvm & [Hnil|(t & n & name & Ht & Hn & E & Hm)] & H2); [discriminate|].
      split; [|exact H2]. split; [exact Hvm|]. exists t, n.
      split; [exact Ht|]. split; [exact Hn|]. apply iexact_true. now exists name.
Qed.

(** ** Creating tags *)

(** [TagsModel.save] stores an empty scope as NULL: saving with the scope
    [''] is saving with the scope [None]. *)
Lemma TagsModel_save_empty_scope (u : uuid) (name : option string) (owner : Z)
    (s : Store) :
  TagsModel_save (TagsModel.mk u name (Some "") owner) s
  = TagsModel_save (TagsModel.mk u name None owner) s.
Proof. destruct name as [[|c r]|]; reflexivity. Qed.

(** [Tags.post] likewise. *)
Lemma Tags_post_empty_scope (u : uuid) (name user_id : option string) (s : Store) :
  Tags_post to_int u (mkTagsPost name (Some "") user_id) s
  = Tags_post to_int u (mkTagsPost name None user_id) s.
Proof. reflexivity. Qed.

(** C1.  A tag whose name and normalised scope are those of a tag of the
    store, requested by a user who exists: [Tags.post] refuses and adds no
    row, but the duplicate is caught by the check of [TagsModel.save],
    whose [ValidationError] the first handler of the view turns into the
    code 103; the handler of [IntegrityError], which the view keeps for a
    duplicate and which answers 102, is not reached. *)
Theorem Tags_post_duplicate_answers_103 (s : Store) (u : uuid) (user_id name : string)
    (scope : option string) (n : Z) (user : UserProfile.t) (t : TagsModel.t) :
  to_int user_id = Some n ->
  filter (fun usr => Z.eqb (UserProfile.user_id usr) n) (users s) = [user] ->
  name <> "" ->
  In t (tags s) -> TagsModel.tag_name t = Some name ->
  TagsModel.scope t = match scope with Some EmptyString => None | sc => sc end ->
  Tags_post to_int u (mkTagsPost (Some name) scope (Some user_id)) s
  = (Ok (error 103
           (Format "error: " (ValidationError "This tag already exists.") " ")),
     s).
Proof.
  intros Hn Huser Hne Ht Hname Hscope.
  unfold Tags_post, try_except, bind, get_object_or_404, try_except,
    UserProfile_objects_get, bind, prep_int.
  cbn [post_tag_name post_scope post_user_id]. rewrite Hn. cbn [ret get].
  rewrite Huser. cbn [get_one ret].
  unfold TagsModel_save. cbn [TagsModel.tag_name TagsModel.scope TagsModel.tag_id
                              TagsModel.user_id].
  destruct name as [|c r]; [contradiction|].
  unfold bind. cbn [get].
  match goal with
  | |- context [existsb ?f (tags s)] => assert (E : existsb f (tags s) = true)
  end.
  { apply existsb_exists. exists t. split; [exact Ht|].
    rewrite Hname, Hscope. apply andb_true_iff. split.
    - apply exact_Some_true. reflexivity.
    - destruct scope as [[|c' r']|]; try reflexivity.
      apply exact_Some_true. reflexivity. }
  rewrite E. reflexivity.
Qed.

(** ** The tag table under the views *)

(** A selection of rows with unique keys has unique keys. *)
Lemma selection_unique {R K} (key : R -> K) (keep : R -> bool) (rows : list R)
    (Huniq : NoDup (map key rows)) :
  NoDup (map key (filter keep rows)).
Proof.
  induction rows as [|row rows IH]; [constructor|].
  cbn [map] in Huniq. apply NoDup_cons_iff in Huniq. destruct Huniq as [Hnew Hrest].
  cbn [filter]. destruct (keep row); cbn [map]; [|now apply IH].
  apply NoDup_cons; [|now apply IH].
  contradict Hnew. apply in_map_iff in Hnew. destruct Hnew as (r & Hkey & Hr).
  rewrite <- Hkey. apply in_map. apply filter_In in Hr. tauto.
Qed.

Lemma NoDup_map_snoc {A B} (f : A -> B) (l : list A) (a : A) :
  NoDup (map f l) -> ~ In (f a) (map f l) -> NoDup (map f (l ++ [a])).
Proof.
  intros Hnd Hnot. rewrite map_app. simpl.
  induction (map f l) as [|b bs IH]; simpl.
  - constructor; [intros []|constructor].
  - inversion Hnd as [|? ? Hb Hbs]; subst. constructor.
    + rewrite in_app_iff. intros [H|[H|[]]]; [contradiction|].
      apply Hnot. left. now symmetry.
    + apply IH; [exact Hbs|]. intros H. apply Hnot. now right.
Qed.

Lemma exact_refl (a : option string) : exact a a = true.
Proof. destruct a; simpl; [apply String.eqb_refl|reflexivity]. Qed.

(** [TagsModel.save] either leaves the store as it was, or appends the
    saved tag, whose key and (name, scope) pair were free. *)
Lemma TagsModel_save_cases (self : TagsModel.t) (s s' : Store)
    (o : outcome TagsModel.t) :
  TagsModel_save self s = (o, s') ->
  s' = s
  \/ exists t,
       o = Ok t
       /\ s' = mkStore (users s) (tags s ++ [t]) (vms s) (vms_tags s)
       /\ TagsModel.tag_id t = TagsModel.tag_id self
       /\ TagsModel.tag_name t = TagsModel.tag_name self
       /\ (exists name, TagsModel.tag_name t = Some name /\ name <> "")
       /\ TagsModel.scope t <> Some ""
       /\ ~ In (TagsModel.tag_id t) (map TagsModel.tag_id (tags s))
       /\ ~ In (tag_key t) (map tag_key (tags s)).
Proof.
  unfold TagsModel_save. destruct self as [u name sc owner].
  cbn [TagsModel.tag_name TagsModel.scope TagsModel.tag_id TagsModel.user_id].
  destruct name as [[|c r]|]; try (intros [= <- <-]; now left).
  unfold bind. cbn [get].
  match goal with
  | |- context [existsb ?f (tags s)] => destruct (existsb f (tags s)) eqn:Edup
  end; [intros [= <- <-]; now left|].
  unfold insert_tag, bind. cbn [get TagsModel.tag_id TagsModel.tag_name TagsModel.scope].
  destruct (existsb (fun t' => N.eqb (TagsModel.tag_id t') u) (tags s)) eqn:Epk;
    [intros [= <- <-]; now left|].
  match goal with
  | |- context [if existsb ?f (tags s) then _ else _] =>
      destruct (existsb f (tags s)); [intros [= <- <-]; now left|]
  end.
  cbn [put ret]. intros [= <- <-]. right. eexists. split; [reflexivity|].
  split; [reflexivity|]. cbn [TagsModel.tag_id TagsModel.tag_name TagsModel.scope].
  split; [reflexivity|]. split; [reflexivity|].
  split; [exists (String c r); split; [reflexivity|discriminate]|].
  split; [destruct sc as [[|c' r']|]; discriminate|].
  split.
  - intros Hin. apply in_map_iff in Hin. destruct Hin as (t & E & Ht).
    assert (H : existsb (fun t' => N.eqb (TagsModel.tag_id t') u) (tags s) = true).
    { apply existsb_exists. exists t. split; [exact Ht|]. now apply N.eqb_eq. }
    congruence.
  - intros Hin. apply in_map_iff in Hin. destruct Hin as (t & E & Ht).
    unfold tag_key in E. cbn [TagsModel.tag_name TagsModel.scope] in E.
    injection E as En Es.
    match type of Edup with
    | existsb ?f _ = false => assert (H : existsb f (tags s) = true)
    end; [|congruence].
    apply existsb_exists. exists t. split; [exact Ht|].
    rewrite En, Es. rewrite !exact_refl. reflexivity.
Qed.

(** [TagsModel.save] keeps the tag table well formed. *)
Lemma TagsModel_save_tags_ok (self : TagsModel.t) (s s' : Store)
    (o : outcome TagsModel.t) :
  tags_ok s -> TagsModel_save self s = (o, s') -> tags_ok s'.
Proof.
  intros (Hpk & Hkey & Hall) Hrun.
  destruct (TagsModel_save_cases self s s' o Hrun)
    as [->|(t & _ & -> & _ & _ & Hname & Hscope & Hfresh & Hfree)];
    [split; [exact Hpk|split; [exact Hkey|exact Hall]]|].
  unfold tags_ok. cbn [tags]. split; [now apply NoDup_map_snoc|]. split; [now apply NoDup_map_snoc|].
  intros t' Hin. apply in_app_iff in Hin. destruct Hin as [Hin|[<-|[]]].
  - now apply Hall.
  - now split.
Qed.

(** Looking a user up writes nothing. *)
Lemma get_UserProfile_reads (user_id : option string) (s s1 : Store)
    (o : outcome UserProfile.t) :
  get_object_or_404 "UserProfile" (UserProfile_objects_get to_int user_id) s
  = (o, s1) ->
  s1 = s.
Proof.
  unfold get_object_or_404, try_except, UserProfile_objects_get, bind, prep_int.
  destruct user_id as [v|]; [|cbn; now intros [= _ <-]].
  destruct (to_int v); [|cbn; now intros [= _ <-]].
  cbn [ret get]. destruct (filter _ (users s)) as [|x [|y l]]; cbn; now intros [= _ <-].
Qed.

(** [Tags.post] keeps the tag table well formed: whatever the request and
    the store, no second row with a (name, scope) pair appears. *)
Lemma Tags_post_tags_ok (uuid4 : uuid) (request : TagsPostData) (s s' : Store)
    (o : outcome JsonResponse) :
  tags_ok s -> Tags_post to_int uuid4 request s = (o, s') -> tags_ok s'.
Proof.
  intros Hok. unfold Tags_post, try_except, bind.
  destruct (get_object_or_404 "UserProfile"
              (UserProfile_objects_get to_int (post_user_id request)) s)
    as [[user|e] s1] eqn:Euser; apply get_UserProfile_reads in Euser; subst s1.
  - destruct (TagsModel_save _ s) as [[t|e] s2] eqn:Esave;
      pose proof (TagsModel_save_tags_ok _ s s2 _ Hok Esave) as Hok2.
    + cbn [ret]. now intros [= <- <-].
    + destruct e; cbn [ret raise]; now intros [= <- <-].
  - destruct e; cbn [ret raise]; now intros [= <- <-].
Qed.

(** [Tags.delete] keeps the tag table well formed. *)
Lemma Tags_delete_tags_ok (request : TagsDeleteQuery) (s s' : Store)
    (o : outcome JsonResponse) :
  tags_ok s -> Tags_delete to_uuid to_int request s = (o, s') -> tags_ok s'.
Proof.
  intros Hok. unfold Tags_delete, try_except, bind.
  destruct (provided (del_tag_id request)) as [tid|]; [|cbn; intros [= <- <-]; exact Hok].
  destruct (provided (del_user_id request)) as [uid|]; [|cbn; intros [= <- <-]; exact Hok].
  unfold prep_uuid. destruct (to_uuid tid) as [u|]; [|cbn; intros [= <- <-]; exact Hok].
  cbn [ret get].
  destruct (existsb _ (tags s)); [cbn; intros [= <- <-]; exact Hok|].
  unfold prep_int. destruct (to_int uid) as [n|]; [|cbn; intros [= <- <-]; exact Hok].
  cbn [ret]. destruct (_ || _); [|cbn; intros [= <- <-]; exact Hok].
  cbn. intros [= <- <-]. destruct Hok as (Hpk & Hkey & Hall).
  split; [now apply selection_unique|]. split; [now apply selection_unique|].
  cbn [tags]. intros t Ht. apply filter_In in Ht. now apply Hall.
Qed.

Lemma tags_ok_same_tags (s s' : Store) :
  tags s' = tags s -> tags_ok s -> tags_ok s'.
Proof. unfold tags_ok. now intros ->. Qed.

(** The loop of [VMs.post] keeps the tag table well formed. *)
Lemma attach_tags_tags_ok (uuid4 : nat -> uuid) (user_profile : UserProfile.t)
    (vm_instance : VM.t) (tags_ : list string) :
  forall (k : nat) (s s' : Store) (o : outcome unit),
    tags_ok s ->
    attach_tags uuid4 k user_profile vm_instance tags_ s = (o, s') ->
    tags_ok s'.
Proof.
  induction tags_ as [|tag_scope rest IH]; intros k s s' o Hok; cbn [attach_tags].
  - now intros [= _ <-].
  - destruct (split ":" tag_scope) as [|tag_name [|scope [|x l]]];
      try (now intros [= _ <-]).
    unfold bind at 1. cbn [get].
    destruct (first_by_pk _) as [t|].
    + unfold bind at 1. cbn [ret]. unfold bind at 1. cbn [get fst snd].
      destruct (has_row _ (vms_tags s)).
      * unfold bind at 1. cbn [ret]. now apply IH.
      * unfold bind at 1. cbn [put]. apply IH.
        now apply (tags_ok_same_tags s).
    + unfold bind at 1. unfold bind at 1.
      destruct (TagsModel_save _ s) as [[t|e] s1] eqn:Esave;
        pose proof (TagsModel_save_tags_ok _ s s1 _ Hok Esave) as Hok1.
      * cbn [ret]. unfold bind at 1. cbn [get fst snd].
        destruct (has_row _ (vms_tags s1)).
        -- unfold bind at 1. cbn [ret]. now apply IH.
        -- unfold bind at 1. cbn [put]. apply IH.
           now apply (tags_ok_same_tags s1).
      * now intros [= _ <-].
Qed.

(** [VMs.post] keeps the tag table well formed. *)
Lemma VMs_post_tags_ok (uuid4 : nat -> uuid) (now : string)
    (request : VMsPostData) (s s' : Store) (o : outcome JsonResponse) :
  tags_ok s -> VMs_post to_int uuid4 now request s = (o, s') -> tags_ok s'.
Proof.
  intros Hok. unfold VMs_post, bind at 1. cbn [get].
  destruct (match post_vm_name request with
            | Some n => existsb (fun v => String.eqb (VM.vm_name v) n) (vms s)
            | None => false
            end); [now intros [= _ <-]|].
  destruct (VM_objects_create (uuid4 0%nat) now (post_vm_name request) s)
    as [[vm|e] s1] eqn:Ecreate.
  - assert (Hok1 : tags_ok s1).
    { unfold VM_objects_create, bind in Ecreate.
      destruct (post_vm_name request); [|discriminate Ecreate].
      cbn [get] in Ecreate.
      destruct (existsb _ (vms s)); [discriminate Ecreate|].
      destruct (existsb _ (vms s)); [discriminate Ecreate|].
      cbn in Ecreate. injection Ecreate as _ <-. exact Hok. }
    unfold try_except, bind at 1.
    destruct (post_tags request) as [|spec specs].
    + cbn. now intros [= _ <-].
    + unfold bind at 1.
      destruct (get_object_or_404 "UserProfile"
                  (UserProfile_objects_get to_int (vm_user_id request)) s1)
        as [[user|e] s2] eqn:Euser; apply get_UserProfile_reads in Euser; subst s2.
      * destruct (attach_tags uuid4 1 user vm (spec :: specs) s1)
          as [[[]|e] s3] eqn:Eloop;
          pose proof (attach_tags_tags_ok _ _ _ _ _ _ _ _ Hok1 Eloop) as Hok3.
        -- cbn. now intros [= _ <-].
        -- destruct e; cbn; intros [= _ <-];
             try exact Hok3; now apply (tags_ok_same_tags s3).
      * destruct e; cbn; intros [= _ <-];
          try exact Hok1; now apply (tags_ok_same_tags s1).
  - assert (s1 = s) as ->.
    { unfold VM_objects_create, bind in Ecreate.
      destruct (post_vm_name request); [|now injection Ecreate as _ <-].
      cbn [get] in Ecreate.
      destruct (existsb _ (vms s)); [now injection Ecreate as _ <-|].
      destruct (existsb _ (vms s)); [now injection Ecreate as _ <-|].
      discriminate Ecreate. }
    destruct e; cbn; now intros [= _ <-].
Qed.

(** [AssignUnassignTags.post] does not write the tag table. *)
Lemma AssignUnassignTags_post_tags (request : AssignData) (s s' : Store)
    (o : outcome JsonResponse) :
  AssignUnassignTags_post to_uuid request s = (o, s') -> tags s' = tags s.
Proof.
  assert (Hget : forall name o1 s1,
             get_object_or_404 "TagsModel" (TagsModel_objects_get name) s = (o1, s1) ->
             s1 = s).
  { intros name o1 s1.
    unfold get_object_or_404, try_except, TagsModel_objects_get, bind. cbn [get].
    destruct (filter _ (tags s)) as [|x [|y l]]; cbn; now intros [= _ <-]. }
  unfold AssignUnassignTags_post, try_except.
  destruct (is_str (action request) "assign").
  - unfold bind at 1.
    destruct (get_object_or_404 _ _ s) as [[tag|e] s1] eqn:E; apply Hget in E; subst s1.
    + unfold bind, vms_add, bind.
      destruct (prep_uuids_run (vm_ids request) s) as [(us & -> & _)|(m & ->)].
      * cbn [get]. destruct (forallb _ _); cbn; now intros [= _ <-].
      * cbn. now intros [= _ <-].
    + destruct e; cbn; now intros [= _ <-].
  - destruct (is_str (action request) "unassign"); [|cbn; now intros [= _ <-]].
    unfold bind at 1.
    destruct (get_object_or_404 _ _ s) as [[tag|e] s1] eqn:E; apply Hget in E; subst s1.
    + unfold bind, vms_remove, bind.
      destruct (prep_uuids_run (vm_ids request) s) as [(us & -> & _)|(m & ->)].
      * cbn. now intros [= _ <-].
      * cbn. now intros [= _ <-].
    + destruct e; cbn; now intros [= _ <-].
Qed.

(** ** Creating VMs *)

(** C3.  [VMs.post] for a new VM with a non-empty tag list and a [user_id]
    that is the key of no user: the VM row is already inserted when the
    lookup of the user fails with [Http404]; the failure goes to the generic
    handler (code 101), which deletes nothing, and the VM row is still in
    the store after the failed call. *)
Theorem VMs_post_unknown_owner_leaves_vm_row (s : Store) (uuid4 : nat -> uuid) (now vm_name : string)
    (spec : string) (specs : list string) (user_id : string) (n : Z) :
  (forall vm, In vm (vms s) -> VM.vm_name vm <> vm_name) ->
  (forall vm, In vm (vms s) -> VM.vm_id vm <> uuid4 0%nat) ->
  to_int user_id = Some n ->
  (forall usr, In usr (users s) -> UserProfile.user_id usr <> n) ->
  VMs_post to_int uuid4 now (mkVMsPost (Some vm_name) (spec :: specs) (Some user_id)) s
  = (Ok (error 101
           (Format "Error: " (Http404 "No UserProfile matches the given query.") "")),
     mkStore (users s) (tags s) (vms s ++ [VM.mk (uuid4 0%nat) vm_name now])
       (vms_tags s)).
Proof.
  intros Hname Hpk Hn Huser.
  unfold VMs_post, bind. cbn [get post_vm_name post_tags vm_user_id].
  rewrite existsb_false.
  2:{ intros vm Hvm. apply String.eqb_neq. now apply Hname. }
  unfold VM_objects_create, bind. cbn [get].
  rewrite existsb_false.
  2:{ intros vm Hvm. apply N.eqb_neq. now apply Hpk. }
  rewrite existsb_false.
  2:{ intros vm Hvm. apply String.eqb_neq. now apply Hname. }
  cbn [put ret]. unfold try_except, bind, get_object_or_404, try_except,
    UserProfile_objects_get, bind, prep_int.
  rewrite Hn. cbn [ret get users].
  rewrite filter_none; [reflexivity|].
  intros usr Husr. apply Z.eqb_neq. now apply Huser.
Qed.

(** C9.  The store holds a tag [name] without scope.  [VMs.post] for a new
    VM with the one tag spec [name:], whose scope is the empty string, does
    not find that tag: its lookup compares the scope with [''] where the
    stored scope is NULL.  It then creates the tag, [TagsModel.save] turns
    the empty scope into NULL and finds the duplicate, and the call fails
    with the code 103, the VM row removed: the store is as it was before
    the call, and the existing tag is not attached. *)
Theorem VMs_post_empty_scope_misses_null_scope_tag (s : Store)
    (uuid4 : nat -> uuid) (now vm_name spec name user_id : string) (n : Z)
    (user : UserProfile.t) (t : TagsModel.t) :
  (forall vm, In vm (vms s) -> VM.vm_name vm <> vm_name) ->
  (forall vm, In vm (vms s) -> VM.vm_id vm <> uuid4 0%nat) ->
  (forall r, In r (vms_tags s) -> fst r <> uuid4 0%nat) ->
  to_int user_id = Some n ->
  filter (fun usr => Z.eqb (UserProfile.user_id usr) n) (users s) = [user] ->
  split ":" spec = [name; ""] -> name <> "" ->
  In t (tags s) -> TagsModel.tag_name t = Some name -> TagsModel.scope t = None ->
  (forall t', In t' (tags s) -> TagsModel.scope t' <> Some "") ->
  VMs_post to_int uuid4 now (mkVMsPost (Some vm_name) [spec] (Some user_id)) s
  = (Ok (error 103
           (Format "Validation error: "
              (ValidationError "This tag already exists.") "")),
     s).
Proof.
  intros Hname Hpk Hrows Hn Huser Hsplit Hne Ht Htn Hts Hscopes.
  unfold VMs_post, bind. cbn [get post_vm_name post_tags vm_user_id].
  rewrite existsb_false.
  2:{ intros vm Hvm. apply String.eqb_neq. now apply Hname. }
  unfold VM_objects_create, bind. cbn [get].
  rewrite existsb_false.
  2:{ intros vm Hvm. apply N.eqb_neq. now apply Hpk. }
  rewrite existsb_false.
  2:{ intros vm Hvm. apply String.eqb_neq. now apply Hname. }
  cbn [put ret]. unfold try_except, bind, get_object_or_404, try_except,
    UserProfile_objects_get, bind, prep_int.
  rewrite Hn. cbn [ret get users]. rewrite Huser. cbn [get_one ret attach_tags].
  rewrite Hsplit. unfold bind. cbn [get tags].
  rewrite filter_none.
  2:{ intros t' Ht'. apply andb_false_iff. right.
      destruct (exact (TagsModel.scope t') (Some "")) eqn:E; [|reflexivity].
      apply exact_Some_true in E. now apply Hscopes in Ht'. }
  cbn [first_by_pk]. unfold TagsModel_save.
  cbn [TagsModel.tag_name TagsModel.scope TagsModel.tag_id TagsModel.user_id].
  destruct name as [|c r]; [contradiction|]. unfold bind. cbn [get tags].
  match goal with
  | |- context [existsb ?f (tags s)] => assert (E : existsb f (tags s) = true)
  end.
  { apply existsb_exists. exists t. split; [exact Ht|].
    rewrite Htn, Hts. apply andb_true_iff. split; [|reflexivity].
    apply exact_Some_true. reflexivity. }
  rewrite E. cbn [raise VMs_post_except]. unfold VM_delete, bind.
  cbn [get put ret users tags vms vms_tags VM.vm_id].
  rewrite filter_app. cbn [filter VM.vm_id]. rewrite N.eqb_refl. cbn [negb].
  rewrite app_nil_r.
  rewrite (filter_all (fun v => negb (N.eqb (VM.vm_id v) (uuid4 0%nat)))).
  2:{ intros vm Hvm. apply negb_true_iff, N.eqb_neq. now apply Hpk. }
  rewrite (filter_all (fun r : N * N => negb (N.eqb (fst r) (uuid4 0%nat)))).
  2:{ intros row Hrow. apply negb_true_iff, N.eqb_neq. now apply Hrows. }
  now rewrite store_eta.
Qed.

End Properties.

(** * Counterexamples *)

(** C4, as stated, fails: the tag-name filter [" env"], with a space in
    front, selects [vm-a], whose only tag is named [env]; no tag of [vm-a]
    has a name equal to the filter up to case. *)
Lemma VMs_get_unstripped_filter_counterexample :
  VMs_get uuid_of_hex literal_search (mkVMsGet None [" env"] []) store_1
  = (Ok (success "VMs retrieved successfully"
           (VMData [mkEntry None "vm-a" [(Some "env", Some "prod")]])),
     store_1)
  /\ ~ (exists t n name,
          In t (VM_tags store_1 (VM.vm_id vm_a)) /\ In n [" env"]
          /\ TagsModel.tag_name t = Some name /\ lower name = lower n).
Proof.
  split; [reflexivity|].
  intros (t & n & name & Ht & Hn & E & Hl).
  simpl in Ht. destruct Ht as [<-|[]]. destruct Hn as [<-|[]].
  injection E as <-. discriminate Hl.
Qed.

(** C7, as stated, fails twice over.  [env:prod] is an existing tag, but
    two tags are named [env]: [assign] of [env] to the existing [vm-b]
    fails both times and no row associates them.  [team] names one tag, but
    no VM has the id [...a3]: [assign] fails both times and no row is
    added. *)
Lemma assign_twice_counterexample :
  In tag_env_prod (tags store_1)
  /\ AssignUnassignTags_post uuid_of_hex
       (mkAssign (Some "assign") (Some "env") [id_162]) store_1
     = (Ok (error 101
              (Format "error: "
                 (MultipleObjectsReturned "get() returned more than one TagsModel")
                 "")),
        store_1)
  /\ associations store_1 162 17 = 0%nat
  /\ AssignUnassignTags_post uuid_of_hex
       (mkAssign (Some "assign") (Some "team") [id_163]) store_1
     = (Ok (error 101
              (Format "error: " (IntegrityError "FOREIGN KEY constraint failed") "")),
        store_1)
  /\ associations store_1 163 20 = 0%nat.
Proof. repeat split; try reflexivity. simpl. auto. Qed.

(** * Instances of the theorems *)

Lemma assign_unknown_tag_not_found_witness :
  AssignUnassignTags_post uuid_of_hex
    (mkAssign (Some "assign") (Some "nope") [id_162]) store_1
  = (Ok (error 101
           (Format "error: " (Http404 "No TagsModel matches the given query.") "")),
     store_1).
Proof.
  apply (assign_unknown_tag_not_found uuid_of_hex store_1 "nope" [id_162]).
  intros t [<-|[<-|[<-|[]]]]; discriminate.
Defined.

Lemma delete_missing_tag_by_admin_succeeds_witness :
  Tags_delete uuid_of_hex int_of_decimal (mkTagsDelete (Some id_99) (Some "1")) store_1
  = (Ok (mkResponse "success" 0 (Text "Tag deleted successfully.") NoData), store_1).
Proof.
  apply (delete_missing_tag_by_admin_succeeds uuid_of_hex int_of_decimal
           store_1 id_99 99 1).
  - discriminate.
  - discriminate.
  - reflexivity.
  - reflexivity.
  - intros t [<-|[<-|[<-|[]]]]; discriminate.
Defined.

Lemma NoDup_store_1 : NoDup (map TagsModel.tag_id (tags store_1)).
Proof.
  simpl. repeat constructor; simpl; intros H;
    repeat (destruct H as [H|H]; [discriminate H|]); exact H.
Defined.

Lemma NoDup_store_3 : NoDup (map TagsModel.tag_id (tags store_3)).
Proof.
  simpl. repeat constructor; simpl; intros H;
    repeat (destruct H as [H|H]; [discriminate H|]); exact H.
Defined.

Lemma delete_tag_owner_or_admin_witness :
  Tags_delete uuid_of_hex int_of_decimal (mkTagsDelete (Some id_20) (Some "3")) store_1
  = (Ok (error 100 (Text "Invalid Request.")), store_1)
  /\ exists s',
       Tags_delete uuid_of_hex int_of_decimal
         (mkTagsDelete (Some id_20) (Some "2")) store_1
       = (Ok (mkResponse "success" 0 (Text "Tag deleted successfully.") NoData), s')
       /\ ~ In tag_team (tags s').
Proof.
  assert (Hrows : forall r, In r (vms_tags store_1) -> snd r <> TagsModel.tag_id tag_team).
  { intros r [<-|[]]. discriminate. }
  assert (Hin : In tag_team (tags store_1)) by (simpl; auto).
  split.
  - apply (delete_tag_owner_or_admin uuid_of_hex int_of_decimal store_1 tag_team
             id_20 "3" 3 Hin NoDup_store_1 Hrows); try discriminate; try reflexivity.
    split; discriminate.
  - destruct (delete_tag_owner_or_admin uuid_of_hex int_of_decimal store_1 tag_team
                id_20 "2" 2 Hin NoDup_store_1 Hrows) as [_ H];
      try discriminate; try reflexivity.
    destruct (H (or_intror eq_refl)) as (s' & Hrun & Hgone & _).
    exists s'. split; assumption.
Defined.

Lemma delete_tag_in_use_then_unassigned_witness :
  Tags_delete uuid_of_hex int_of_decimal (mkTagsDelete (Some id_20) (Some "2")) store_3
  = (Ok (error 101 (Text "Tag is assigned to VMs. Unassign it before deleting.")),
     store_3)
  /\ exists s2,
       Tags_delete uuid_of_hex int_of_decimal
         (mkTagsDelete (Some id_20) (Some "2")) store_3_unassigned
       = (Ok (mkResponse "success" 0 (Text "Tag deleted successfully.") NoData), s2)
       /\ ~ In tag_team (tags s2).
Proof.
  destruct (delete_tag_in_use_then_unassigned uuid_of_hex int_of_decimal store_3
              tag_team 161 id_20 "2") as [H1 H2];
    try discriminate; try reflexivity.
  - simpl; auto.
  - exact NoDup_store_3.
  - simpl; auto.
  - split; [exact H1|].
    apply (H2 [id_161]
             (success "Tag Unassigned from Objects successfully" EmptyData)
             store_3_unassigned 2%Z); try reflexivity.
    + intros v' [H|[H|[]]].
      * injection H as <-. exists id_161. split; [left; reflexivity|reflexivity].
      * discriminate H.
    + right. reflexivity.
Defined.

Lemma assign_twice_one_association_witness :
  AssignUnassignTags_post uuid_of_hex
    (mkAssign (Some "assign") (Some "team") [id_162]) store_1
  = (Ok (success "Tag Assigned to Objects successfully" EmptyData), store_1_assigned)
  /\ AssignUnassignTags_post uuid_of_hex
       (mkAssign (Some "assign") (Some "team") [id_162]) store_1_assigned
     = (Ok (success "Tag Assigned to Objects successfully" EmptyData),
        store_1_assigned)
  /\ associations store_1_assigned 162 20 = 1%nat.
Proof.
  destruct (assign_twice_one_association uuid_of_hex store_1 tag_team "team" id_162
              162 NoDup_store_1) as (s1 & Hrun1 & Hrun2 & Hone).
  - simpl; auto.
  - reflexivity.
  - intros t' [<-|[<-|[<-|[]]]] H; try discriminate H; reflexivity.
  - reflexivity.
  - exists vm_b. split; [simpl; auto|reflexivity].
  - apply le_S, le_n.
  - assert (E : s1 = store_1_assigned).
    { change (AssignUnassignTags_post uuid_of_hex
                (mkAssign (Some "assign") (Some "team") [id_162]) store_1)
        with (Ok (success "Tag Assigned to Objects successfully" EmptyData),
              store_1_assigned) in Hrun1.
      injection Hrun1 as <-. reflexivity. }
    rewrite <- E. repeat split; assumption.
Defined.

Lemma VMs_get_list_filters_witness :
  exists vm_instances,
    VMs_get uuid_of_hex literal_search (mkVMsGet None [" ENV"] [" prod "]) store_1
    = (Ok (success "VMs retrieved successfully"
             (VMData (map (entry_of store_1 None) vm_instances))),
       store_1)
    /\ In vm_a vm_instances
    /\ ~ In vm_b vm_instances.
Proof.
  destruct (VMs_get_list_filters uuid_of_hex literal_search store_1 None
              [" ENV"] [" prod "] (or_introl eq_refl))
    as (vm_instances & Hrun & Hmem).
  - intros scope [<-|[]]. vm_compute. discriminate.
  - exists vm_instances. split; [exact Hrun|]. split.
    + apply Hmem. split; [simpl; auto|]. split.
      * right. exists tag_env_prod, " ENV", "env". repeat split; simpl; auto.
      * intros scope [<-|[]]. exists tag_env_prod, "prod", (contains "prod").
        repeat split; simpl; auto.
    + intros H. apply Hmem in H. destruct H as (_ & _ & H).
      destruct (H " prod " (or_introl eq_refl)) as (t & text & m & Ht & _).
      exact Ht.
Defined.

Lemma Tags_post_duplicate_answers_103_witness :
  Tags_post int_of_decimal 30
    (mkTagsPost (Some "env") (Some "prod") (Some "1")) store_1
  = (Ok (error 103
           (Format "error: " (ValidationError "This tag already exists.") " ")),
     store_1).
Proof.
  apply (Tags_post_duplicate_answers_103 int_of_decimal store_1 30 "1" "env"
           (Some "prod") 1 alice tag_env_prod).
  - reflexivity.
  - reflexivity.
  - discriminate.
  - simpl; auto.
  - reflexivity.
  - reflexivity.
Defined.

Lemma VMs_post_unknown_owner_leaves_vm_row_witness :
  VMs_post int_of_decimal draws "2024-02-01T00:00:00"
    (mkVMsPost (Some "vm-c") ["env:qa"] (Some "7")) store_1
  = (Ok (error 101
           (Format "Error: " (Http404 "No UserProfile matches the given query.") "")),
     store_1_vm_c)
  /\ In (VM.mk 200 "vm-c" "2024-02-01T00:00:00") (vms store_1_vm_c).
Proof.
  split; [|simpl; auto].
  apply (VMs_post_unknown_owner_leaves_vm_row int_of_decimal store_1 draws
           "2024-02-01T00:00:00" "vm-c" "env:qa" [] "7" 7).
  - intros vm [<-|[<-|[]]]; discriminate.
  - intros vm [<-|[<-|[]]]; discriminate.
  - reflexivity.
  - intros usr [<-|[<-|[]]]; discriminate.
Defined.

Lemma VMs_post_empty_scope_misses_null_scope_tag_witness :
  VMs_post int_of_decimal draws "2024-02-01T00:00:00"
    (mkVMsPost (Some "vm-c") ["env:"] (Some "1")) store_2
  = (Ok (error 103
           (Format "Validation error: "
              (ValidationError "This tag already exists.") "")),
     store_2).
Proof.
  apply (VMs_post_empty_scope_misses_null_scope_tag int_of_decimal store_2 draws
           "2024-02-01T00:00:00" "vm-c" "env:" "env" "1" 1 alice tag_env_null).
  - intros vm [].
  - intros vm [].
  - intros r [].
  - reflexivity.
  - reflexivity.
  - reflexivity.
  - discriminate.
  - simpl; auto.
  - reflexivity.
  - reflexivity.
  - intros t' [<-|[]]. discriminate.
Defined.

(** * Further properties of the views *)

Section TagsGet.

Variable to_uuid : string -> option uuid.
Variable to_int : string -> option Z.
Variable re_search : string -> option (string -> bool).

Lemma and_then_run (c1 c2 : M bool) (b1 b2 : bool) (s : Store) :
  c1 s = (Ok b1, s) -> c2 s = (Ok b2, s) ->
  (c1 &&& c2) s = (Ok (b1 && b2), s).
Proof.
  intros E1 E2. unfold and_then, bind. rewrite E1.
  destruct b1; [exact E2|reflexivity].
Qed.

Lemma q_cond_run {A} (param : option A) (lookup : A -> bool) (s : Store) :
  q_cond param (fun v => ret (lookup v)) s = (Ok (q_holds param lookup), s).
Proof. now destruct param. Qed.

Lemma q_cond_regex_run (param col : option string) (s : Store) :
  compiles re_search param ->
  q_cond param (fun p => regex re_search col p) s
  = (Ok (q_holds param (fun p => regex_holds re_search col p)), s).
Proof.
  destruct param as [p|]; [|reflexivity].
  intros H. unfold q_cond, q_holds, regex, regex_holds, re_found.
  destruct col as [text|]; [|reflexivity].
  cbn [compiles] in H. now destruct (re_search p).
Qed.

(** The condition of the query of [Tags.get] on one row, when the patterns
    compile. *)
Lemma Tags_get_cond_run (tag_id : option uuid) (tag_name scope : option string)
    (user_id : option Z) (t : TagsModel.t) (s : Store) :
  compiles re_search tag_name ->
  compiles re_search scope ->
  (q_cond tag_id (fun u => ret (N.eqb (TagsModel.tag_id t) u))
   &&& q_cond tag_name (fun p => regex re_search (TagsModel.tag_name t) p)
   &&& q_cond scope (fun p => regex re_search (TagsModel.scope t) p)
   &&& q_cond user_id (fun n => ret (Z.eqb (TagsModel.user_id t) n))) s
  = (Ok (q_holds tag_id (fun u => N.eqb (TagsModel.tag_id t) u)
         && q_holds tag_name
              (fun p => regex_holds re_search (TagsModel.tag_name t) p)
         && q_holds scope
              (fun p => regex_holds re_search (TagsModel.scope t) p)
         && q_holds user_id (fun n => Z.eqb (TagsModel.user_id t) n)), s).
Proof.
  intros Hn Hs. repeat apply and_then_run.
  - apply q_cond_run.
  - now apply q_cond_regex_run.
  - now apply q_cond_regex_run.
  - apply q_cond_run.
Qed.

(** [Tags.get] with parameters that convert and patterns that compile,
    step by step. *)
Lemma Tags_get_run (s : Store) (request : TagsGetQuery) (tag_id : option uuid)
    (user_id : option Z) :
  prepared to_uuid (q_tag_id request) tag_id ->
  prepared to_int (q_user_id request) user_id ->
  compiles re_search (q_tag_name request) ->
  compiles re_search (q_scope request) ->
  Tags_get to_uuid to_int re_search request s
  = (Ok (TagsFound
           (filter (fun t =>
                      q_holds tag_id (fun u => N.eqb (TagsModel.tag_id t) u)
                      && q_holds (q_tag_name request)
                           (fun p => regex_holds re_search (TagsModel.tag_name t) p)
                      && q_holds (q_scope request)
                           (fun p => regex_holds re_search (TagsModel.scope t) p)
                      && q_holds user_id (fun n => Z.eqb (TagsModel.user_id t) n))
                   (tags s))),
     s).
Proof.
  intros Htag Huser Hn Hs.
  unfold Tags_get, try_except, bind, prep_uuid, prep_int.
  destruct (q_tag_id request) as [v|], tag_id as [u|]; try contradiction;
    destruct (q_user_id request) as [w|], user_id as [n|]; try contradiction;
    cbn [prepared] in Htag, Huser; try rewrite Htag; try rewrite Huser;
    cbn [ret get]; cbv beta iota zeta;
    destruct (q_tag_name request) as [pn|], (q_scope request) as [ps|];
    try (erewrite select_run
           by (intros t _; apply Tags_get_cond_run; assumption);
         reflexivity).
  cbn [q_holds andb]. rewrite filter_all; [reflexivity|]. intros; reflexivity.
Qed.

Lemma compiles_iff (param : option string) :
  compiles re_search param
  <-> forall p, param = Some p -> re_search p <> None.
Proof.
  destruct param as [p|]; cbn [compiles]; split.
  - now intros H p' [= <-].
  - intros H. now apply H.
  - intros _ p'. discriminate.
  - trivial.
Qed.

(** [Tags.get], with patterns that compile, answers with the tags that
    satisfy every lookup the request carries: the key equal to [tag_id],
    the name matched by the pattern [tag_name], the scope matched by the
    pattern [scope] (a tag without scope is matched by none), the owner
    equal to [user_id]; with no parameter it answers with every tag.  The
    store is not written. *)
Theorem Tags_get_filters (s : Store) (request : TagsGetQuery)
    (tag_id : option uuid) (user_id : option Z) :
  prepared to_uuid (q_tag_id request) tag_id ->
  prepared to_int (q_user_id request) user_id ->
  (forall p, q_tag_name request = Some p -> re_search p <> None) ->
  (forall p, q_scope request = Some p -> re_search p <> None) ->
  exists rows,
    Tags_get to_uuid to_int re_search request s = (Ok (TagsFound rows), s)
    /\ forall t,
         In t rows
         <-> In t (tags s)
             /\ (forall u, tag_id = Some u -> TagsModel.tag_id t = u)
             /\ (forall p, q_tag_name request = Some p ->
                   exists text matches,
                     TagsModel.tag_name t = Some text
                     /\ re_search p = Some matches /\ matches text = true)
             /\ (forall p, q_scope request = Some p ->
                   exists text matches,
                     TagsModel.scope t = Some text
                     /\ re_search p = Some matches /\ matches text = true)
             /\ (forall n, user_id = Some n -> TagsModel.user_id t = n).
Proof.
  intros Htag Huser Hn Hs. apply compiles_iff in Hn, Hs. eexists.
  split; [exact (Tags_get_run s request tag_id user_id Htag Huser Hn Hs)|].
  intros t. rewrite filter_In, !andb_true_iff.
  split.
  - intros (Hin & ((H1 & H2) & H3) & H4). split; [exact Hin|]. repeat split.
    + intros u ->. now apply N.eqb_eq in H1.
    + intros p E. rewrite E in H2. now apply regex_holds_true in H2.
    + intros p E. rewrite E in H3. now apply regex_holds_true in H3.
    + intros n ->. now apply Z.eqb_eq in H4.
  - intros (Hin & H1 & H2 & H3 & H4). split; [exact Hin|]. repeat split.
    + destruct tag_id as [u|]; [|reflexivity]. apply N.eqb_eq. now apply H1.
    + destruct (q_tag_name request) as [p|]; [|reflexivity].
      apply regex_holds_true. now apply H2.
    + destruct (q_scope request) as [p|]; [|reflexivity].
      apply regex_holds_true. now apply H3.
    + destruct user_id as [n|]; [|reflexivity]. apply Z.eqb_eq. now apply H4.
Qed.

(** A [tag_id] that is no UUID is answered with the code 103, whatever the
    other parameters; a [user_id] that is no number, the [tag_id] being
    absent or well formed, raises a [ValueError] that no handler of
    [Tags.get] catches.  Neither writes the store. *)
Theorem Tags_get_bad_parameter (s : Store) (request : TagsGetQuery) :
  (forall v, q_tag_id request = Some v -> to_uuid v = None ->
     Tags_get to_uuid to_int re_search request s
     = (Ok (TagsError
              (error 103
                 (Format "error: " (ValidationError (v ++ " is not a valid UUID."))
                    " "))),
        s))
  /\ (forall w tag_id,
        prepared to_uuid (q_tag_id request) tag_id ->
        q_user_id request = Some w -> to_int w = None ->
        Tags_get to_uuid to_int re_search request s
        = (Raise (ValueError ("Field 'user_id' expected a number but got " ++ w)),
           s)).
Proof.
  split.
  - intros v Ev Hbad. unfold Tags_get, try_except, bind, prep_uuid.
    rewrite Ev, Hbad. reflexivity.
  - intros w tag_id Htag Ew Hbad.
    unfold Tags_get, try_except, bind, prep_uuid, prep_int. rewrite Ew, Hbad.
    destruct (q_tag_id request) as [v|], tag_id as [u|]; try contradiction;
      cbn [prepared] in Htag; try rewrite Htag; reflexivity.
Qed.

(** The condition of the query on one row, when the [tag_name] pattern
    does not compile: the pattern is run on the name of a row that has the
    requested key. *)
Lemma Tags_get_cond_raises (tag_id : option uuid) (p : string)
    (scope : option string) (user_id : option Z) (r : TagsModel.t) (s : Store) :
  re_search p = None ->
  (q_cond tag_id (fun u => ret (N.eqb (TagsModel.tag_id r) u))
   &&& q_cond (Some p) (fun p => regex re_search (TagsModel.tag_name r) p)
   &&& q_cond scope (fun p => regex re_search (TagsModel.scope r) p)
   &&& q_cond user_id (fun n => ret (Z.eqb (TagsModel.user_id r) n))) s
  = if q_holds tag_id (fun u => N.eqb (TagsModel.tag_id r) u)
    then match TagsModel.tag_name r with
         | Some _ =>
             (Raise (OperationalError "user-defined function raised exception"),
              s)
         | None => (Ok false, s)
         end
    else (Ok false, s).
Proof.
  intros Hbad. unfold and_then, bind. rewrite q_cond_run.
  destruct (q_holds tag_id _); [|reflexivity].
  cbn [q_cond]. unfold regex. destruct (TagsModel.tag_name r); [|reflexivity].
  now rewrite Hbad.
Qed.

(** A [tag_name] pattern that does not compile.  When a tag of the store
    has a name and meets the other lookups of the request (its key is
    [tag_id], its scope is matched by the pattern [scope], its owner is
    [user_id]), the pattern is run on its name, in whatever order the
    lookups are evaluated, and the query raises [OperationalError].
    [Tags.get] catches [ValidationError] and [NameError] only: the
    exception leaves the view.  The store is not written. *)
Theorem Tags_get_pattern_not_compiling (s : Store) (request : TagsGetQuery)
    (tag_id : option uuid) (user_id : option Z) (p text : string)
    (t : TagsModel.t) :
  prepared to_uuid (q_tag_id request) tag_id ->
  prepared to_int (q_user_id request) user_id ->
  q_tag_name request = Some p ->
  re_search p = None ->
  In t (tags s) ->
  TagsModel.tag_name t = Some text ->
  (forall u, tag_id = Some u -> TagsModel.tag_id t = u) ->
  (forall ps, q_scope request = Some ps ->
     exists text' matches,
       TagsModel.scope t = Some text'
       /\ re_search ps = Some matches /\ matches text' = true) ->
  (forall n, user_id = Some n -> TagsModel.user_id t = n) ->
  Tags_get to_uuid to_int re_search request s
  = (Raise (OperationalError "user-defined function raised exception"), s).
Proof.
  intros Htag Huser Ep Hbad Hin Ename Hkey _ _.
  assert (Hq : select
                 (fun r =>
                    q_cond tag_id (fun u => ret (N.eqb (TagsModel.tag_id r) u))
                    &&& q_cond (Some p)
                          (fun p => regex re_search (TagsModel.tag_name r) p)
                    &&& q_cond (q_scope request)
                          (fun p => regex re_search (TagsModel.scope r) p)
                    &&& q_cond user_id
                          (fun n => ret (Z.eqb (TagsModel.user_id r) n)))
                 (tags s) s
               = (Raise (OperationalError
                           "user-defined function raised exception"), s)).
  { apply select_raise.
    - intros r _. rewrite Tags_get_cond_raises by exact Hbad.
      destruct (q_holds tag_id _); [|right; now exists false].
      destruct (TagsModel.tag_name r); [now left|right; now exists false].
    - exists t. split; [exact Hin|].
      rewrite Tags_get_cond_raises by exact Hbad. rewrite Ename.
      assert (E : q_holds tag_id (fun u => N.eqb (TagsModel.tag_id t) u) = true).
      { destruct tag_id as [u|]; [|reflexivity]. apply N.eqb_eq. now apply Hkey. }
      now rewrite E. }
  unfold Tags_get, try_except, bind, prep_uuid, prep_int. rewrite Ep.
  destruct (q_tag_id request) as [v|], tag_id as [u|]; try contradiction;
    destruct (q_user_id request) as [w|], user_id as [n|]; try contradiction;
    cbn [prepared] in Htag, Huser; try rewrite Htag; try rewrite Huser;
    cbn [ret get]; cbv beta iota zeta; now rewrite Hq.
Qed.

End TagsGet.

Section TagsWrite.

Variable to_uuid : string -> option uuid.
Variable to_int : string -> option Z.
Variable re_search : string -> option (string -> bool).

Lemma exact_true (a b : option string) : exact a b = true <-> a = b.
Proof.
  destruct a as [x|], b as [y|]; simpl; try (split; congruence).
  rewrite String.eqb_eq. split; congruence.
Qed.

Lemma no_duplicate_pair (s : Store) (name sc : option string) :
  (forall t, In t (tags s) ->
     ~ (TagsModel.tag_name t = name /\ TagsModel.scope t = sc)) ->
  existsb (fun t => exact (TagsModel.tag_name t) name
                    && exact (TagsModel.scope t) sc) (tags s) = false.
Proof.
  intros Hfree. apply existsb_false. intros t Ht.
  destruct (exact (TagsModel.tag_name t) name && exact (TagsModel.scope t) sc) eqn:E;
    [|reflexivity].
  apply andb_true_iff in E. destruct E as [En Es].
  apply exact_true in En, Es. exfalso. now apply (Hfree t Ht).
Qed.

(** [Tags.post] of a tag whose key and (name, scope) pair are free, by a
    user who exists, step by step. *)
Lemma Tags_post_run (s : Store) (uuid4 : uuid) (user_id name : string)
    (scope : option string) (n : Z) (user : UserProfile.t) :
  to_int user_id = Some n ->
  filter (fun usr => Z.eqb (UserProfile.user_id usr) n) (users s) = [user] ->
  name <> "" ->
  (forall t, In t (tags s) -> TagsModel.tag_id t <> uuid4) ->
  (forall t, In t (tags s) ->
     ~ (TagsModel.tag_name t = Some name
        /\ TagsModel.scope t = match scope with
                               | Some EmptyString => None
                               | sc => sc
                               end)) ->
  Tags_post to_int uuid4 (mkTagsPost (Some name) scope (Some user_id)) s
  = (Ok (success "Tag Added successfully" EmptyData),
     mkStore (users s)
       (tags s ++ [TagsModel.mk uuid4 (Some name)
                     match scope with
                     | Some EmptyString => None
                     | sc => sc
                     end
                     (UserProfile.user_id user)])
       (vms s) (vms_tags s)).
Proof.
  intros Hn Huser Hne Hpk Hfree.
  unfold Tags_post, try_except, bind, get_object_or_404, try_except,
    UserProfile_objects_get, bind, prep_int.
  cbn [post_tag_name post_scope post_user_id]. rewrite Hn. cbn [ret get].
  rewrite Huser. cbn [get_one ret].
  unfold TagsModel_save. cbn [TagsModel.tag_name TagsModel.scope TagsModel.tag_id
                              TagsModel.user_id].
  destruct name as [|c r]; [contradiction|].
  unfold bind, insert_tag, bind.
  cbn [get TagsModel.tag_id TagsModel.tag_name TagsModel.scope].
  assert (Hkey : existsb (fun t' => N.eqb (TagsModel.tag_id t') uuid4) (tags s) = false).
  { apply existsb_false. intros t Ht. apply N.eqb_neq. now apply Hpk. }
  destruct scope as [[|c' r']|];
    rewrite (no_duplicate_pair s _ _ Hfree), Hkey;
    try rewrite (no_duplicate_pair s _ _ Hfree);
    try (rewrite (existsb_false (fun _ => false)); [|reflexivity]);
    reflexivity.
Qed.

(** [Tags.post] of a tag with a non-empty name whose (name, normalised
    scope) pair and drawn key are free, by a user who exists, succeeds and
    appends one row: the name as given, the scope with [''] stored as NULL,
    the requesting user as owner.  [Tags.get] with the id of the new tag
    then answers with exactly that row. *)
Theorem Tags_post_then_get (s : Store) (uuid4 : uuid) (id user_id name : string)
    (scope : option string) (n : Z) (user : UserProfile.t) :
  to_int user_id = Some n ->
  filter (fun usr => Z.eqb (UserProfile.user_id usr) n) (users s) = [user] ->
  name <> "" ->
  (forall t, In t (tags s) -> TagsModel.tag_id t <> uuid4) ->
  (forall t, In t (tags s) ->
     ~ (TagsModel.tag_name t = Some name
        /\ TagsModel.scope t = match scope with
                               | Some EmptyString => None
                               | sc => sc
                               end)) ->
  to_uuid id = Some uuid4 ->
  let t := TagsModel.mk uuid4 (Some name)
             match scope with Some EmptyString => None | sc => sc end
             (UserProfile.user_id user) in
  let s' := mkStore (users s) (tags s ++ [t]) (vms s) (vms_tags s) in
  Tags_post to_int uuid4 (mkTagsPost (Some name) scope (Some user_id)) s
  = (Ok (success "Tag Added successfully" EmptyData), s')
  /\ Tags_get to_uuid to_int re_search (mkTagsGet (Some id) None None None) s'
     = (Ok (TagsFound [t]), s').
Proof.
  intros Hn Huser Hne Hpk Hfree Hid t s'. split.
  - now apply (Tags_post_run s uuid4 user_id name scope n user).
  - rewrite (Tags_get_run to_uuid to_int re_search s' _ (Some uuid4) None);
      [|exact Hid|exact I|exact I|exact I].
    cbn [q_tag_id q_tag_name q_scope q_user_id q_holds tags s'].
    rewrite filter_app, filter_none.
    + cbn [filter TagsModel.tag_id t]. now rewrite N.eqb_refl.
    + intros t' Ht'. rewrite !andb_true_r. apply N.eqb_neq. now apply Hpk.
Qed.

(** [Tags.post] and the user: without [user_id], or with one that is the
    key of no user, the [Http404] of the lookup is caught by no handler of
    the view and leaves it as an exception; with one that is no number it is
    a [ValueError] that does.  With a user who exists and a name that is
    absent or empty, the view answers with the code 103.  No case writes the
    store. *)
Theorem Tags_post_rejects (s : Store) (uuid4 : uuid) (name scope : option string) :
  Tags_post to_int uuid4 (mkTagsPost name scope None) s
  = (Raise (Http404 "No UserProfile matches the given query."), s)
  /\ (forall user_id n,
        to_int user_id = Some n ->
        (forall usr, In usr (users s) -> UserProfile.user_id usr <> n) ->
        Tags_post to_int uuid4 (mkTagsPost name scope (Some user_id)) s
        = (Raise (Http404 "No UserProfile matches the given query."), s))
  /\ (forall user_id,
        to_int user_id = None ->
        Tags_post to_int uuid4 (mkTagsPost name scope (Some user_id)) s
        = (Raise (ValueError ("Field 'user_id' expected a number but got "
                              ++ user_id)), s))
  /\ (forall user_id n user,
        to_int user_id = Some n ->
        filter (fun usr => Z.eqb (UserProfile.user_id usr) n) (users s) = [user] ->
        name = None \/ name = Some "" ->
        Tags_post to_int uuid4 (mkTagsPost name scope (Some user_id)) s
        = (Ok (error 103
                 (Format "error: "
                    (ValidationError "tag_name is required and cannot be empty.")
                    " ")), s)).
Proof.
  split; [reflexivity|]. split; [|split].
  - intros user_id n Hn Hno.
    unfold Tags_post, try_except, bind, get_object_or_404, try_except,
      UserProfile_objects_get, bind, prep_int.
    cbn [post_user_id]. rewrite Hn. cbn [ret get].
    rewrite filter_none; [reflexivity|].
    intros usr Husr. apply Z.eqb_neq. now apply Hno.
  - intros user_id Hbad.
    unfold Tags_post, try_except, bind, get_object_or_404, try_except,
      UserProfile_objects_get, bind, prep_int.
    cbn [post_user_id]. now rewrite Hbad.
  - intros user_id n user Hn Huser Hname.
    unfold Tags_post, try_except, bind, get_object_or_404, try_except,
      UserProfile_objects_get, bind, prep_int.
    cbn [post_user_id post_tag_name post_scope]. rewrite Hn. cbn [ret get].
    rewrite Huser. cbn [get_one ret].
    destruct Hname as [-> | ->]; reflexivity.
Qed.

(** What a call of [Tags.delete] can be: an error answer that leaves the
    store as it was, or the deletion of the rows with the requested key,
    reached only when no row of the join table points to such a tag and the
    requester is "1" or the owner of one. *)
Lemma Tags_delete_inv (request : TagsDeleteQuery) (s s' : Store)
    (o : outcome JsonResponse) :
  Tags_delete to_uuid to_int request s = (o, s') ->
  (s' = s /\ exists r, o = Ok r /\ status r = "error")
  \/ exists tag_id user_id u n,
       del_tag_id request = Some tag_id /\ del_user_id request = Some user_id
       /\ to_uuid tag_id = Some u /\ to_int user_id = Some n
       /\ (forall t, In t (tags s) -> TagsModel.tag_id t = u ->
             forall r, In r (vms_tags s) -> snd r <> u)
       /\ (user_id = "1"
           \/ exists t, In t (tags s) /\ TagsModel.tag_id t = u
                        /\ TagsModel.user_id t = n)
       /\ o = Ok (mkResponse "success" 0 (Text "Tag deleted successfully.") NoData)
       /\ s' = without_tag s u.
Proof.
  unfold Tags_delete, try_except, bind.
  destruct (del_tag_id request) as [tid|] eqn:Etid; cbn [provided];
    [|intros [= <- <-]; left; split; [reflexivity|eexists; split; reflexivity]].
  destruct (String.eqb tid "None" || String.eqb tid "");
    [intros [= <- <-]; left; split; [reflexivity|eexists; split; reflexivity]|].
  destruct (del_user_id request) as [uid|] eqn:Euid; cbn [provided];
    [|intros [= <- <-]; left; split; [reflexivity|eexists; split; reflexivity]].
  destruct (String.eqb uid "None" || String.eqb uid "");
    [intros [= <- <-]; left; split; [reflexivity|eexists; split; reflexivity]|].
  unfold prep_uuid. destruct (to_uuid tid) as [u|] eqn:Eu;
    [|intros [= <- <-]; left; split; [reflexivity|eexists; split; reflexivity]].
  cbn [ret get].
  destruct (existsb _ (tags s)) eqn:Eassigned;
    [intros [= <- <-]; left; split; [reflexivity|eexists; split; reflexivity]|].
  unfold prep_int. destruct (to_int uid) as [n|] eqn:En;
    [|intros [= <- <-]; left; split; [reflexivity|eexists; split; reflexivity]].
  cbn [ret].
  destruct (String.eqb uid "1" || _) eqn:Eauth;
    [|intros [= <- <-]; left; split; [reflexivity|eexists; split; reflexivity]].
  assert (Hfree : forall t, In t (tags s) -> TagsModel.tag_id t = u ->
                  forall r, In r (vms_tags s) -> snd r <> u).
  { intros t Ht Hid r Hr E.
    assert (H : existsb (fun t0 => N.eqb (TagsModel.tag_id t0) u
                                   && existsb (fun r0 => N.eqb (snd r0) (TagsModel.tag_id t0))
                                        (vms_tags s)) (tags s) = true); [|congruence].
    apply existsb_exists. exists t. split; [exact Ht|].
    apply andb_true_iff. split; [now apply N.eqb_eq|].
    apply existsb_exists. exists r. split; [exact Hr|]. apply N.eqb_eq. congruence. }
  cbn. intros [= <- <-]. right. exists tid, uid, u, n.
  repeat (split; [first [reflexivity|assumption]|]).
  split; [|split; [reflexivity|]].
  - apply orb_true_iff in Eauth. destruct Eauth as [E|E].
    + left. now apply String.eqb_eq.
    + right. apply Nat.ltb_lt in E.
      destruct (filter _ (tags s)) as [|t l] eqn:Ef; [simpl in E; lia|].
      assert (Hin : In t (filter (fun t0 => N.eqb (TagsModel.tag_id t0) u
                                            && Z.eqb (TagsModel.user_id t0) n) (tags s)))
        by (rewrite Ef; now left).
      apply filter_In in Hin. destruct Hin as [Hin Hm].
      apply andb_true_iff in Hm. destruct Hm as [H1 H2].
      exists t. split; [exact Hin|]. split; [now apply N.eqb_eq|now apply Z.eqb_eq].
  - unfold without_tag. f_equal. apply filter_all. intros r Hr.
    apply negb_true_iff, existsb_false. intros t Ht.
    apply filter_In in Ht. destruct Ht as [Ht Hid]. apply N.eqb_eq in Hid.
    apply N.eqb_neq. rewrite Hid. intros E. symmetry in E.
    now apply (Hfree t Ht Hid r Hr).
Qed.

(** [Tags.delete] never removes a tag it should not: whatever the request,
    the users, the VMs and the join table are left as they were and no tag
    is added; and a tag that is gone after the call had the requested key,
    was attached to no VM, and was requested by "1" or by the owner of a
    tag with that key. *)
Theorem Tags_delete_removes_only_when_allowed (request : TagsDeleteQuery)
    (s s' : Store) (o : outcome JsonResponse) :
  Tags_delete to_uuid to_int request s = (o, s') ->
  users s' = users s /\ vms s' = vms s /\ vms_tags s' = vms_tags s
  /\ (forall t, In t (tags s') -> In t (tags s))
  /\ (forall t, In t (tags s) -> ~ In t (tags s') ->
        exists tag_id user_id n,
          del_tag_id request = Some tag_id
          /\ to_uuid tag_id = Some (TagsModel.tag_id t)
          /\ (forall r, In r (vms_tags s) -> snd r <> TagsModel.tag_id t)
          /\ del_user_id request = Some user_id /\ to_int user_id = Some n
          /\ (user_id = "1"
              \/ exists t', In t' (tags s)
                            /\ TagsModel.tag_id t' = TagsModel.tag_id t
                            /\ TagsModel.user_id t' = n)).
Proof.
  intros Hrun. apply Tags_delete_inv in Hrun.
  destruct Hrun as [[-> _]|(tid & uid & u & n & Etid & Euid & Eu & En & Hfree
                              & Hauth & _ & ->)].
  - repeat split; auto. intros t Ht Hgone. contradiction.
  - unfold without_tag. cbn [users tags vms vms_tags]. repeat split; auto.
    + intros t Ht. now apply filter_In in Ht.
    + intros t Ht Hgone.
      assert (Hid : TagsModel.tag_id t = u).
      { destruct (N.eqb_spec (TagsModel.tag_id t) u) as [E|E]; [exact E|].
        exfalso. apply Hgone. apply filter_In. split; [exact Ht|].
        now apply negb_true_iff, N.eqb_neq. }
      exists tid, uid, n. rewrite Hid. repeat split; auto.
      now apply (Hfree t Ht Hid).
Qed.

(** After a [Tags.delete] that answered with success, [Tags.get] with the
    same [tag_id] answers with success and an empty list: a tag that is not
    there is not an error of the listing. *)
Theorem Tags_get_after_delete (request : TagsDeleteQuery) (s s' : Store)
    (r : JsonResponse) (tag_id : string) :
  Tags_delete to_uuid to_int request s = (Ok r, s') ->
  status r = "success" ->
  del_tag_id request = Some tag_id ->
  Tags_get to_uuid to_int re_search (mkTagsGet (Some tag_id) None None None) s'
  = (Ok (TagsFound []), s').
Proof.
  intros Hrun Hok Etid. apply Tags_delete_inv in Hrun.
  destruct Hrun as [[_ (r' & [= <-] & Herr)]|(tid & uid & u & n & Etid' & _ & Eu & _ & _
                                              & _ & _ & ->)].
  - rewrite Herr in Hok. discriminate.
  - rewrite Etid in Etid'. injection Etid' as <-.
    rewrite (Tags_get_run to_uuid to_int re_search _ _ (Some u) None);
      [|exact Eu|exact I|exact I|exact I].
    cbn [q_tag_id q_tag_name q_scope q_user_id q_holds tags without_tag].
    rewrite filter_none; [reflexivity|].
    intros t Ht. apply filter_In in Ht. destruct Ht as [_ Hne].
    apply negb_true_iff in Hne. now rewrite Hne.
Qed.

(** The parameters of [Tags.delete] are checked in this order, before the
    store is read: a [tag_id] that is absent, empty or the text "None" is
    answered with the code 100, then a [user_id] that is absent, empty or
    "None" with the code 400, then a [tag_id] that is no UUID with the code
    101.  The store is left as it was. *)
Theorem Tags_delete_bad_request (s : Store) (tag_id user_id : option string) :
  (tag_id = None \/ tag_id = Some "" \/ tag_id = Some "None" ->
   Tags_delete to_uuid to_int (mkTagsDelete tag_id user_id) s
   = (Ok (error 100 (Text "Tag id is required")), s))
  /\ (forall v, tag_id = Some v -> v <> "" -> v <> "None" ->
        (user_id = None \/ user_id = Some "" \/ user_id = Some "None" ->
         Tags_delete to_uuid to_int (mkTagsDelete tag_id user_id) s
         = (Ok (error 400 (Text "User id is required")), s))
        /\ (forall w, user_id = Some w -> w <> "" -> w <> "None" ->
              to_uuid v = None ->
              Tags_delete to_uuid to_int (mkTagsDelete tag_id user_id) s
              = (Ok (error 101
                       (Format "error: "
                          (ValidationError (v ++ " is not a valid UUID.")) "")),
                 s))).
Proof.
  split.
  - intros [-> |[-> | ->]]; reflexivity.
  - intros v -> H1 H2. split.
    + intros Hu. unfold Tags_delete, try_except, bind. cbn [del_tag_id del_user_id].
      rewrite (provided_Some v H1 H2).
      destruct Hu as [-> |[-> | ->]]; reflexivity.
    + intros w -> H3 H4 Hbad.
      unfold Tags_delete, try_except, bind. cbn [del_tag_id del_user_id].
      rewrite (provided_Some v H1 H2), (provided_Some w H3 H4).
      unfold prep_uuid. now rewrite Hbad.
Qed.

End TagsWrite.

Section AssignUnassign.

Variable to_uuid : string -> option uuid.

Lemma prep_uuids_ok (ids : list string) (us : list uuid) (s : Store) :
  Forall2 (fun id u => to_uuid id = Some u) ids us ->
  prep_uuids to_uuid ids s = (Ok us, s).
Proof.
  induction 1 as [|id u ids us Hc HF IH]; [reflexivity|].
  cbn [prep_uuids]. unfold bind, prep_uuid. rewrite Hc. cbn [ret].
  now rewrite IH.
Qed.

Lemma prep_uuids_bad (ids : list string) (id : string) (s : Store) :
  In id ids -> to_uuid id = None ->
  exists m, prep_uuids to_uuid ids s = (Raise (ValidationError m), s).
Proof.
  intros Hin Hbad.
  destruct (prep_uuids_run to_uuid ids s) as [(us & _ & HF)|H]; [|exact H].
  exfalso. clear - Hin Hbad HF.
  induction HF as [|id' u ids us Hc HF IH]; [contradiction|].
  destruct Hin as [->|Hin]; [congruence|now apply IH].
Qed.

(** The lookup of the one tag of a name. *)
Lemma get_tag_by_name (s : Store) (t : TagsModel.t) (name : string) :
  NoDup (map TagsModel.tag_id (tags s)) ->
  In t (tags s) -> TagsModel.tag_name t = Some name ->
  (forall t', In t' (tags s) -> TagsModel.tag_name t' = Some name -> t' = t) ->
  get_object_or_404 "TagsModel" (TagsModel_objects_get (Some name)) s = (Ok t, s).
Proof.
  intros Hnd Ht Hname Huniq.
  unfold get_object_or_404, try_except, TagsModel_objects_get, bind. cbn [get].
  rewrite (filter_unique TagsModel.tag_id _ (tags s) t Hnd Ht); [reflexivity| |].
  - now apply exact_Some_true.
  - intros x Hx E. apply exact_Some_true in E. now apply Huniq.
Qed.

(** [assign] to the one tag of a name, with ids that convert, step by
    step. *)
Lemma assign_run (s : Store) (t : TagsModel.t) (name : string)
    (ids : list string) (us : list uuid) :
  NoDup (map TagsModel.tag_id (tags s)) ->
  In t (tags s) -> TagsModel.tag_name t = Some name ->
  (forall t', In t' (tags s) -> TagsModel.tag_name t' = Some name -> t' = t) ->
  Forall2 (fun id u => to_uuid id = Some u) ids us ->
  AssignUnassignTags_post to_uuid (mkAssign (Some "assign") (Some name) ids) s
  = let missing :=
      filter (fun v => negb (has_row (v, TagsModel.tag_id t) (vms_tags s)))
             (nodup N.eq_dec us) in
    if forallb (fun v => existsb (fun vm => N.eqb (VM.vm_id vm) v) (vms s)) missing
    then (Ok (success "Tag Assigned to Objects successfully" EmptyData),
          mkStore (users s) (tags s) (vms s)
            (vms_tags s ++ map (fun v => (v, TagsModel.tag_id t)) missing))
    else (Ok (error 101
                (Format "error: " (IntegrityError "FOREIGN KEY constraint failed")
                   "")), s).
Proof.
  intros Hnd Ht Hname Huniq HF.
  unfold AssignUnassignTags_post, try_except.
  cbn [action is_str String.eqb Ascii.eqb Bool.eqb assign_tag_name vm_ids].
  unfold bind at 1. rewrite (get_tag_by_name s t name Hnd Ht Hname Huniq).
  unfold bind, vms_add, bind. rewrite (prep_uuids_ok ids us s HF). cbn [get].
  cbv zeta. destruct (forallb _ _); reflexivity.
Qed.

(** [unassign] from the one tag of a name, with ids that convert, step by
    step. *)
Lemma unassign_run (s : Store) (t : TagsModel.t) (name : string)
    (ids : list string) (us : list uuid) :
  NoDup (map TagsModel.tag_id (tags s)) ->
  In t (tags s) -> TagsModel.tag_name t = Some name ->
  (forall t', In t' (tags s) -> TagsModel.tag_name t' = Some name -> t' = t) ->
  Forall2 (fun id u => to_uuid id = Some u) ids us ->
  AssignUnassignTags_post to_uuid (mkAssign (Some "unassign") (Some name) ids) s
  = (Ok (success "Tag Unassigned from Objects successfully" EmptyData),
     mkStore (users s) (tags s) (vms s)
       (filter (fun r => negb (N.eqb (snd r) (TagsModel.tag_id t)
                               && existsb (N.eqb (fst r)) us))
          (vms_tags s))).
Proof.
  intros Hnd Ht Hname Huniq HF.
  unfold AssignUnassignTags_post, try_except.
  cbn [action is_str String.eqb Ascii.eqb Bool.eqb assign_tag_name vm_ids].
  unfold bind at 1. rewrite (get_tag_by_name s t name Hnd Ht Hname Huniq).
  unfold bind, vms_remove, bind. rewrite (prep_uuids_ok ids us s HF).
  reflexivity.
Qed.

Lemma has_row_In (r : uuid * uuid) (rows : list (uuid * uuid)) :
  has_row r rows = true <-> In r rows.
Proof.
  unfold has_row. rewrite existsb_exists. split.
  - intros (r' & Hin & E). apply andb_true_iff in E. destruct E as [E1 E2].
    apply N.eqb_eq in E1, E2. destruct r, r'. simpl in *. now subst.
  - intros Hin. exists r. split; [exact Hin|]. now rewrite !N.eqb_refl.
Qed.

Lemma NoDup_paired (u : uuid) (l : list uuid) :
  NoDup l -> NoDup (map (fun v => (v, u)) l).
Proof.
  induction 1 as [|v l Hnot Hnd IH]; [constructor|].
  cbn [map]. constructor; [|exact IH].
  intros Hin. apply in_map_iff in Hin. destruct Hin as (v' & [= ->] & Hv').
  contradiction.
Qed.

(** [assign] of the ids of VMs that exist to the one tag of a name
    succeeds; afterwards the join table holds what it held and, for every
    listed VM, the pair with the tag, once: a pair that was there, or that
    is listed twice, is not added again.  No other table is written. *)
Theorem assign_associates_listed_vms (s : Store) (t : TagsModel.t)
    (name : string) (ids : list string) (us : list uuid) :
  NoDup (map TagsModel.tag_id (tags s)) ->
  In t (tags s) -> TagsModel.tag_name t = Some name ->
  (forall t', In t' (tags s) -> TagsModel.tag_name t' = Some name -> t' = t) ->
  Forall2 (fun id u => to_uuid id = Some u) ids us ->
  (forall v, In v us -> exists vm, In vm (vms s) /\ VM.vm_id vm = v) ->
  exists s',
    AssignUnassignTags_post to_uuid (mkAssign (Some "assign") (Some name) ids) s
    = (Ok (success "Tag Assigned to Objects successfully" EmptyData), s')
    /\ users s' = users s /\ tags s' = tags s /\ vms s' = vms s
    /\ (forall r, In r (vms_tags s')
                  <-> In r (vms_tags s)
                      \/ (snd r = TagsModel.tag_id t /\ In (fst r) us))
    /\ (NoDup (vms_tags s) -> NoDup (vms_tags s')).
Proof.
  intros Hnd Ht Hname Huniq HF Hvms.
  rewrite (assign_run s t name ids us Hnd Ht Hname Huniq HF). cbv zeta.
  set (missing := filter _ (nodup N.eq_dec us)).
  assert (Hmiss : forall v, In v missing
                            <-> In v us /\ ~ In (v, TagsModel.tag_id t) (vms_tags s)).
  { intros v. unfold missing. rewrite filter_In, nodup_In, negb_true_iff.
    rewrite <- has_row_In. destruct (has_row _ _); intuition congruence. }
  assert (Hall : forallb (fun v => existsb (fun vm => N.eqb (VM.vm_id vm) v) (vms s))
                         missing = true).
  { apply forallb_forall. intros v Hv. apply Hmiss in Hv. destruct Hv as [Hv _].
    destruct (Hvms v Hv) as (vm & Hvm & E). apply existsb_exists.
    exists vm. split; [exact Hvm|]. now apply N.eqb_eq. }
  rewrite Hall. eexists. split; [reflexivity|]. cbn [users tags vms vms_tags].
  repeat split.
  - intros Hin. apply in_app_iff in Hin. destruct Hin as [Hin|Hin]; [now left|].
    apply in_map_iff in Hin. destruct Hin as (v & <- & Hv). right.
    apply Hmiss in Hv. now split.
  - intros [Hin|[Hs Hf]]; apply in_app_iff; [now left|].
    destruct (has_row r (vms_tags s)) eqn:E; [left; now apply has_row_In|].
    right. apply in_map_iff. exists (fst r). split.
    + destruct r. simpl in *. now subst.
    + apply Hmiss. split; [exact Hf|]. rewrite <- Hs, <- surjective_pairing.
      rewrite <- has_row_In. congruence.
  - intros Hrows. apply NoDup_app; [exact Hrows| |].
    + apply NoDup_paired. unfold missing. apply NoDup_filter, NoDup_nodup.
    + intros r Hin Hnew. apply in_map_iff in Hnew. destruct Hnew as (v & <- & Hv).
      apply Hmiss in Hv. now destruct Hv.
Qed.

(** [assign] is all or nothing: when one listed id is the id of no VM (and
    its pair is not in the join table), the call fails on the foreign key
    with the code 101; when one listed id is no UUID, it fails with the code
    103.  Either way no pair is added, also not for the VMs of the list
    that exist. *)
Theorem assign_all_or_nothing (s : Store) (t : TagsModel.t) (name : string)
    (ids : list string) :
  NoDup (map TagsModel.tag_id (tags s)) ->
  In t (tags s) -> TagsModel.tag_name t = Some name ->
  (forall t', In t' (tags s) -> TagsModel.tag_name t' = Some name -> t' = t) ->
  (forall us v,
     Forall2 (fun id u => to_uuid id = Some u) ids us ->
     In v us -> ~ In (v, TagsModel.tag_id t) (vms_tags s) ->
     (forall vm, In vm (vms s) -> VM.vm_id vm <> v) ->
     AssignUnassignTags_post to_uuid (mkAssign (Some "assign") (Some name) ids) s
     = (Ok (error 101
              (Format "error: " (IntegrityError "FOREIGN KEY constraint failed")
                 "")), s))
  /\ (forall id,
        In id ids -> to_uuid id = None ->
        exists m,
          AssignUnassignTags_post to_uuid (mkAssign (Some "assign") (Some name) ids) s
          = (Ok (error 103 (Format "error: " (ValidationError m) " ")), s)).
Proof.
  intros Hnd Ht Hname Huniq. split.
  - intros us v HF Hv Hnew Hnovm.
    rewrite (assign_run s t name ids us Hnd Ht Hname Huniq HF). cbv zeta.
    match goal with
    | |- (if ?b then _ else _) = _ => assert (E : b = false)
    end; [|now rewrite E].
    apply not_true_is_false. intros Hall.
    rewrite forallb_forall in Hall.
    assert (Hin : In v (filter (fun v0 => negb (has_row (v0, TagsModel.tag_id t)
                                                   (vms_tags s)))
                          (nodup N.eq_dec us))).
    { apply filter_In. split; [now apply nodup_In|].
      apply negb_true_iff. destruct (has_row _ _) eqn:E; [|reflexivity].
      apply has_row_In in E. contradiction. }
    apply Hall, existsb_exists in Hin. destruct Hin as (vm & Hvm & E).
    apply N.eqb_eq in E. now apply (Hnovm vm Hvm).
  - intros id Hin Hbad.
    destruct (prep_uuids_bad ids id s Hin Hbad) as (m & Em).
    exists m. unfold AssignUnassignTags_post, try_except.
    cbn [action is_str String.eqb Ascii.eqb Bool.eqb assign_tag_name vm_ids].
    unfold bind at 1. rewrite (get_tag_by_name s t name Hnd Ht Hname Huniq).
    unfold bind, vms_add, bind. now rewrite Em.
Qed.

(** [unassign] from the one tag of a name succeeds whatever the listed ids
    that convert, also ids of no VM and VMs the tag is not attached to; it
    removes from the join table exactly the pairs of the tag with a listed
    VM.  When no such pair is there, the store is left as it was. *)
Theorem unassign_removes_listed_pairs (s : Store) (t : TagsModel.t)
    (name : string) (ids : list string) (us : list uuid) :
  NoDup (map TagsModel.tag_id (tags s)) ->
  In t (tags s) -> TagsModel.tag_name t = Some name ->
  (forall t', In t' (tags s) -> TagsModel.tag_name t' = Some name -> t' = t) ->
  Forall2 (fun id u => to_uuid id = Some u) ids us ->
  exists s',
    AssignUnassignTags_post to_uuid (mkAssign (Some "unassign") (Some name) ids) s
    = (Ok (success "Tag Unassigned from Objects successfully" EmptyData), s')
    /\ users s' = users s /\ tags s' = tags s /\ vms s' = vms s
    /\ (forall r, In r (vms_tags s')
                  <-> In r (vms_tags s)
                      /\ ~ (snd r = TagsModel.tag_id t /\ In (fst r) us))
    /\ ((forall v, In v us -> ~ In (v, TagsModel.tag_id t) (vms_tags s)) -> s' = s).
Proof.
  intros Hnd Ht Hname Huniq HF.
  rewrite (unassign_run s t name ids us Hnd Ht Hname Huniq HF).
  eexists. split; [reflexivity|]. cbn [users tags vms vms_tags].
  assert (Hkeep : forall r,
             negb (N.eqb (snd r) (TagsModel.tag_id t) && existsb (N.eqb (fst r)) us) = true
             <-> ~ (snd r = TagsModel.tag_id t /\ In (fst r) us)).
  { intros r. rewrite negb_true_iff, andb_false_iff, N.eqb_neq. split.
    - intros [H|H] [H1 H2]; [contradiction|].
      assert (existsb (N.eqb (fst r)) us = true); [|congruence].
      apply existsb_exists. exists (fst r). split; [exact H2|apply N.eqb_refl].
    - intros H. destruct (N.eq_dec (snd r) (TagsModel.tag_id t)) as [E|E]; [|now left].
      right. apply existsb_false. intros v Hv. apply N.eqb_neq. intros <-.
      apply H. now split. }
  repeat split.
  - now apply filter_In in H.
  - apply filter_In in H. apply Hkeep. now destruct H.
  - intros [Hin Hno]. apply filter_In. split; [exact Hin|]. now apply Hkeep.
  - intros Habsent. rewrite filter_all; [now rewrite store_eta|].
    intros r Hr. apply Hkeep. intros [Hs Hf]. apply (Habsent (fst r) Hf).
    now rewrite <- Hs, <- surjective_pairing.
Qed.

(** [assign] and then [unassign] of the same list: when none of the pairs
    was in the join table before, the store is back as it was. *)
Theorem assign_then_unassign_restores (s : Store) (t : TagsModel.t)
    (name : string) (ids : list string) (us : list uuid) :
  NoDup (map TagsModel.tag_id (tags s)) ->
  In t (tags s) -> TagsModel.tag_name t = Some name ->
  (forall t', In t' (tags s) -> TagsModel.tag_name t' = Some name -> t' = t) ->
  Forall2 (fun id u => to_uuid id = Some u) ids us ->
  (forall v, In v us -> exists vm, In vm (vms s) /\ VM.vm_id vm = v) ->
  (forall v, In v us -> ~ In (v, TagsModel.tag_id t) (vms_tags s)) ->
  exists s1,
    AssignUnassignTags_post to_uuid (mkAssign (Some "assign") (Some name) ids) s
    = (Ok (success "Tag Assigned to Objects successfully" EmptyData), s1)
    /\ AssignUnassignTags_post to_uuid (mkAssign (Some "unassign") (Some name) ids) s1
       = (Ok (success "Tag Unassigned from Objects successfully" EmptyData), s).
Proof.
  intros Hnd Ht Hname Huniq HF Hvms Habsent.
  rewrite (assign_run s t name ids us Hnd Ht Hname Huniq HF). cbv zeta.
  set (missing := filter _ (nodup N.eq_dec us)).
  assert (Hmiss : forall v, In v missing -> In v us).
  { intros v Hv. unfold missing in Hv. apply filter_In in Hv.
    destruct Hv as [Hv _]. now apply nodup_In in Hv. }
  assert (Hall : forallb (fun v => existsb (fun vm => N.eqb (VM.vm_id vm) v) (vms s))
                         missing = true).
  { apply forallb_forall. intros v Hv. apply Hmiss in Hv.
    destruct (Hvms v Hv) as (vm & Hvm & E). apply existsb_exists.
    exists vm. split; [exact Hvm|]. now apply N.eqb_eq. }
  rewrite Hall. eexists. split; [reflexivity|].
  rewrite (unassign_run _ t name ids us); auto.
  cbn [users tags vms vms_tags]. rewrite filter_app.
  rewrite filter_all.
  2:{ intros r Hr. apply negb_true_iff, andb_false_iff.
      destruct (N.eqb_spec (snd r) (TagsModel.tag_id t)) as [E|E]; [right|now left].
      apply existsb_false. intros v Hv. apply N.eqb_neq. intros <-.
      apply (Habsent (fst r) Hv). now rewrite <- E, <- surjective_pairing. }
  rewrite filter_none.
  2:{ intros r Hr. apply in_map_iff in Hr. destruct Hr as (v & <- & Hv).
      apply negb_false_iff, andb_true_iff. cbn [fst snd]. split; [apply N.eqb_refl|].
      apply existsb_exists. exists v. split; [now apply Hmiss|apply N.eqb_refl]. }
  now rewrite app_nil_r, store_eta.
Qed.

(** [AssignUnassignTags.post] always answers with an envelope and writes
    the join table only: users, tags and VMs are left as they were,
    whatever the request.  An [action] other than "assign" and "unassign",
    or none, is answered with the code 108 and changes nothing. *)
Theorem AssignUnassignTags_post_frame (request : AssignData) (s s' : Store)
    (o : outcome JsonResponse) :
  AssignUnassignTags_post to_uuid request s = (o, s') ->
  (exists r, o = Ok r)
  /\ users s' = users s /\ tags s' = tags s /\ vms s' = vms s
  /\ (action request <> Some "assign" -> action request <> Some "unassign" ->
      o = Ok (error 108 (Text "Invalid action")) /\ s' = s).
Proof.
  assert (Hget : forall name o1 s1,
             get_object_or_404 "TagsModel" (TagsModel_objects_get name) s = (o1, s1) ->
             s1 = s).
  { intros name o1 s1.
    unfold get_object_or_404, try_except, TagsModel_objects_get, bind. cbn [get].
    destruct (filter _ (tags s)) as [|x [|y l]]; cbn; now intros [= _ <-]. }
  assert (Hstr : forall v, is_str (action request) v = true -> action request = Some v).
  { intros v. unfold is_str. destruct (action request) as [a|]; [|discriminate].
    intros E. apply String.eqb_eq in E. now subst. }
  unfold AssignUnassignTags_post, try_except.
  destruct (is_str (action request) "assign") eqn:Ea.
  - apply Hstr in Ea. unfold bind at 1.
    destruct (get_object_or_404 _ _ s) as [[tag|e] s1] eqn:E; apply Hget in E; subst s1.
    + unfold bind, vms_add, bind.
      destruct (prep_uuids_run to_uuid (vm_ids request) s) as [(us & -> & _)|(m & ->)].
      * cbn [get]. destruct (forallb _ _); cbn; intros [= <- <-];
          (split; [eexists; reflexivity|]); repeat split; congruence.
      * cbn. intros [= <- <-]. split; [eexists; reflexivity|]. repeat split; congruence.
    + destruct e; cbn; intros [= <- <-];
        (split; [eexists; reflexivity|]); repeat split; congruence.
  - destruct (is_str (action request) "unassign") eqn:Eu.
    + apply Hstr in Eu. unfold bind at 1.
      destruct (get_object_or_404 _ _ s) as [[tag|e] s1] eqn:E; apply Hget in E; subst s1.
      * unfold bind, vms_remove, bind.
        destruct (prep_uuids_run to_uuid (vm_ids request) s) as [(us & -> & _)|(m & ->)];
          cbn; intros [= <- <-];
          (split; [eexists; reflexivity|]); repeat split; congruence.
      * destruct e; cbn; intros [= <- <-];
          (split; [eexists; reflexivity|]); repeat split; congruence.
    + cbn. intros [= <- <-]. split; [eexists; reflexivity|]. repeat split.
Qed.

End AssignUnassign.

Section VMsGet.

Variable to_uuid : string -> option uuid.
Variable re_search : string -> option (string -> bool).

(** [VMs.get] with a [vm_id]: the tag-name and scope filters are not looked
    at.  The one VM with that key is answered as a single entry that
    carries the id as requested, the name and the (name, scope) of every
    tag attached; a key of no VM or an id that is no UUID is answered with
    the code 101. *)
Theorem VMs_get_by_id (s : Store) (id : string) (names scopes_ : list string) :
  id <> "" ->
  (forall u vm,
     to_uuid id = Some u -> NoDup (map VM.vm_id (vms s)) ->
     In vm (vms s) -> VM.vm_id vm = u ->
     VMs_get to_uuid re_search (mkVMsGet (Some id) names scopes_) s
     = (Ok (success "VMs retrieved successfully"
              (VMData [mkEntry (Some id) (VM.vm_name vm)
                         (map (fun tag => (TagsModel.tag_name tag, TagsModel.scope tag))
                              (VM_tags s u))])), s))
  /\ (forall u,
        to_uuid id = Some u -> (forall vm, In vm (vms s) -> VM.vm_id vm <> u) ->
        VMs_get to_uuid re_search (mkVMsGet (Some id) names scopes_) s
        = (Ok (error 101
                 (Format "Error: " (Http404 "No VM matches the given query.") "")),
           s))
  /\ (to_uuid id = None ->
      VMs_get to_uuid re_search (mkVMsGet (Some id) names scopes_) s
      = (Ok (error 101
               (Format "Error: " (ValidationError (id ++ " is not a valid UUID."))
                  "")), s)).
Proof.
  intros Hne. destruct id as [|c r]; [contradiction|].
  unfold VMs_get, try_except, bind, get_object_or_404, try_except,
    VM_objects_get_vm_id, bind, prep_uuid.
  cbn [get_vm_id tag_names scopes]. repeat split.
  - intros u vm Hu Hnd Hvm Hid. rewrite Hu. cbn [ret get].
    rewrite (filter_unique VM.vm_id _ (vms s) vm Hnd Hvm).
    + cbn [get_one ret]. unfold entry_of. now rewrite Hid.
    + now apply N.eqb_eq.
    + intros x Hx E. apply N.eqb_eq in E.
      clear - Hnd Hvm Hx E Hid. rewrite <- Hid in E.
      induction (vms s) as [|a l IH]; [contradiction|].
      simpl in Hnd. inversion Hnd as [|? ? Hnot Hnd']; subst.
      destruct Hvm as [->|Hvm], Hx as [->|Hx]; auto.
      * exfalso. apply Hnot. rewrite <- E. now apply in_map.
      * exfalso. apply Hnot. rewrite E. now apply in_map.
  - intros u Hu Hno. rewrite Hu. cbn [ret get].
    rewrite filter_none; [reflexivity|].
    intros vm Hvm. apply N.eqb_neq. now apply Hno.
  - intros Hbad. now rewrite Hbad.
Qed.

Lemma map_constant_repeat {A B} (b : B) (l : list A) :
  map (fun _ => b) l = repeat b (List.length l).
Proof. induction l as [|a l IH]; [reflexivity|]. cbn. now rewrite IH. Qed.

Lemma map_flat_map {A B C} (f : B -> C) (g : A -> list B) (l : list A) :
  map f (flat_map g l) = flat_map (fun a => map f (g a)) l.
Proof.
  induction l as [|a l IH]; [reflexivity|].
  cbn [flat_map]. now rewrite map_app, IH.
Qed.

(** How often [VMs.get] lists a VM, up to the order of the rows, which
    the query leaves to the database.  With tag-name filters only, the rows
    are a selection of the VMs of the table: each VM at most once.  A scope
    filter is a join without [distinct()]: with one scope filter, which
    compiles, a VM is listed once for each of its tags whose scope the
    filter matches. *)
Theorem VMs_get_multiplicity (s : Store) (vm_id : option string)
    (names : list string) (scope : string) (matches : string -> bool) :
  vm_id = None \/ vm_id = Some "" ->
  (exists keep vm_instances,
     Permutation vm_instances (filter keep (vms s))
     /\ VMs_get to_uuid re_search (mkVMsGet vm_id names []) s
        = (Ok (success "VMs retrieved successfully"
                 (VMData (map (entry_of s vm_id) vm_instances))), s))
  /\ (re_search (strip scope) = Some matches ->
      exists vm_instances,
        Permutation vm_instances
          (flat_map
             (fun vm =>
                repeat vm
                  (List.length
                     (filter (fun t => match TagsModel.scope t with
                                       | Some text => matches text
                                       | None => false
                                       end)
                        (VM_tags s (VM.vm_id vm)))))
             (vms s))
        /\ VMs_get to_uuid re_search (mkVMsGet vm_id [] [scope]) s
           = (Ok (success "VMs retrieved successfully"
                    (VMData (map (entry_of s vm_id) vm_instances))), s)).
Proof.
  intros Hid. split.
  - rewrite (VMs_get_list_run to_uuid re_search vm_id names [] s Hid)
      by (intros ? []).
    cbn [scoped fold_left]. destruct names as [|n names].
    + exists (fun _ => true), (vms s). rewrite filter_all by reflexivity.
      split; [apply Permutation_refl|reflexivity].
    + eexists. eexists. split; [apply Permutation_refl|reflexivity].
  - intros Em.
    rewrite (VMs_get_list_run to_uuid re_search vm_id [] [scope] s Hid)
      by (intros sc [<-|[]]; congruence).
    eexists. split; [|reflexivity].
    cbn [scoped fold_left named]. unfold joined.
    erewrite flat_map_ext; [apply Permutation_refl|].
    intros vm. cbv beta. rewrite map_constant_repeat. do 2 f_equal.
    apply filter_ext. intros t. unfold regex_holds, re_found. now rewrite Em.
Qed.

Lemma regex_cases (col : option string) (pattern : string) (s : Store) :
  regex re_search col pattern s
  = (Ok (regex_holds re_search col pattern), s)
  \/ (re_search pattern = None
      /\ regex re_search col pattern s
         = (Raise (OperationalError "user-defined function raised exception"),
            s)).
Proof.
  unfold regex, regex_holds, re_found. destruct col as [text|]; [|now left].
  destruct (re_search pattern); [now left|now right].
Qed.

Lemma select_cons {A} (cond : A -> M bool) (r : A) (rest : list A) (s : Store) :
  select cond (r :: rest) s
  = match cond r s with
    | (Ok b, s') =>
        match select cond rest s' with
        | (Ok kept, s'') => (Ok (if b then r :: kept else kept), s'')
        | (Raise e, s'') => (Raise e, s'')
        end
    | (Raise e, s') => (Raise e, s')
    end.
Proof. reflexivity. Qed.

(** A query whose condition can only raise [e], and only when [P] holds. *)
Lemma select_cases {A} (cond : A -> M bool) (f : A -> bool) (e : exn)
    (P : Prop) (rows : list A) (s : Store) :
  (forall r, cond r s = (Ok (f r), s) \/ (P /\ cond r s = (Raise e, s))) ->
  select cond rows s = (Ok (filter f rows), s)
  \/ (P /\ select cond rows s = (Raise e, s)).
Proof.
  intros H. induction rows as [|r rest IH]; [now left|].
  rewrite !select_cons. cbn [filter].
  destruct (H r) as [E|[HP E]]; rewrite E.
  - destruct IH as [E'|[HP E']]; rewrite E'.
    + left. now destruct (f r).
    + right. now split.
  - right. now split.
Qed.

Lemma filter_tags_cases (lookup : TagsModel.t -> M bool)
    (f : TagsModel.t -> bool) (e : exn) (P : Prop) (queryset : list VM.t)
    (s : Store) :
  (forall t, lookup t s = (Ok (f t), s) \/ (P /\ lookup t s = (Raise e, s))) ->
  filter_tags lookup queryset s = (Ok (joined s f queryset), s)
  \/ (P /\ filter_tags lookup queryset s = (Raise e, s)).
Proof.
  intros H. unfold filter_tags, bind. cbn [get].
  destruct (select_cases (fun r : VM.t * TagsModel.t => lookup (snd r))
              (fun r => f (snd r)) e P
              (flat_map (fun vm => map (pair vm) (VM_tags s (VM.vm_id vm)))
                 queryset) s) as [E|[HP E]].
  - intros r. apply H.
  - left. rewrite E. cbn [ret]. now rewrite joined_pairs.
  - right. now rewrite E.
Qed.

Lemma filter_scopes_cases (scopes_ : list string) (queryset : list VM.t)
    (s : Store) :
  filter_scopes re_search scopes_ queryset s
  = (Ok (scoped re_search s scopes_ queryset), s)
  \/ ((exists scope, In scope scopes_ /\ re_search (strip scope) = None)
      /\ filter_scopes re_search scopes_ queryset s
         = (Raise (OperationalError "user-defined function raised exception"),
            s)).
Proof.
  revert queryset. induction scopes_ as [|sc rest IH]; intros queryset;
    [now left|].
  cbn [filter_scopes]. unfold bind.
  destruct (filter_tags_cases
              (fun t => regex re_search (TagsModel.scope t) (strip sc))
              (fun t => regex_holds re_search (TagsModel.scope t) (strip sc))
              (OperationalError "user-defined function raised exception")
              (re_search (strip sc) = None) queryset s) as [E|[HP E]].
  - intros t. apply regex_cases.
  - rewrite E.
    destruct (IH (joined s
                    (fun t => regex_holds re_search (TagsModel.scope t) (strip sc))
                    queryset)) as [E'|[(scope & Hin & Hbad) E']].
    + now left.
    + right. split; [|exact E']. exists scope. split; [now right|exact Hbad].
  - rewrite E. right. split; [|reflexivity]. exists sc. split; [now left|exact HP].
Qed.

(** The queryset of the listing raises only the error of a scope filter
    that does not compile. *)
Lemma VMs_get_queryset_cases (names scopes_ : list string) (s : Store) :
  VMs_get_queryset re_search names scopes_ s
  = (Ok (scoped re_search s scopes_ (named s names)), s)
  \/ ((exists scope, In scope scopes_ /\ re_search (strip scope) = None)
      /\ VMs_get_queryset re_search names scopes_ s
         = (Raise (OperationalError "user-defined function raised exception"),
            s)).
Proof.
  assert (E : VMs_get_queryset re_search names scopes_ s
              = filter_scopes re_search scopes_ (named s names) s).
  { unfold VMs_get_queryset. unfold bind at 1. cbn [get]. unfold bind at 1.
    destruct names as [|n names']; [reflexivity|].
    unfold bind at 1.
    now rewrite (filter_tags_run _
                   (fun t => existsb
                               (fun tag_name =>
                                  iexact (TagsModel.tag_name t) (strip tag_name))
                               (n :: names'))) by reflexivity. }
  rewrite E. apply filter_scopes_cases.
Qed.

(** [VMs.get] never writes the store and always answers with an envelope.
    A listing is answered with the code 101 only when a scope filter does
    not compile, and otherwise with entries none of which carries the key
    of its VM: the [vm_id] of every entry is the [vm_id] of the request,
    which is absent or empty. *)
Theorem VMs_get_reads_only (request : VMsGetQuery) (s s' : Store)
    (o : outcome JsonResponse) :
  VMs_get to_uuid re_search request s = (o, s') ->
  s' = s
  /\ (exists r, o = Ok r)
  /\ (get_vm_id request = None \/ get_vm_id request = Some "" ->
      (o = Ok (error 101
                 (Format "Error: "
                    (OperationalError "user-defined function raised exception")
                    ""))
       /\ exists scope, In scope (scopes request)
                        /\ re_search (strip scope) = None)
      \/ (exists entries,
            o = Ok (success "VMs retrieved successfully" (VMData entries))
            /\ forall e, In e entries -> entry_vm_id e = get_vm_id request)).
Proof.
  assert (Hlist : forall vm_id,
            VMs_get_queryset re_search (tag_names request) (scopes request) s
            = (Ok (scoped re_search s (scopes request)
                     (named s (tag_names request))), s)
            \/ ((exists scope, In scope (scopes request)
                               /\ re_search (strip scope) = None)
                /\ VMs_get_queryset re_search (tag_names request)
                     (scopes request) s
                   = (Raise (OperationalError
                               "user-defined function raised exception"), s)) ->
            try_except
              (vm_data <-
                 (vm_instances <- VMs_get_queryset re_search (tag_names request)
                                    (scopes request) ;;
                  s0 <- get ;;
                  ret (map (entry_of s0 vm_id) vm_instances)) ;;
               ret (success "VMs retrieved successfully" (VMData vm_data)))
              (fun e => ret (error 101 (Format "Error: " e ""))) s = (o, s') ->
            s' = s
            /\ (exists r, o = Ok r)
            /\ ((o = Ok (error 101
                           (Format "Error: "
                              (OperationalError
                                 "user-defined function raised exception") ""))
                 /\ exists scope, In scope (scopes request)
                                  /\ re_search (strip scope) = None)
                \/ (exists entries,
                      o = Ok (success "VMs retrieved successfully"
                                (VMData entries))
                      /\ forall e, In e entries -> entry_vm_id e = vm_id))).
  { intros vm_id Hq. unfold try_except, bind.
    destruct Hq as [E|[Hbad E]]; rewrite E; cbn [ret get];
      intros [= <- <-]; (split; [reflexivity|]); (split; [eexists; reflexivity|]).
    - right. eexists. split; [reflexivity|].
      intros e He. apply in_map_iff in He. now destruct He as (vm & <- & _).
    - left. now split. }
  unfold VMs_get. destruct (get_vm_id request) as [[|c r]|] eqn:Eid.
  - intros Hrun.
    destruct (Hlist (Some "") (VMs_get_queryset_cases _ _ s) Hrun)
      as (H1 & H2 & H3).
    now repeat split.
  - unfold try_except, bind, get_object_or_404, try_except,
      VM_objects_get_vm_id, bind, prep_uuid.
    destruct (to_uuid (String c r)) as [u|].
    + cbn [ret get]. destruct (filter _ (vms s)) as [|x [|y l]]; cbn;
        intros [= <- <-]; (split; [reflexivity|]); (split; [eexists; reflexivity|]);
        intros [H|H]; discriminate H.
    + cbn. intros [= <- <-]. split; [reflexivity|]. split; [eexists; reflexivity|].
      intros [H|H]; discriminate H.
  - intros Hrun.
    destruct (Hlist None (VMs_get_queryset_cases _ _ s) Hrun) as (H1 & H2 & H3).
    now repeat split.
Qed.

Lemma In_VM_tags (s : Store) (vm_id : uuid) (t : TagsModel.t) :
  In t (VM_tags s vm_id) -> In t (tags s).
Proof.
  unfold VM_tags. intros H. apply in_flat_map in H.
  destruct H as (r & _ & H). destruct (N.eqb (fst r) vm_id); [|contradiction].
  now apply filter_In in H.
Qed.

(** A scope filter that does not compile, alone in the request.  The
    pattern is run on the scope of the tags attached to a VM: when one of
    them has a scope the query raises, and [VMs.get] answers with the code
    101; when no tag of the store has a scope, nothing is raised and the
    listing is empty. *)
Theorem VMs_get_scope_not_compiling (s : Store) (vm_id : option string)
    (scope : string) :
  vm_id = None \/ vm_id = Some "" ->
  re_search (strip scope) = None ->
  ((exists vm t text,
      In vm (vms s) /\ In t (VM_tags s (VM.vm_id vm))
      /\ TagsModel.scope t = Some text) ->
   VMs_get to_uuid re_search (mkVMsGet vm_id [] [scope]) s
   = (Ok (error 101
            (Format "Error: "
               (OperationalError "user-defined function raised exception") "")),
      s))
  /\ ((forall t, In t (tags s) -> TagsModel.scope t = None) ->
      VMs_get to_uuid re_search (mkVMsGet vm_id [] [scope]) s
      = (Ok (success "VMs retrieved successfully" (VMData [])), s)).
Proof.
  intros Hid Hbad. split.
  - intros (vm & t & text & Hvm & Ht & Etext).
    assert (Hq : VMs_get_queryset re_search [] [scope] s
                 = (Raise (OperationalError
                             "user-defined function raised exception"), s)).
    { unfold VMs_get_queryset, bind. cbn [get ret filter_scopes].
      unfold filter_tags, bind. cbn [get]. rewrite select_raise
        with (e := OperationalError "user-defined function raised exception");
        [reflexivity| |].
      - intros [vm' t'] _. cbn [snd]. unfold regex.
        destruct (TagsModel.scope t'); [|right; now exists false].
        rewrite Hbad. now left.
      - exists (vm, t). split.
        + apply in_flat_map. exists vm. split; [exact Hvm|]. now apply in_map.
        + cbn [snd]. unfold regex. now rewrite Etext, Hbad. }
    unfold VMs_get, try_except. cbn [get_vm_id tag_names scopes].
    destruct Hid as [-> | ->]; unfold bind at 1; unfold bind at 1;
      now rewrite Hq.
  - intros Hnull.
    assert (Hq : VMs_get_queryset re_search [] [scope] s = (Ok [], s)).
    { unfold VMs_get_queryset, bind. cbn [get ret filter_scopes].
      unfold filter_tags, bind. cbn [get].
      rewrite (select_run _ (fun _ => false)).
      - cbn [ret]. rewrite filter_none; [reflexivity|]. reflexivity.
      - intros [vm t] Hin. cbn [snd]. apply in_flat_map in Hin.
        destruct Hin as (vm' & Hvm & Hin). apply in_map_iff in Hin.
        destruct Hin as (t' & [= <- <-] & Ht). apply In_VM_tags in Ht.
        unfold regex. now rewrite (Hnull t' Ht). }
    unfold VMs_get, try_except. cbn [get_vm_id tag_names scopes].
    destruct Hid as [-> | ->]; unfold bind at 1; unfold bind at 1;
      now rewrite Hq.
Qed.

End VMsGet.

Section VMsPost.

Variable to_int : string -> option Z.

Lemma first_by_pk_In (rows : list TagsModel.t) (t : TagsModel.t) :
  first_by_pk rows = Some t -> In t rows.
Proof.
  revert t. induction rows as [|a rows IH]; intros t; [discriminate|].
  cbn [first_by_pk]. destruct (first_by_pk rows) as [t'|].
  - destruct (N.ltb _ _); intros [= <-]; [right; now apply IH|now left].
  - intros [= <-]. now left.
Qed.

(** [TagsModel.save] that returns has appended the tag it returns: the
    instance with its scope normalised; one that raises has written
    nothing. *)
Lemma TagsModel_save_inv (self : TagsModel.t) (s s' : Store)
    (o : outcome TagsModel.t) :
  TagsModel_save self s = (o, s') ->
  match o with
  | Ok t =>
      t = TagsModel.mk (TagsModel.tag_id self) (TagsModel.tag_name self)
            match TagsModel.scope self with
            | Some EmptyString => None
            | sc => sc
            end
            (TagsModel.user_id self)
      /\ s' = mkStore (users s) (tags s ++ [t]) (vms s) (vms_tags s)
      /\ (forall t', In t' (tags s) -> TagsModel.tag_id t' <> TagsModel.tag_id t)
  | Raise _ => s' = s
  end.
Proof.
  unfold TagsModel_save. destruct self as [u name sc owner].
  cbn [TagsModel.tag_name TagsModel.scope TagsModel.tag_id TagsModel.user_id].
  destruct name as [[|c r]|]; try (now intros [= <- <-]).
  unfold bind. cbn [get].
  destruct (existsb _ (tags s)); [now intros [= <- <-]|].
  unfold insert_tag, bind. cbn [get TagsModel.tag_id TagsModel.tag_name TagsModel.scope].
  destruct (existsb (fun t' => N.eqb (TagsModel.tag_id t') u) (tags s)) eqn:Epk;
    [unfold raise; now intros [= <- <-]|].
  match goal with
  | |- context [if existsb ?f (tags s) then _ else _] =>
      destruct (existsb f (tags s)); [unfold raise; now intros [= <- <-]|]
  end.
  unfold put, ret. intros [= <- <-]. split; [reflexivity|]. split; [reflexivity|].
  intros t' Ht' E.
  assert (H : existsb (fun t0 => N.eqb (TagsModel.tag_id t0) u) (tags s) = true);
    [|congruence].
  apply existsb_exists. exists t'. split; [exact Ht'|]. now apply N.eqb_eq.
Qed.

(** What the loop of [VMs.post] does to the store, however it ends: it
    touches neither users nor VMs, it appends tags owned by the given user,
    and it appends to the join table pairs of the given VM with tags of the
    store.  When it ends normally, every spec has exactly one colon and the
    VM is paired with a tag of the spec's name and scope. *)
Lemma attach_tags_effect (uuid4 : nat -> uuid) (user_profile : UserProfile.t)
    (vm_instance : VM.t) (tags_ : list string) :
  forall (k : nat) (s s' : Store) (o : outcome unit),
    attach_tags uuid4 k user_profile vm_instance tags_ s = (o, s') ->
    users s' = users s /\ vms s' = vms s
    /\ (exists created,
          tags s' = tags s ++ created
          /\ forall t, In t created ->
               TagsModel.user_id t = UserProfile.user_id user_profile)
    /\ (exists added,
          vms_tags s' = vms_tags s ++ added
          /\ forall r, In r added ->
               fst r = VM.vm_id vm_instance
               /\ ~ In r (vms_tags s)
               /\ exists t, In t (tags s') /\ TagsModel.tag_id t = snd r)
    /\ (o = Ok tt ->
        forall spec, In spec tags_ ->
          exists name scope t,
            split ":" spec = [name; scope]
            /\ In t (tags s') /\ TagsModel.tag_name t = Some name
            /\ (TagsModel.scope t = Some scope
                \/ (scope = "" /\ TagsModel.scope t = None))
            /\ In (VM.vm_id vm_instance, TagsModel.tag_id t) (vms_tags s')).
Proof.
  induction tags_ as [|tag_scope rest IH]; intros k s s' o; cbn [attach_tags].
  - intros [= <- <-]. repeat split; auto.
    + exists []. split; [now rewrite app_nil_r|intros t []].
    + exists []. split; [now rewrite app_nil_r|intros r []].
    + intros _ spec [].
  - destruct (split ":" tag_scope) as [|tag_name [|scope [|x l]]] eqn:Esplit;
      try (intros [= <- <-]; repeat split; auto;
           [exists []; split; [now rewrite app_nil_r|intros t []]
           |exists []; split; [now rewrite app_nil_r|intros r []]
           |discriminate]).
    unfold bind at 1. cbn [get].
    (* the tag: found, or created *)
    assert (Hstep : forall (t : TagsModel.t) (k1 : nat) (s1 : Store),
               users s1 = users s -> vms s1 = vms s -> vms_tags s1 = vms_tags s ->
               (exists created,
                  tags s1 = tags s ++ created
                  /\ forall t0, In t0 created ->
                       TagsModel.user_id t0 = UserProfile.user_id user_profile) ->
               In t (tags s1) -> TagsModel.tag_name t = Some tag_name ->
               (TagsModel.scope t = Some scope
                \/ (scope = "" /\ TagsModel.scope t = None)) ->
               forall o1 s2,
                 (s0 <- get ;;
                  (if has_row (VM.vm_id vm_instance, TagsModel.tag_id t) (vms_tags s0)
                   then ret tt
                   else put (mkStore (users s0) (tags s0) (vms s0)
                               (vms_tags s0 ++ [(VM.vm_id vm_instance,
                                                 TagsModel.tag_id t)]))) ;;;
                  attach_tags uuid4 k1 user_profile vm_instance rest) s1 = (o1, s2) ->
                 users s2 = users s /\ vms s2 = vms s
                 /\ (exists created,
                       tags s2 = tags s ++ created
                       /\ forall t0, In t0 created ->
                            TagsModel.user_id t0 = UserProfile.user_id user_profile)
                 /\ (exists added,
                       vms_tags s2 = vms_tags s ++ added
                       /\ forall r, In r added ->
                            fst r = VM.vm_id vm_instance
                            /\ ~ In r (vms_tags s)
                            /\ exists t0, In t0 (tags s2) /\ TagsModel.tag_id t0 = snd r)
                 /\ (o1 = Ok tt ->
                     forall spec, In spec (tag_scope :: rest) ->
                       exists name sc t0,
                         split ":" spec = [name; sc]
                         /\ In t0 (tags s2) /\ TagsModel.tag_name t0 = Some name
                         /\ (TagsModel.scope t0 = Some sc
                             \/ (sc = "" /\ TagsModel.scope t0 = None))
                         /\ In (VM.vm_id vm_instance, TagsModel.tag_id t0)
                              (vms_tags s2))).
    { intros t k1 s1 Hu1 Hv1 Hr1 (c1 & Hc1 & Hown1) Ht1 Hn1 Hs1 o1 s2.
      unfold bind at 1. cbn [get]. unfold bind at 1.
      set (row := (VM.vm_id vm_instance, TagsModel.tag_id t)).
      destruct (has_row row (vms_tags s1)) eqn:Erow; cbn [ret put]; intros Hrest;
        apply IH in Hrest;
        destruct Hrest as (Hu2 & Hv2 & (c2 & Hc2 & Hown2) & (a2 & Ha2 & Hadd2) & Hok2);
        cbn [users tags vms vms_tags] in *.
      - split; [congruence|]. split; [congruence|]. split; [|split].
        + exists (c1 ++ c2). split; [rewrite Hc2, Hc1; now rewrite app_assoc|].
          intros t0 Hin. apply in_app_iff in Hin. destruct Hin; auto.
        + exists a2. split; [congruence|]. intros r Hr.
          destruct (Hadd2 r Hr) as (H1 & H2 & H3). rewrite <- Hr1. auto.
        + intros Hok spec [<-|Hin]; [|now apply Hok2].
          exists tag_name, scope, t. split; [exact Esplit|].
          split; [rewrite Hc2; apply in_app_iff; now left|].
          split; [exact Hn1|]. split; [exact Hs1|].
          rewrite Ha2. apply in_app_iff. left. now apply has_row_In.
      - split; [congruence|]. split; [congruence|]. split; [|split].
        + exists (c1 ++ c2). split; [rewrite Hc2, Hc1; now rewrite app_assoc|].
          intros t0 Hin. apply in_app_iff in Hin. destruct Hin; auto.
        + exists (row :: a2). split.
          * rewrite Ha2, Hr1, <- app_assoc. reflexivity.
          * intros r [<-|Hr].
            -- split; [reflexivity|]. split.
               ++ rewrite <- Hr1, <- has_row_In. congruence.
               ++ exists t. split; [rewrite Hc2; apply in_app_iff; now left|reflexivity].
            -- destruct (Hadd2 r Hr) as (H1 & H2 & H3). split; [exact H1|].
               split; [|exact H3]. intros Hin. apply H2.
               apply in_app_iff. left. now rewrite Hr1.
        + intros Hok spec [<-|Hin]; [|now apply Hok2].
          exists tag_name, scope, t. split; [exact Esplit|].
          split; [rewrite Hc2; apply in_app_iff; now left|].
          split; [exact Hn1|]. split; [exact Hs1|].
          rewrite Ha2. apply in_app_iff. left. apply in_app_iff. right. now left. }
    destruct (first_by_pk _) as [t|] eqn:Efound.
    + unfold bind at 1. cbn [ret fst snd].
      apply first_by_pk_In, filter_In in Efound. destruct Efound as [Ht Hm].
      apply andb_true_iff in Hm. destruct Hm as [Hn Hs].
      apply exact_Some_true in Hn, Hs.
      apply (Hstep t k s); auto.
      exists []. split; [now rewrite app_nil_r|intros t0 []].
    + unfold bind at 1. unfold bind at 1.
      destruct (TagsModel_save _ s) as [[t|e] s1] eqn:Esave;
        apply TagsModel_save_inv in Esave.
      * cbn [ret fst snd]. destruct Esave as (Et & -> & _).
        cbn [TagsModel.tag_id TagsModel.tag_name TagsModel.scope TagsModel.user_id] in Et.
        apply (Hstep t (S k)); cbn [users tags vms vms_tags]; auto.
        -- exists [t]. split; [reflexivity|]. intros t0 [<-|[]]. now rewrite Et.
        -- apply in_app_iff. right. now left.
        -- now rewrite Et.
        -- rewrite Et. cbn [TagsModel.scope].
           destruct scope as [|c r]; [right; now split|now left].
      * subst s1. intros [= <- <-]. repeat split; auto.
        -- exists []. split; [now rewrite app_nil_r|intros t0 []].
        -- exists []. split; [now rewrite app_nil_r|intros r []].
        -- discriminate.
Qed.

(** The loop of [VMs.post] adds no pair twice. *)
Lemma attach_tags_NoDup (uuid4 : nat -> uuid) (user_profile : UserProfile.t)
    (vm_instance : VM.t) (tags_ : list string) :
  forall (k : nat) (s s' : Store) (o : outcome unit),
    attach_tags uuid4 k user_profile vm_instance tags_ s = (o, s') ->
    NoDup (vms_tags s) -> NoDup (vms_tags s').
Proof.
  induction tags_ as [|tag_scope rest IH]; intros k s s' o; cbn [attach_tags].
  - now intros [= _ <-].
  - destruct (split ":" tag_scope) as [|tag_name [|scope [|x l]]];
      try (now intros [= _ <-]).
    unfold bind at 1. cbn [get].
    assert (Hstep : forall (t : TagsModel.t) (k1 : nat) (s1 : Store) o1 s2,
               (s0 <- get ;;
                (if has_row (VM.vm_id vm_instance, TagsModel.tag_id t) (vms_tags s0)
                 then ret tt
                 else put (mkStore (users s0) (tags s0) (vms s0)
                             (vms_tags s0 ++ [(VM.vm_id vm_instance,
                                               TagsModel.tag_id t)]))) ;;;
                attach_tags uuid4 k1 user_profile vm_instance rest) s1 = (o1, s2) ->
               NoDup (vms_tags s1) -> NoDup (vms_tags s2)).
    { intros t k1 s1 o1 s2. unfold bind at 1. cbn [get]. unfold bind at 1.
      destruct (has_row _ (vms_tags s1)) eqn:Erow; cbn [ret put];
        intros Hrest Hnd; apply IH in Hrest; auto.
      cbn [vms_tags]. apply NoDup_app; [exact Hnd|repeat constructor; intros []|].
      intros r Hin [<-|[]]. apply has_row_In in Hin. congruence. }
    destruct (first_by_pk _) as [t|].
    + unfold bind at 1. cbn [ret fst snd]. apply Hstep.
    + unfold bind at 1. unfold bind at 1.
      destruct (TagsModel_save _ s) as [[t|e] s1] eqn:Esave;
        apply TagsModel_save_inv in Esave.
      * cbn [ret fst snd]. destruct Esave as (_ & -> & _). intros Hrun Hnd.
        now apply Hstep in Hrun.
      * subst s1. now intros [= _ <-].
Qed.

(** The lookup of a user answers with a user of the store, and its failure
    is no [ValidationError]. *)
Lemma get_UserProfile_cases (user_id : option string) (s : Store) :
  (exists user,
     get_object_or_404 "UserProfile" (UserProfile_objects_get to_int user_id) s
     = (Ok user, s) /\ In user (users s))
  \/ (exists e,
        get_object_or_404 "UserProfile" (UserProfile_objects_get to_int user_id) s
        = (Raise e, s) /\ forall m, e <> ValidationError m).
Proof.
  unfold get_object_or_404, try_except, UserProfile_objects_get, bind, prep_int.
  destruct user_id as [v|].
  - destruct (to_int v) as [n|].
    + cbn [ret get].
      destruct (filter _ (users s)) as [|x [|y l]] eqn:E; cbn.
      * right. eexists. split; [reflexivity|discriminate].
      * left. exists x. split; [reflexivity|].
        assert (H : In x (filter (fun u => Z.eqb (UserProfile.user_id u) n) (users s)))
          by (rewrite E; now left).
        now apply filter_In in H.
      * right. eexists. split; [reflexivity|discriminate].
    + right. eexists. split; [reflexivity|discriminate].
  - right. eexists. split; [reflexivity|discriminate].
Qed.

(** The insert of a VM row: refused by a constraint of the table, or done
    under a free name and key. *)
Lemma VM_objects_create_cases (u : uuid) (now : string) (vm_name : option string)
    (s : Store) :
  (exists m, VM_objects_create u now vm_name s = (Raise (IntegrityError m), s))
  \/ exists n,
       vm_name = Some n
       /\ (forall vm, In vm (vms s) -> VM.vm_name vm <> n)
       /\ (forall vm, In vm (vms s) -> VM.vm_id vm <> u)
       /\ VM_objects_create u now vm_name s
          = (Ok (VM.mk u n now),
             mkStore (users s) (tags s) (vms s ++ [VM.mk u n now]) (vms_tags s)).
Proof.
  unfold VM_objects_create, bind. destruct vm_name as [n|].
  2:{ left. eexists. reflexivity. }
  cbn [get].
  destruct (existsb (fun v => N.eqb (VM.vm_id v) u) (vms s)) eqn:Epk.
  { left. eexists. reflexivity. }
  destruct (existsb (fun v => String.eqb (VM.vm_name v) n) (vms s)) eqn:Ename.
  { left. eexists. reflexivity. }
  right. exists n. split; [reflexivity|]. split; [|split; [|reflexivity]].
  - intros vm Hvm E.
    assert (H : existsb (fun v => String.eqb (VM.vm_name v) n) (vms s) = true);
      [|congruence].
    apply existsb_exists. exists vm. split; [exact Hvm|]. now apply String.eqb_eq.
  - intros vm Hvm E.
    assert (H : existsb (fun v => N.eqb (VM.vm_id v) u) (vms s) = true);
      [|congruence].
    apply existsb_exists. exists vm. split; [exact Hvm|]. now apply N.eqb_eq.
Qed.

(** What a call of [VMs.post] can be.  Either nothing is written and the
    answer is an error (the name is taken, or the insert of the VM fails);
    or the VM row is inserted under a free name and key and the loop runs:
    it may append tags owned by a user of the store and pairs of the new VM
    with tags, and then the call succeeds, or fails on a [ValidationError]
    with the VM and its pairs removed again, or fails otherwise with
    everything written so far left in place. *)
Lemma VMs_post_cases (uuid4 : nat -> uuid) (now : string) (request : VMsPostData)
    (s s' : Store) (o : outcome JsonResponse) :
  VMs_post to_int uuid4 now request s = (o, s') ->
  (s' = s /\ exists r, o = Ok r /\ status r = "error")
  \/ exists n created added,
       post_vm_name request = Some n
       /\ (forall vm, In vm (vms s) -> VM.vm_name vm <> n)
       /\ (forall vm, In vm (vms s) -> VM.vm_id vm <> uuid4 0%nat)
       /\ users s' = users s
       /\ tags s' = tags s ++ created
       /\ (forall t, In t created ->
             exists u, In u (users s)
                       /\ UserProfile.user_id u = TagsModel.user_id t)
       /\ (forall r, In r added ->
             fst r = uuid4 0%nat /\ ~ In r (vms_tags s)
             /\ exists t, In t (tags s') /\ TagsModel.tag_id t = snd r)
       /\ (NoDup (vms_tags s) -> NoDup (vms_tags s ++ added))
       /\ ((o = Ok (success "VM added successfully." EmptyData)
            /\ vms s' = vms s ++ [VM.mk (uuid4 0%nat) n now]
            /\ vms_tags s' = vms_tags s ++ added
            /\ forall spec, In spec (post_tags request) ->
                 exists name scope t,
                   split ":" spec = [name; scope]
                   /\ In t (tags s') /\ TagsModel.tag_name t = Some name
                   /\ (TagsModel.scope t = Some scope
                       \/ (scope = "" /\ TagsModel.scope t = None))
                   /\ In (uuid4 0%nat, TagsModel.tag_id t) (vms_tags s'))
           \/ ((exists m,
                  o = Ok (error 103
                            (Format "Validation error: " (ValidationError m) "")))
               /\ vms s' = vms s
               /\ vms_tags s'
                  = filter (fun r => negb (N.eqb (fst r) (uuid4 0%nat))) (vms_tags s))
           \/ ((exists e, o = Ok (error 101 (Format "Error: " e "")))
               /\ vms s' = vms s ++ [VM.mk (uuid4 0%nat) n now]
               /\ vms_tags s' = vms_tags s ++ added)).
Proof.
  unfold VMs_post. unfold bind at 1. cbn [get].
  destruct (match post_vm_name request with
            | Some n => existsb (fun v => String.eqb (VM.vm_name v) n) (vms s)
            | None => false
            end).
  { cbn. intros [= <- <-]. left. split; [reflexivity|]. eexists. split; reflexivity. }
  destruct (VM_objects_create_cases (uuid4 0%nat) now (post_vm_name request) s)
    as [(m & ->)|(n & En & Hname & Hfresh & ->)].
  { cbn. intros [= <- <-]. left. split; [reflexivity|]. eexists. split; reflexivity. }
  set (vm := VM.mk (uuid4 0%nat) n now).
  set (s1 := mkStore (users s) (tags s) (vms s ++ [vm]) (vms_tags s)).
  unfold try_except. unfold bind at 1.
  destruct (post_tags request) as [|spec specs] eqn:Etags.
  - cbn. intros [= <- <-]. right. exists n, [], [].
    cbn [users tags vms vms_tags]. rewrite !app_nil_r.
    repeat (split; [first [reflexivity|assumption|intros ? []|auto]|]).
    left. repeat split. intros spec [].
  - unfold bind at 1.
    destruct (get_UserProfile_cases (vm_user_id request) s1)
      as [(user & -> & Huser)|(e & -> & Hnv)].
    + destruct (attach_tags uuid4 1 user vm (spec :: specs) s1) as [o3 s3] eqn:Eloop.
      pose proof (attach_tags_NoDup _ _ _ _ _ _ _ _ Eloop) as Hnd3.
      apply attach_tags_effect in Eloop.
      destruct Eloop as (Hu3 & Hv3 & (created & Hc3 & Hown3) & (added & Ha3 & Hadd3) & Hok3).
      cbn [users tags vms vms_tags s1 VM.vm_id vm] in *.
      assert (Hcommon :
                (forall t, In t created ->
                   exists u, In u (users s)
                             /\ UserProfile.user_id u = TagsModel.user_id t)
                /\ (NoDup (vms_tags s) -> NoDup (vms_tags s ++ added))).
      { split.
        - intros t Ht. exists user. split; [exact Huser|]. symmetry. now apply Hown3.
        - intros Hnd. rewrite <- Ha3. now apply Hnd3. }
      destruct Hcommon as [Hown Hnd].
      destruct o3 as [[]|e].
      * cbn. intros [= <- <-]. right. exists n, created, added.
        repeat (split; [first [assumption|reflexivity]|]).
        left. repeat (split; [first [assumption|reflexivity]|]).
        now apply Hok3.
      * destruct e; cbn; intros [= <- <-]; right; exists n, created, added;
          cbn [users tags vms vms_tags];
          (split; [exact En|]); (split; [exact Hname|]); (split; [exact Hfresh|]);
          (split; [exact Hu3|]); (split; [exact Hc3|]); (split; [exact Hown|]);
          (split; [exact Hadd3|]); (split; [exact Hnd|]);
          try (right; right; split; [eexists; reflexivity|now split]).
        right. left. split; [eexists; reflexivity|].
        rewrite Hv3, Ha3, !filter_app. cbn [filter VM.vm_id]. rewrite N.eqb_refl.
        cbn [negb]. rewrite app_nil_r. split.
        -- apply filter_all. intros v Hv. apply negb_true_iff, N.eqb_neq.
           now apply Hfresh.
        -- rewrite (filter_none _ added); [now rewrite app_nil_r|].
           intros r Hr. apply negb_false_iff, N.eqb_eq. now apply Hadd3.
    + destruct e; try (exfalso; now apply (Hnv m)); cbn; intros [= <- <-];
        right; exists n, [], [];
        cbn [users tags vms vms_tags]; rewrite !app_nil_r;
        (split; [exact En|]); (split; [exact Hname|]); (split; [exact Hfresh|]);
        (split; [reflexivity|]); (split; [reflexivity|]); (split; [intros ? []|]);
        (split; [intros ? []|]); (split; [auto|]);
        right; right; (split; [eexists; reflexivity|now split]).
Qed.

(** [VMs.post] that answers with success has inserted the VM under the
    requested name and the drawn key, and for every tag spec of the request
    the VM is attached to a tag of the spec's name and scope (an empty
    scope being the scope NULL): a tag that was there, or one the call
    created.  The call has written nothing else: the tags and pairs that
    were there are there, and every new pair is a pair of the new VM. *)
Theorem VMs_post_success_attaches_every_spec (uuid4 : nat -> uuid) (now : string)
    (request : VMsPostData) (s s' : Store) (r : JsonResponse) :
  VMs_post to_int uuid4 now request s = (Ok r, s') ->
  status r = "success" ->
  exists n created added,
    post_vm_name request = Some n
    /\ users s' = users s
    /\ vms s' = vms s ++ [VM.mk (uuid4 0%nat) n now]
    /\ tags s' = tags s ++ created
    /\ vms_tags s' = vms_tags s ++ added
    /\ (forall row, In row added -> fst row = uuid4 0%nat)
    /\ forall spec, In spec (post_tags request) ->
         exists name scope t,
           split ":" spec = [name; scope]
           /\ In t (tags s') /\ TagsModel.tag_name t = Some name
           /\ (TagsModel.scope t = Some scope
               \/ (scope = "" /\ TagsModel.scope t = None))
           /\ In (uuid4 0%nat, TagsModel.tag_id t) (vms_tags s').
Proof.
  intros Hrun Hok. apply VMs_post_cases in Hrun.
  destruct Hrun as [[_ (r' & [= <-] & Herr)]|
                     (n & created & added & En & _ & _ & Hu & Hc & _ & Hadd & _ & Hcase)].
  - rewrite Herr in Hok. discriminate.
  - destruct Hcase as [(_ & Hv & Ha & Hspecs)|[((m & [= ->]) & _)|((e & [= ->]) & _)]];
      try discriminate Hok.
    exists n, created, added. repeat (split; [assumption|]). split; [|exact Hspecs].
    intros row Hrow. now apply Hadd.
Qed.

(** [VMs.post] that answers with the code 103 has taken back the VM it
    inserted: where no pair of the join table carried the drawn key before,
    the VMs and the join table are as they were before the call.  The tags
    the call created before it failed are not taken back. *)
Theorem VMs_post_validation_error_removes_vm (uuid4 : nat -> uuid) (now : string)
    (request : VMsPostData) (s s' : Store) (r : JsonResponse) :
  VMs_post to_int uuid4 now request s = (Ok r, s') ->
  error_code r = 103%Z ->
  (forall row, In row (vms_tags s) -> fst row <> uuid4 0%nat) ->
  users s' = users s /\ vms s' = vms s /\ vms_tags s' = vms_tags s
  /\ exists created, tags s' = tags s ++ created.
Proof.
  intros Hrun Hcode Hrows. apply VMs_post_cases in Hrun.
  destruct Hrun as [[-> (r' & [= <-] & _)]|
                     (n & created & added & En & _ & _ & Hu & Hc & _ & _ & _ & Hcase)].
  - repeat split. exists []. now rewrite app_nil_r.
  - destruct Hcase as [([= ->] & _)|[((m & [= ->]) & Hv & Ha)|((e & [= ->]) & _)]];
      try discriminate Hcode.
    split; [exact Hu|]. split; [exact Hv|]. split; [|now exists created].
    rewrite Ha. apply filter_all. intros row Hrow.
    apply negb_true_iff, N.eqb_neq. now apply Hrows.
Qed.

(** The refusals of [VMs.post] that come before the loop.  A name that a VM
    of the store bears is answered with the code 102 and nothing is
    written.  A free name with an empty tag list succeeds and inserts the VM
    row alone; [user_id] is not looked at, so it may be absent or the key of
    no user. *)
Theorem VMs_post_name_and_empty_tags (uuid4 : nat -> uuid) (now n : string)
    (user_id : option string) (s : Store) :
  (forall specs vm,
     In vm (vms s) -> VM.vm_name vm = n ->
     VMs_post to_int uuid4 now (mkVMsPost (Some n) specs user_id) s
     = (Ok (error 102 (Text "This VM Already exists.")), s))
  /\ ((forall vm, In vm (vms s) -> VM.vm_name vm <> n) ->
      (forall vm, In vm (vms s) -> VM.vm_id vm <> uuid4 0%nat) ->
      VMs_post to_int uuid4 now (mkVMsPost (Some n) [] user_id) s
      = (Ok (success "VM added successfully." EmptyData),
         mkStore (users s) (tags s) (vms s ++ [VM.mk (uuid4 0%nat) n now])
           (vms_tags s))).
Proof.
  split.
  - intros specs vm Hvm Hname. unfold VMs_post, bind. cbn [get post_vm_name].
    assert (E : existsb (fun v => String.eqb (VM.vm_name v) n) (vms s) = true).
    { apply existsb_exists. exists vm. split; [exact Hvm|]. now apply String.eqb_eq. }
    now rewrite E.
  - intros Hname Hfresh. unfold VMs_post, bind. cbn [get post_vm_name post_tags].
    rewrite existsb_false.
    2:{ intros vm Hvm. apply String.eqb_neq. now apply Hname. }
    unfold VM_objects_create, bind. cbn [get].
    rewrite existsb_false.
    2:{ intros vm Hvm. apply N.eqb_neq. now apply Hfresh. }
    rewrite existsb_false; [reflexivity|].
    intros vm Hvm. apply String.eqb_neq. now apply Hname.
Qed.

(** A tag spec must hold exactly one colon.  When the first spec of the
    list splits into fewer or more than two parts, the unpacking raises
    [ValueError]: the call answers with the code 101 of the generic
    handler, and the VM row, inserted before the loop, stays in the
    store. *)
Theorem VMs_post_malformed_spec (s : Store) (uuid4 : nat -> uuid)
    (now n spec : string) (specs : list string) (user_id : string) (k : Z)
    (user : UserProfile.t) :
  (forall vm, In vm (vms s) -> VM.vm_name vm <> n) ->
  (forall vm, In vm (vms s) -> VM.vm_id vm <> uuid4 0%nat) ->
  to_int user_id = Some k ->
  filter (fun usr => Z.eqb (UserProfile.user_id usr) k) (users s) = [user] ->
  List.length (split ":" spec) <> 2%nat ->
  VMs_post to_int uuid4 now (mkVMsPost (Some n) (spec :: specs) (Some user_id)) s
  = (Ok (error 101
           (Format "Error: "
              (ValueError "wrong number of values to unpack (expected 2)") "")),
     mkStore (users s) (tags s) (vms s ++ [VM.mk (uuid4 0%nat) n now])
       (vms_tags s)).
Proof.
  intros Hname Hfresh Hk Huser Hlen.
  unfold VMs_post, bind. cbn [get post_vm_name post_tags vm_user_id].
  rewrite existsb_false.
  2:{ intros vm Hvm. apply String.eqb_neq. now apply Hname. }
  unfold VM_objects_create, bind. cbn [get].
  rewrite existsb_false.
  2:{ intros vm Hvm. apply N.eqb_neq. now apply Hfresh. }
  rewrite existsb_false.
  2:{ intros vm Hvm. apply String.eqb_neq. now apply Hname. }
  cbn [put ret]. unfold try_except, bind, get_object_or_404, try_except,
    UserProfile_objects_get, bind, prep_int.
  rewrite Hk. cbn [ret get users]. rewrite Huser. cbn [get_one ret attach_tags].
  destruct (split ":" spec) as [|a [|b [|c l]]]; try reflexivity.
  exfalso. now apply Hlen.
Qed.

End VMsPost.

Section Reachable.

Variable to_uuid : string -> option uuid.
Variable to_int : string -> option Z.

Lemma Tags_post_store_ok (uuid4 : uuid) (request : TagsPostData) (s s' : Store)
    (o : outcome JsonResponse) :
  store_ok s -> Tags_post to_int uuid4 request s = (o, s') -> store_ok s'.
Proof.
  intros Hok Hrun. pose proof Hok as (Htags & Hvms & (Hnd & Hjoin) & Hown).
  pose proof (Tags_post_tags_ok to_int uuid4 request s s' o Htags Hrun) as Htags'.
  assert (Hcases :
            s' = s
            \/ exists t user,
                 s' = mkStore (users s) (tags s ++ [t]) (vms s) (vms_tags s)
                 /\ In user (users s)
                 /\ TagsModel.user_id t = UserProfile.user_id user).
  { revert Hrun. unfold Tags_post, try_except. unfold bind at 1.
    destruct (get_UserProfile_cases to_int (post_user_id request) s)
      as [(user & -> & Huser)|(e & -> & Hnv)].
    - unfold bind at 1.
      destruct (TagsModel_save _ s) as [[t|e] s1] eqn:Esave;
        apply TagsModel_save_inv in Esave.
      + destruct Esave as (Et & -> & _). cbn. intros [= _ <-]. right.
        exists t, user. split; [reflexivity|]. split; [exact Huser|]. now rewrite Et.
      + subst s1. destruct e; cbn; intros [= _ <-]; now left.
    - destruct e; cbn; intros [= _ <-]; now left. }
  destruct Hcases as [->|(t & user & -> & Huser & Howner)].
  - exact Hok.
  - split; [exact Htags'|]. split; [exact Hvms|]. split; [split|].
    + exact Hnd.
    + cbn [users tags vms vms_tags]. intros r Hr.
      destruct (Hjoin r Hr) as [Hvm (t0 & Ht0 & E)]. split; [exact Hvm|].
      exists t0. split; [apply in_app_iff; now left|exact E].
    + intros t0 Ht0. cbn [users tags] in *. apply in_app_iff in Ht0.
      destruct Ht0 as [Ht0|[<-|[]]]; [now apply Hown|].
      exists user. split; [exact Huser|]. now symmetry.
Qed.

Lemma Tags_delete_store_ok (request : TagsDeleteQuery) (s s' : Store)
    (o : outcome JsonResponse) :
  store_ok s -> Tags_delete to_uuid to_int request s = (o, s') -> store_ok s'.
Proof.
  intros Hok Hrun. pose proof Hok as (Htags & Hvms & (Hnd & Hjoin) & Hown).
  pose proof (Tags_delete_tags_ok to_uuid to_int request s s' o Htags Hrun) as Htags'.
  apply Tags_delete_inv in Hrun.
  destruct Hrun as [[-> _]|(tid & uid & u & n & _ & _ & _ & _ & Hfree & _ & _ & ->)].
  - exact Hok.
  - split; [exact Htags'|]. split; [exact Hvms|]. unfold without_tag.
    split; [split|]; cbn [users tags vms vms_tags].
    + exact Hnd.
    + intros r Hr. destruct (Hjoin r Hr) as [Hvm (t & Ht & E)]. split; [exact Hvm|].
      exists t. split; [|exact E]. apply filter_In. split; [exact Ht|].
      apply negb_true_iff, N.eqb_neq. intros Eu.
      apply (Hfree t Ht Eu r Hr). congruence.
    + intros t Ht. apply filter_In in Ht. now apply Hown.
Qed.

Lemma get_TagsModel_cases (tag_name : option string) (s : Store) :
  (exists tag,
     get_object_or_404 "TagsModel" (TagsModel_objects_get tag_name) s = (Ok tag, s)
     /\ In tag (tags s))
  \/ exists e,
       get_object_or_404 "TagsModel" (TagsModel_objects_get tag_name) s = (Raise e, s).
Proof.
  unfold get_object_or_404, try_except, TagsModel_objects_get, bind. cbn [get].
  destruct (filter _ (tags s)) as [|x [|y l]] eqn:E; cbn.
  - right. eexists. reflexivity.
  - left. exists x. split; [reflexivity|].
    assert (H : In x (filter (fun t => exact (TagsModel.tag_name t) tag_name) (tags s)))
      by (rewrite E; now left).
    now apply filter_In in H.
  - right. eexists. reflexivity.
Qed.

Lemma AssignUnassignTags_post_store_ok (request : AssignData) (s s' : Store)
    (o : outcome JsonResponse) :
  store_ok s -> AssignUnassignTags_post to_uuid request s = (o, s') -> store_ok s'.
Proof.
  intros Hsame. pose proof Hsame as (Htags & Hvms & (Hnd & Hjoin) & Hown).
  unfold AssignUnassignTags_post, try_except.
  destruct (is_str (action request) "assign").
  - unfold bind at 1.
    destruct (get_TagsModel_cases (assign_tag_name request) s)
      as [(tag & -> & Htag)|(e & ->)].
    + unfold bind, vms_add, bind.
      destruct (prep_uuids_run to_uuid (vm_ids request) s) as [(us & -> & _)|(m & ->)].
      * cbn [get]. set (missing := filter _ (nodup N.eq_dec us)).
        destruct (forallb _ missing) eqn:Eall; cbn; intros [= _ <-]; [|exact Hsame].
        split; [exact Htags|]. split; [exact Hvms|].
        split; [split|exact Hown]; cbn [users tags vms vms_tags].
        -- apply NoDup_app; [exact Hnd| |].
           ++ apply NoDup_paired. unfold missing. apply NoDup_filter, NoDup_nodup.
           ++ intros r Hin Hnew. apply in_map_iff in Hnew.
              destruct Hnew as (v & <- & Hv). unfold missing in Hv.
              apply filter_In in Hv. destruct Hv as [_ Hv].
              apply negb_true_iff in Hv. apply has_row_In in Hin. congruence.
        -- intros r Hr. apply in_app_iff in Hr. destruct Hr as [Hr|Hr];
             [now apply Hjoin|].
           apply in_map_iff in Hr. destruct Hr as (v & <- & Hv). cbn [fst snd]. split.
           ++ rewrite forallb_forall in Eall. apply Eall, existsb_exists in Hv.
              destruct Hv as (vm & Hvm & E). exists vm. split; [exact Hvm|].
              now apply N.eqb_eq.
           ++ now exists tag.
      * cbn. intros [= _ <-]. exact Hsame.
    + destruct e; cbn; intros [= _ <-]; exact Hsame.
  - destruct (is_str (action request) "unassign"); [|cbn; intros [= _ <-]; exact Hsame].
    unfold bind at 1.
    destruct (get_TagsModel_cases (assign_tag_name request) s)
      as [(tag & -> & Htag)|(e & ->)].
    + unfold bind, vms_remove, bind.
      destruct (prep_uuids_run to_uuid (vm_ids request) s) as [(us & -> & _)|(m & ->)];
        cbn; intros [= _ <-]; [|exact Hsame].
      split; [exact Htags|]. split; [exact Hvms|].
      split; [split|exact Hown]; cbn [users tags vms vms_tags].
      * now apply NoDup_filter.
      * intros r Hr. apply filter_In in Hr. now apply Hjoin.
    + destruct e; cbn; intros [= _ <-]; exact Hsame.
Qed.

Lemma VMs_post_store_ok (uuid4 : nat -> uuid) (now : string)
    (request : VMsPostData) (s s' : Store) (o : outcome JsonResponse) :
  store_ok s -> VMs_post to_int uuid4 now request s = (o, s') -> store_ok s'.
Proof.
  intros Hok Hrun. pose proof Hok as (Htags & (Hids & Hnames) & (Hnd & Hjoin) & Hown).
  pose proof (VMs_post_tags_ok to_int uuid4 now request s s' o Htags Hrun) as Htags'.
  apply VMs_post_cases in Hrun.
  destruct Hrun as [[-> _]|
                     (n & created & added & En & Hname & Hfresh & Hu & Hc & Hcown
                      & Hadd & Hnd' & Hcase)].
  - exact Hok.
  - assert (Hown' : owners_ok s').
    { intros t Ht. rewrite Hc in Ht. rewrite Hu. apply in_app_iff in Ht.
      destruct Ht as [Ht|Ht]; [now apply Hown|now apply Hcown]. }
    assert (Hgrown :
              vms s' = vms s ++ [VM.mk (uuid4 0%nat) n now] ->
              vms_tags s' = vms_tags s ++ added ->
              vms_ok s' /\ join_ok s').
    { intros Hv Ha. split; [split|split]; rewrite ?Hv, ?Ha.
      - apply NoDup_map_snoc; [exact Hids|]. cbn [VM.vm_id]. intros Hin.
        apply in_map_iff in Hin. destruct Hin as (vm & E & Hvm). now apply (Hfresh vm).
      - apply NoDup_map_snoc; [exact Hnames|]. cbn [VM.vm_name]. intros Hin.
        apply in_map_iff in Hin. destruct Hin as (vm & E & Hvm). now apply (Hname vm).
      - now apply Hnd'.
      - intros r Hr. apply in_app_iff in Hr. destruct Hr as [Hr|Hr].
        + destruct (Hjoin r Hr) as [(vm & Hvm & E) (t & Ht & E')]. split.
          * exists vm. split; [apply in_app_iff; now left|exact E].
          * exists t. split; [rewrite Hc; apply in_app_iff; now left|exact E'].
        + destruct (Hadd r Hr) as (Hfst & _ & Htag). split; [|exact Htag].
          eexists. split; [apply in_app_iff; right; now left|]. now rewrite Hfst. }
    destruct Hcase as [(_ & Hv & Ha & _)|[(_ & Hv & Ha)|(_ & Hv & Ha)]].
    + destruct (Hgrown Hv Ha) as [Hv' Hj']. exact (conj Htags' (conj Hv' (conj Hj' Hown'))).
    + split; [exact Htags'|]. split; [|split; [split|exact Hown']].
      * split; now rewrite Hv.
      * rewrite Ha. now apply NoDup_filter.
      * intros r Hr. rewrite Ha in Hr. apply filter_In in Hr. destruct Hr as [Hr _].
        destruct (Hjoin r Hr) as [(vm & Hvm & E) (t & Ht & E')]. split.
        -- exists vm. split; [now rewrite Hv|exact E].
        -- exists t. split; [rewrite Hc; apply in_app_iff; now left|exact E'].
    + destruct (Hgrown Hv Ha) as [Hv' Hj']. exact (conj Htags' (conj Hv' (conj Hj' Hown'))).
Qed.

Lemma Tags_delete_users (request : TagsDeleteQuery) (s s' : Store)
    (o : outcome JsonResponse) :
  Tags_delete to_uuid to_int request s = (o, s') -> users s' = users s.
Proof.
  intros Hrun. apply Tags_delete_inv in Hrun.
  destruct Hrun as [[-> _]|(tid & uid & u & n & _ & _ & _ & _ & _ & _ & _ & ->)];
    reflexivity.
Qed.

Lemma AssignUnassignTags_post_users (request : AssignData) (s s' : Store)
    (o : outcome JsonResponse) :
  AssignUnassignTags_post to_uuid request s = (o, s') -> users s' = users s.
Proof.
  unfold AssignUnassignTags_post, try_except.
  destruct (is_str (action request) "assign").
  - unfold bind at 1.
    destruct (get_TagsModel_cases (assign_tag_name request) s)
      as [(tag & -> & _)|(e & ->)].
    + unfold bind, vms_add, bind.
      destruct (prep_uuids_run to_uuid (vm_ids request) s) as [(us & -> & _)|(m & ->)].
      * cbn [get]. destruct (forallb _ _); cbn; now intros [= _ <-].
      * cbn. now intros [= _ <-].
    + destruct e; cbn; now intros [= _ <-].
  - destruct (is_str (action request) "unassign"); [|cbn; now intros [= _ <-]].
    unfold bind at 1.
    destruct (get_TagsModel_cases (assign_tag_name request) s)
      as [(tag & -> & _)|(e & ->)].
    + unfold bind, vms_remove, bind.
      destruct (prep_uuids_run to_uuid (vm_ids request) s) as [(us & -> & _)|(m & ->)];
        cbn; now intros [= _ <-].
    + destruct e; cbn; now intros [= _ <-].
Qed.

(** Every call of a view keeps the store well formed. *)
Lemma api_step_store_ok (s s' : Store) :
  store_ok s -> api_step to_uuid to_int s s' -> store_ok s'.
Proof.
  intros Hok Hstep. destruct Hstep as [u4 req s o s' H|req s o s' H|req s o s' H
                                      |u4 now req s o s' H|id s o s' H].
  - now apply (Tags_post_store_ok u4 req s s' o).
  - now apply (Tags_delete_store_ok req s s' o).
  - now apply (AssignUnassignTags_post_store_ok req s s' o).
  - now apply (VMs_post_store_ok u4 now req s s' o).
  - unfold VMs_delete, try_except, bind, VM_objects_get in H.
    cbn in H. injection H as _ <-. exact Hok.
Qed.

Lemma reachable_store_ok (users0 : list UserProfile.t) (s : Store) :
  reachable to_uuid to_int users0 s -> store_ok s /\ users s = users0.
Proof.
  induction 1 as [|s s' Hreach [IH Hu] Hstep].
  - split; [|reflexivity].
    unfold store_ok, tags_ok, vms_ok, join_ok, owners_ok. cbn.
    repeat match goal with |- _ /\ _ => split end;
      try apply NoDup_nil; intros ? [].
  - split; [now apply (api_step_store_ok s)|].
    rewrite <- Hu. clear - Hstep.
    destruct Hstep as [u4 req s o s' H|req s o s' H|req s o s' H
                      |u4 now req s o s' H|id s o s' H].
    + unfold Tags_post, try_except in H. unfold bind at 1 in H.
      destruct (get_UserProfile_cases to_int (post_user_id req) s)
        as [(user & E & _)|(e & E & _)]; rewrite E in H.
      * unfold bind at 1 in H.
        destruct (TagsModel_save _ s) as [[t|e] s1] eqn:Esave;
          apply TagsModel_save_inv in Esave.
        -- destruct Esave as (_ & -> & _). cbn in H. now injection H as _ <-.
        -- subst s1. destruct e; cbn in H; now injection H as _ <-.
      * destruct e; cbn in H; now injection H as _ <-.
    + now apply Tags_delete_users in H.
    + now apply AssignUnassignTags_post_users in H.
    + apply VMs_post_cases in H.
      destruct H as [[-> _]|(n & c & a & _ & _ & _ & Hu & _)]; [reflexivity|exact Hu].
    + unfold VMs_delete, try_except, bind, VM_objects_get in H.
      cbn in H. now injection H as _ <-.
Qed.

End Reachable.

Section ReachableStores.

Variable to_uuid : string -> option uuid.
Variable to_int : string -> option Z.
Variable users0 : list UserProfile.t.

(** In every store the API reaches from a store that holds users only, the
    keys of the tags and their (name, scope) pairs are unique, every tag
    has a non-empty name, and no stored scope is the empty string. *)
Theorem reachable_tags_unique (s : Store) :
  reachable to_uuid to_int users0 s -> tags_ok s.
Proof. intros H. now apply reachable_store_ok in H as [(Ht & _) _]. Qed.

(** In every store the API reaches, the keys and the names of the VMs are
    unique. *)
Theorem reachable_vms_unique (s : Store) :
  reachable to_uuid to_int users0 s -> vms_ok s.
Proof. intros H. now apply reachable_store_ok in H as [(_ & Hv & _) _]. Qed.

(** In every store the API reaches, the join table holds no pair twice,
    every pair points to a VM and to a tag of the store, every tag is owned
    by a user of the store, and the users are those the store began
    with. *)
Theorem reachable_join_sound (s : Store) :
  reachable to_uuid to_int users0 s ->
  join_ok s /\ owners_ok s /\ users s = users0.
Proof.
  intros H. apply reachable_store_ok in H as [(_ & _ & Hj & Ho) Hu]. auto.
Qed.

End ReachableStores.

(** * Instances of the further properties *)

Lemma Tags_get_filters_witness :
  exists rows,
    Tags_get uuid_of_hex int_of_decimal literal_search
      (mkTagsGet None (Some "env") None (Some "2")) store_1
    = (Ok (TagsFound rows), store_1)
    /\ In tag_env_prod rows /\ In tag_env_dev rows /\ ~ In tag_team rows.
Proof.
  destruct (Tags_get_filters uuid_of_hex int_of_decimal literal_search store_1
              (mkTagsGet None (Some "env") None (Some "2")) None (Some 2%Z))
    as (rows & Hrun & Hmem).
  - exact I.
  - reflexivity.
  - intros p [= <-]. vm_compute. discriminate.
  - intros p H. discriminate H.
  - exists rows. split; [exact Hrun|]. split; [|split].
    + apply Hmem. split; [simpl; auto|]. repeat split.
      * intros u H. discriminate H.
      * intros p [= <-]. exists "env", (contains "env"). repeat split.
      * intros p H. discriminate H.
      * intros n [= <-]. reflexivity.
    + apply Hmem. split; [simpl; auto|]. repeat split.
      * intros u H. discriminate H.
      * intros p [= <-]. exists "env", (contains "env"). repeat split.
      * intros p H. discriminate H.
      * intros n [= <-]. reflexivity.
    + intros Hin. apply Hmem in Hin. destruct Hin as (_ & _ & Hname & _).
      destruct (Hname "env" eq_refl) as (text & m & [= <-] & [= <-] & Hm).
      discriminate Hm.
Defined.

Lemma Tags_get_bad_parameter_witness :
  Tags_get uuid_of_hex int_of_decimal literal_search
    (mkTagsGet (Some "zz") None None (Some "x")) store_1
  = (Ok (TagsError
           (error 103
              (Format "error: " (ValidationError "zz is not a valid UUID.") " "))),
     store_1)
  /\ Tags_get uuid_of_hex int_of_decimal literal_search
       (mkTagsGet (Some id_17) None None (Some "x")) store_1
     = (Raise (ValueError "Field 'user_id' expected a number but got x"), store_1).
Proof.
  split.
  - apply (proj1 (Tags_get_bad_parameter uuid_of_hex int_of_decimal literal_search
                    store_1 (mkTagsGet (Some "zz") None None (Some "x")))
             "zz" eq_refl eq_refl).
  - apply (proj2 (Tags_get_bad_parameter uuid_of_hex int_of_decimal literal_search
                    store_1 (mkTagsGet (Some id_17) None None (Some "x")))
             "x" (Some 17%N)); reflexivity.
Defined.

Lemma Tags_get_pattern_not_compiling_witness :
  Tags_get uuid_of_hex int_of_decimal literal_search
    (mkTagsGet None (Some "(") (Some "infra") (Some "2")) store_1
  = (Raise (OperationalError "user-defined function raised exception"), store_1).
Proof.
  apply (Tags_get_pattern_not_compiling uuid_of_hex int_of_decimal literal_search
           store_1 (mkTagsGet None (Some "(") (Some "infra") (Some "2"))
           None (Some 2%Z) "(" "team" tag_team).
  - exact I.
  - reflexivity.
  - reflexivity.
  - reflexivity.
  - simpl; auto.
  - reflexivity.
  - intros u H. discriminate H.
  - intros ps [= <-]. exists "infra", (contains "infra"). repeat split.
  - intros n [= <-]. reflexivity.
Defined.

Lemma Tags_post_then_get_witness :
  Tags_post int_of_decimal 30 (mkTagsPost (Some "env") (Some "") (Some "1")) store_1
  = (Ok (success "Tag Added successfully" EmptyData),
     mkStore [alice; bob]
       [tag_env_prod; tag_env_dev; tag_team; TagsModel.mk 30 (Some "env") None 1]
       [vm_a; vm_b] [(161, 17)]%N)
  /\ Tags_get uuid_of_hex int_of_decimal literal_search
       (mkTagsGet (Some id_30) None None None)
       (mkStore [alice; bob]
          [tag_env_prod; tag_env_dev; tag_team; TagsModel.mk 30 (Some "env") None 1]
          [vm_a; vm_b] [(161, 17)]%N)
     = (Ok (TagsFound [TagsModel.mk 30 (Some "env") None 1]),
        mkStore [alice; bob]
          [tag_env_prod; tag_env_dev; tag_team; TagsModel.mk 30 (Some "env") None 1]
          [vm_a; vm_b] [(161, 17)]%N).
Proof.
  apply (Tags_post_then_get uuid_of_hex int_of_decimal literal_search store_1 30
           id_30 "1" "env" (Some "") 1 alice).
  - reflexivity.
  - reflexivity.
  - discriminate.
  - intros t [<-|[<-|[<-|[]]]]; discriminate.
  - intros t [<-|[<-|[<-|[]]]] [H1 H2]; discriminate.
  - reflexivity.
Defined.

Lemma Tags_post_rejects_witness :
  Tags_post int_of_decimal 30 (mkTagsPost (Some "") None (Some "7")) store_1
  = (Raise (Http404 "No UserProfile matches the given query."), store_1)
  /\ Tags_post int_of_decimal 30 (mkTagsPost (Some "") None (Some "1")) store_1
     = (Ok (error 103
              (Format "error: "
                 (ValidationError "tag_name is required and cannot be empty.") " ")),
        store_1).
Proof.
  destruct (Tags_post_rejects int_of_decimal store_1 30 (Some "") None)
    as (_ & Hunknown & _ & Hname).
  split.
  - apply (Hunknown "7" 7%Z); [reflexivity|].
    intros usr [<-|[<-|[]]]; discriminate.
  - apply (Hname "1" 1%Z alice); [reflexivity|reflexivity|now right].
Defined.

Lemma Tags_delete_removes_only_when_allowed_witness :
  vms_tags (without_tag store_1 20) = vms_tags store_1
  /\ exists tag_id user_id n,
       Some id_20 = Some tag_id
       /\ uuid_of_hex tag_id = Some 20%N
       /\ Some "2" = Some user_id /\ int_of_decimal user_id = Some n.
Proof.
  destruct (Tags_delete_removes_only_when_allowed uuid_of_hex int_of_decimal
              (mkTagsDelete (Some id_20) (Some "2")) store_1 (without_tag store_1 20)
              (Ok (mkResponse "success" 0 (Text "Tag deleted successfully.") NoData))
              eq_refl)
    as (_ & _ & Hrows & _ & Hgone).
  split; [exact Hrows|].
  destruct (Hgone tag_team) as (tid & uid & n & H1 & H2 & _ & H3 & H4 & _).
  - simpl; auto.
  - simpl. intros [H|[H|[]]]; discriminate H.
  - exists tid, uid, n. auto.
Defined.

Lemma Tags_get_after_delete_witness :
  Tags_get uuid_of_hex int_of_decimal literal_search
    (mkTagsGet (Some id_20) None None None) (without_tag store_1 20)
  = (Ok (TagsFound []), without_tag store_1 20).
Proof.
  apply (Tags_get_after_delete uuid_of_hex int_of_decimal literal_search
           (mkTagsDelete (Some id_20) (Some "2")) store_1 (without_tag store_1 20)
           (mkResponse "success" 0 (Text "Tag deleted successfully.") NoData) id_20);
    reflexivity.
Defined.

Lemma Tags_delete_bad_request_witness :
  Tags_delete uuid_of_hex int_of_decimal (mkTagsDelete (Some "None") None) store_1
  = (Ok (error 100 (Text "Tag id is required")), store_1)
  /\ Tags_delete uuid_of_hex int_of_decimal (mkTagsDelete (Some "zz") (Some "")) store_1
     = (Ok (error 400 (Text "User id is required")), store_1)
  /\ Tags_delete uuid_of_hex int_of_decimal (mkTagsDelete (Some "zz") (Some "1")) store_1
     = (Ok (error 101
              (Format "error: " (ValidationError "zz is not a valid UUID.") "")),
        store_1).
Proof.
  split; [|split].
  - apply (proj1 (Tags_delete_bad_request uuid_of_hex int_of_decimal store_1
                    (Some "None") None)). auto.
  - destruct (proj2 (Tags_delete_bad_request uuid_of_hex int_of_decimal store_1
                       (Some "zz") (Some "")) "zz" eq_refl) as [H _];
      try discriminate. apply H. auto.
  - destruct (proj2 (Tags_delete_bad_request uuid_of_hex int_of_decimal store_1
                       (Some "zz") (Some "1")) "zz" eq_refl) as [_ H];
      try discriminate. apply (H "1"); try discriminate; reflexivity.
Defined.

Lemma team_is_one_tag (t' : TagsModel.t) :
  In t' (tags store_1) -> TagsModel.tag_name t' = Some "team" -> t' = tag_team.
Proof.
  intros [<-|[<-|[<-|[]]]] H; try discriminate H; reflexivity.
Defined.

Lemma assign_associates_listed_vms_witness :
  exists s',
    AssignUnassignTags_post uuid_of_hex
      (mkAssign (Some "assign") (Some "team") [id_161; id_162; id_161]) store_1
    = (Ok (success "Tag Assigned to Objects successfully" EmptyData), s')
    /\ In (161, 20)%N (vms_tags s') /\ In (162, 20)%N (vms_tags s')
    /\ In (161, 17)%N (vms_tags s') /\ NoDup (vms_tags s').
Proof.
  destruct (assign_associates_listed_vms uuid_of_hex store_1 tag_team "team"
              [id_161; id_162; id_161] [161; 162; 161]%N NoDup_store_1)
    as (s' & Hrun & _ & _ & _ & Hrows & Hnd).
  - simpl; auto.
  - reflexivity.
  - exact team_is_one_tag.
  - repeat constructor.
  - intros v [<-|[<-|[<-|[]]]];
      [exists vm_a|exists vm_b|exists vm_a]; (split; [simpl; auto|reflexivity]).
  - exists s'. split; [exact Hrun|]. repeat split.
    + apply Hrows. right. simpl. auto.
    + apply Hrows. right. simpl. auto.
    + apply Hrows. left. simpl. auto.
    + apply Hnd. simpl. repeat constructor. intros [].
Defined.

Lemma assign_all_or_nothing_witness :
  AssignUnassignTags_post uuid_of_hex
    (mkAssign (Some "assign") (Some "team") [id_162; id_163]) store_1
  = (Ok (error 101
           (Format "error: " (IntegrityError "FOREIGN KEY constraint failed") "")),
     store_1)
  /\ exists m,
       AssignUnassignTags_post uuid_of_hex
         (mkAssign (Some "assign") (Some "team") [id_162; "zz"]) store_1
       = (Ok (error 103 (Format "error: " (ValidationError m) " ")), store_1).
Proof.
  split.
  - destruct (assign_all_or_nothing uuid_of_hex store_1 tag_team "team"
                [id_162; id_163] NoDup_store_1) as [H _].
    + simpl; auto.
    + reflexivity.
    + exact team_is_one_tag.
    + apply (H [162; 163]%N 163%N).
      * repeat constructor.
      * simpl; auto.
      * simpl. intros [H1|[]]. discriminate H1.
      * intros vm [<-|[<-|[]]]; discriminate.
  - destruct (assign_all_or_nothing uuid_of_hex store_1 tag_team "team"
                [id_162; "zz"] NoDup_store_1) as [_ H].
    + simpl; auto.
    + reflexivity.
    + exact team_is_one_tag.
    + apply (H "zz"); [simpl; auto|reflexivity].
Defined.

Lemma team_is_one_tag_3 (t' : TagsModel.t) :
  In t' (tags store_3) -> TagsModel.tag_name t' = Some "team" -> t' = tag_team.
Proof.
  intros [<-|[<-|[]]] H; try discriminate H; reflexivity.
Defined.

Lemma unassign_removes_listed_pairs_witness :
  exists s',
    AssignUnassignTags_post uuid_of_hex
      (mkAssign (Some "unassign") (Some "team") [id_161; id_163]) store_3
    = (Ok (success "Tag Unassigned from Objects successfully" EmptyData), s')
    /\ ~ In (161, 20)%N (vms_tags s') /\ In (161, 17)%N (vms_tags s').
Proof.
  destruct (unassign_removes_listed_pairs uuid_of_hex store_3 tag_team "team"
              [id_161; id_163] [161; 163]%N NoDup_store_3)
    as (s' & Hrun & _ & _ & _ & Hrows & _).
  - simpl; auto.
  - reflexivity.
  - exact team_is_one_tag_3.
  - repeat constructor.
  - exists s'. split; [exact Hrun|]. split.
    + intros Hin. apply Hrows in Hin. destruct Hin as [_ Hno]. apply Hno.
      simpl. auto.
    + apply Hrows. split; [simpl; auto|]. intros [H _]. discriminate H.
Defined.

Lemma assign_then_unassign_restores_witness :
  exists s1,
    AssignUnassignTags_post uuid_of_hex
      (mkAssign (Some "assign") (Some "team") [id_162]) store_1
    = (Ok (success "Tag Assigned to Objects successfully" EmptyData), s1)
    /\ AssignUnassignTags_post uuid_of_hex
         (mkAssign (Some "unassign") (Some "team") [id_162]) s1
       = (Ok (success "Tag Unassigned from Objects successfully" EmptyData), store_1).
Proof.
  apply (assign_then_unassign_restores uuid_of_hex store_1 tag_team "team"
           [id_162] [162]%N NoDup_store_1).
  - simpl; auto.
  - reflexivity.
  - exact team_is_one_tag.
  - repeat constructor.
  - intros v [<-|[]]. exists vm_b. split; [simpl; auto|reflexivity].
  - intros v [<-|[]]. simpl. intros [H|[]]. discriminate H.
Defined.

Lemma AssignUnassignTags_post_frame_witness :
  tags store_1_assigned = tags store_1 /\ vms store_1_assigned = vms store_1
  /\ AssignUnassignTags_post uuid_of_hex (mkAssign (Some "delete") (Some "team") [])
       store_1
     = (Ok (error 108 (Text "Invalid action")), store_1).
Proof.
  destruct (AssignUnassignTags_post_frame uuid_of_hex
              (mkAssign (Some "assign") (Some "team") [id_162]) store_1
              store_1_assigned
              (Ok (success "Tag Assigned to Objects successfully" EmptyData))
              eq_refl) as (_ & _ & Ht & Hv & _).
  split; [exact Ht|]. split; [exact Hv|].
  destruct (AssignUnassignTags_post_frame uuid_of_hex
              (mkAssign (Some "delete") (Some "team") []) store_1 _ _ eq_refl)
    as (_ & _ & _ & _ & H).
  destruct H as [Ho Hs]; try discriminate.
  reflexivity.
Defined.

Lemma NoDup_vms_store_1 : NoDup (map VM.vm_id (vms store_1)).
Proof.
  simpl. repeat constructor; simpl; intros H;
    repeat (destruct H as [H|H]; [discriminate H|]); exact H.
Defined.

Lemma VMs_get_by_id_witness :
  VMs_get uuid_of_hex literal_search (mkVMsGet (Some id_161) ["team"] []) store_1
  = (Ok (success "VMs retrieved successfully"
           (VMData [mkEntry (Some id_161) "vm-a" [(Some "env", Some "prod")]])),
     store_1)
  /\ VMs_get uuid_of_hex literal_search (mkVMsGet (Some id_163) [] []) store_1
     = (Ok (error 101
              (Format "Error: " (Http404 "No VM matches the given query.") "")),
        store_1).
Proof.
  split.
  - destruct (VMs_get_by_id uuid_of_hex literal_search store_1 id_161 ["team"] [])
      as (H & _ & _); [discriminate|].
    apply (H 161%N vm_a eq_refl NoDup_vms_store_1); [simpl; auto|reflexivity].
  - destruct (VMs_get_by_id uuid_of_hex literal_search store_1 id_163 [] [])
      as (_ & H & _); [discriminate|].
    apply (H 163%N eq_refl). intros vm [<-|[<-|[]]]; discriminate.
Defined.

Lemma VMs_get_multiplicity_witness :
  exists vm_instances,
    Permutation vm_instances [vm_a; vm_a]
    /\ VMs_get uuid_of_hex literal_search (mkVMsGet None [] ["r"]) store_3
       = (Ok (success "VMs retrieved successfully"
                (VMData (map (entry_of store_3 None) vm_instances))),
          store_3).
Proof.
  destruct (VMs_get_multiplicity uuid_of_hex literal_search store_3 None ["env"] "r"
              (contains "r") (or_introl eq_refl)) as [_ H].
  exact (H eq_refl).
Defined.

Lemma VMs_get_reads_only_witness :
  (exists entries,
     VMs_get uuid_of_hex literal_search (mkVMsGet None ["env"] []) store_1
     = (Ok (success "VMs retrieved successfully" (VMData entries)), store_1)
     /\ forall e, In e entries -> entry_vm_id e = None)
  /\ VMs_get uuid_of_hex literal_search (mkVMsGet None [] ["("]) store_1
     = (Ok (error 101
              (Format "Error: "
                 (OperationalError "user-defined function raised exception")
                 "")),
        store_1).
Proof.
  split.
  - destruct (VMs_get_reads_only uuid_of_hex literal_search
                (mkVMsGet None ["env"] []) store_1 _ _ eq_refl) as (_ & _ & H).
    destruct (H (or_introl eq_refl)) as [[_ (scope & [] & _)]|(entries & Ho & He)].
    exists entries. split; [|exact He].
    injection Ho as <-. reflexivity.
  - reflexivity.
Defined.

Lemma VMs_get_scope_not_compiling_witness :
  VMs_get uuid_of_hex literal_search (mkVMsGet None [] [" ( "]) store_1
  = (Ok (error 101
           (Format "Error: "
              (OperationalError "user-defined function raised exception") "")),
     store_1)
  /\ VMs_get uuid_of_hex literal_search (mkVMsGet None [] [" ( "]) store_4
     = (Ok (success "VMs retrieved successfully" (VMData [])), store_4).
Proof.
  split.
  - apply (proj1 (VMs_get_scope_not_compiling uuid_of_hex literal_search store_1
                    None " ( " (or_introl eq_refl) eq_refl)).
    exists vm_a, tag_env_prod, "prod". repeat split; simpl; auto.
  - apply (proj2 (VMs_get_scope_not_compiling uuid_of_hex literal_search store_4
                    None " ( " (or_introl eq_refl) eq_refl)).
    intros t [<-|[]]. reflexivity.
Defined.

Lemma VMs_post_success_attaches_every_spec_witness :
  VMs_post int_of_decimal draws "2024-02-01T00:00:00"
    (mkVMsPost (Some "vm-a") ["env:prod"] (Some "2")) store_0
  = (Ok (success "VM added successfully." EmptyData), store_0_vm_a)
  /\ exists name scope t,
       split ":" "env:prod" = [name; scope]
       /\ In t (tags store_0_vm_a) /\ TagsModel.tag_name t = Some name
       /\ (TagsModel.scope t = Some scope
           \/ (scope = "" /\ TagsModel.scope t = None))
       /\ In (draws 0, TagsModel.tag_id t) (vms_tags store_0_vm_a).
Proof.
  split; [reflexivity|].
  destruct (VMs_post_success_attaches_every_spec int_of_decimal draws
              "2024-02-01T00:00:00"
              (mkVMsPost (Some "vm-a") ["env:prod"] (Some "2")) store_0 store_0_vm_a
              (success "VM added successfully." EmptyData) eq_refl eq_refl)
    as (n & created & added & _ & _ & _ & _ & _ & _ & Hspecs).
  apply Hspecs. simpl. auto.
Defined.

Lemma VMs_post_validation_error_removes_vm_witness :
  VMs_post int_of_decimal draws "2024-02-01T00:00:00"
    (mkVMsPost (Some "vm-c") ["x:y"; ":c"] (Some "1")) store_1
  = (Ok (error 103
           (Format "Validation error: "
              (ValidationError "tag_name is required and cannot be empty.") "")),
     store_1_tag_x)
  /\ vms store_1_tag_x = vms store_1
  /\ vms_tags store_1_tag_x = vms_tags store_1
  /\ exists created, tags store_1_tag_x = tags store_1 ++ created.
Proof.
  split; [reflexivity|].
  destruct (VMs_post_validation_error_removes_vm int_of_decimal draws
              "2024-02-01T00:00:00"
              (mkVMsPost (Some "vm-c") ["x:y"; ":c"] (Some "1")) store_1 store_1_tag_x
              (error 103
                 (Format "Validation error: "
                    (ValidationError "tag_name is required and cannot be empty.") ""))
              eq_refl eq_refl) as (_ & Hv & Hr & Hc).
  - intros row [<-|[]]. discriminate.
  - auto.
Defined.

Lemma VMs_post_name_and_empty_tags_witness :
  VMs_post int_of_decimal draws "2024-02-01T00:00:00"
    (mkVMsPost (Some "vm-a") ["env:prod"] None) store_1
  = (Ok (error 102 (Text "This VM Already exists.")), store_1)
  /\ VMs_post int_of_decimal draws "2024-02-01T00:00:00"
       (mkVMsPost (Some "vm-c") [] None) store_1
     = (Ok (success "VM added successfully." EmptyData), store_1_vm_c).
Proof.
  split.
  - apply (proj1 (VMs_post_name_and_empty_tags int_of_decimal draws
                    "2024-02-01T00:00:00" "vm-a" None store_1)
             ["env:prod"] vm_a); [simpl; auto|reflexivity].
  - apply (proj2 (VMs_post_name_and_empty_tags int_of_decimal draws
                    "2024-02-01T00:00:00" "vm-c" None store_1)).
    + intros vm [<-|[<-|[]]]; discriminate.
    + intros vm [<-|[<-|[]]]; discriminate.
Defined.

Lemma VMs_post_malformed_spec_witness :
  VMs_post int_of_decimal draws "2024-02-01T00:00:00"
    (mkVMsPost (Some "vm-c") ["a:b:c"] (Some "1")) store_1
  = (Ok (error 101
           (Format "Error: "
              (ValueError "wrong number of values to unpack (expected 2)") "")),
     store_1_vm_c).
Proof.
  apply (VMs_post_malformed_spec int_of_decimal store_1 draws "2024-02-01T00:00:00"
           "vm-c" "a:b:c" [] "1" 1 alice).
  - intros vm [<-|[<-|[]]]; discriminate.
  - intros vm [<-|[<-|[]]]; discriminate.
  - reflexivity.
  - reflexivity.
  - discriminate.
Defined.

Lemma store_0_vm_a_reachable :
  reachable uuid_of_hex int_of_decimal [alice; bob] store_0_vm_a.
Proof.
  apply (reach_step uuid_of_hex int_of_decimal [alice; bob] store_0 store_0_vm_a).
  - apply reach_init.
  - apply (step_VMs_post uuid_of_hex int_of_decimal draws "2024-02-01T00:00:00"
             (mkVMsPost (Some "vm-a") ["env:prod"] (Some "2")) store_0
             (Ok (success "VM added successfully." EmptyData)) store_0_vm_a).
    reflexivity.
Defined.

Lemma reachable_tags_unique_witness : tags_ok store_0_vm_a.
Proof.
  exact (reachable_tags_unique uuid_of_hex int_of_decimal [alice; bob] store_0_vm_a
           store_0_vm_a_reachable).
Defined.

Lemma reachable_vms_unique_witness : vms_ok store_0_vm_a.
Proof.
  exact (reachable_vms_unique uuid_of_hex int_of_decimal [alice; bob] store_0_vm_a
           store_0_vm_a_reachable).
Defined.

Lemma reachable_join_sound_witness :
  join_ok store_0_vm_a /\ owners_ok store_0_vm_a /\ users store_0_vm_a = [alice; bob].
Proof.
  exact (reachable_join_sound uuid_of_hex int_of_decimal [alice; bob] store_0_vm_a
           store_0_vm_a_reachable).
Defined.

(** * The URL conf *)

Example dispatch_vms : dispatch GET "vms" = Handler VMs GET [].
Proof. reflexivity. Qed.
Example dispatch_vms_5 : dispatch DELETE "vms/5" = CallTypeError.
Proof. reflexivity. Qed.
Example dispatch_vms_x : dispatch DELETE "vms/x" = NoRoute.
Proof. reflexivity. Qed.
Example dispatch_tags_patch : dispatch PATCH "tags" = MethodNotAllowed.
Proof. reflexivity. Qed.

(** What the patterns capture: nothing, or the one keyword [id]. *)
Lemma resolve_kwargs (path : string) (v : view) (kwargs : list (string * string)) :
  resolve urlpatterns path = Some (v, kwargs) ->
  kwargs = [] \/ exists value, kwargs = [("id", value)].
Proof.
  unfold urlpatterns. cbn [resolve]. unfold match_route. cbn [literal param].
  repeat match goal with
         | |- context [strip_prefix ?pre path] =>
             destruct (strip_prefix pre path) as [[|? ?]|]
         | |- context [converter_accepts ?c ?t] => destruct (converter_accepts c t)
         end;
    intros [= <- <-]; first [now left | right; eexists; reflexivity].
Qed.

(** No request reaches a handler with a path parameter, and none reaches
    [VMs.delete]: the two routes with a parameter pass it under the keyword
    [id], which no handler accepts, and the routes without a parameter do
    not pass the [vm_id] that [VMs.delete] requires.  Such a call is a
    [TypeError] of the call itself (or the method is not allowed). *)
Theorem dispatch_never_runs_VMs_delete (m : http_method) (path : string) :
  (forall kwargs, dispatch m path <> Handler VMs DELETE kwargs)
  /\ (forall v kwargs, dispatch m path = Handler v m kwargs -> kwargs = []).
Proof.
  unfold dispatch.
  destruct (resolve urlpatterns path) as [[v kwargs]|] eqn:E;
    [|split; intros; discriminate].
  apply resolve_kwargs in E. destruct E as [->|(value & ->)].
  - split.
    + intros kw. destruct v, m; cbn; discriminate.
    + intros v' kw. destruct v, m; cbn; intros [= _ <-]; reflexivity.
  - split.
    + intros kw. destruct v, m; cbn; discriminate.
    + intros v' kw. destruct v, m; cbn; discriminate.
Qed.
